(** * Interactive block diagram canvas: the diagram model, the graph adapter,
      the generation endpoint and the canvas editing controller

    The development embeds the JavaScript sources of the repository:

    - [DiagramUtils]: the layout table [blockPositions] and the conversions
      [diagramToNodes], [connectionsToEdges], [nodesToDiagram], and the
      built-in template [generateDefaultDiagram];
    - [GenerateDiagram]: the request handler of the generation endpoint;
    - [ReactFlow]: the one library function the canvas calls on its data;
    - [DiagramCanvas]: [onConnect], [handleNodeUpdate], [handleNodeDelete];
    - [BlockNode]: the style table [blockStyles], the edit handlers and the
      part of the render that dereferences the style.

    JavaScript values are modelled by [Js.JsVal]; an operation that can throw
    returns a [Js.Result]. *)

From Stdlib Require Import ZArith String Ascii DecimalString DecimalNat.
From stdpp Require Import base option list gmap strings.

#[local] Set Warnings "-register-all".
#[local] Open Scope string_scope.
#[local] Open Scope list_scope.
#[local] Open Scope Z_scope.

(* ===================================================================== *)
(** ** JavaScript values and the operations the program applies to them *)
(* ===================================================================== *)

Module Js.

(** A value as the program meets it: the JSON values ([JSON.parse] output),
    [undefined] (what reading a missing property gives), and the built-in
    objects every object inherits from [Object.prototype].

    - numbers are the integers, printed in plain decimal (as JavaScript
      prints those below 10^21); the program tests a number for truthiness
      and compares a length with [5], nothing more;
    - a string is its sequence of code units, one [ascii] each;
    - an object is the finite map of its own properties, so two objects
      with the same properties are equal whatever the order of the fields. *)
Inductive JsVal : Type :=
  | JUndefined
  | JNull
  | JBool (b : bool)
  | JNum (n : Z)
  | JStr (s : string)
  | JArr (items : list JsVal)
  | JObj (props : gmap string JsVal)
  | JNative (name : string).

(** What a [throw] carries: an [Error] instance (with its [name] and
    [message]) or any other value. *)
Inductive Thrown : Type :=
  | ThrownError (name message : string)
  | ThrownValue (v : JsVal).

Inductive Result (A : Type) : Type :=
  | Ok (a : A)
  | Throw (t : Thrown).
Arguments Ok {A} a.
Arguments Throw {A} t.

#[global] Instance result_ret : MRet Result := @Ok.
#[global] Instance result_bind : MBind Result := λ A B f m,
  match m with
  | Ok a => f a
  | Throw t => Throw t
  end.
#[global] Instance result_fmap : FMap Result := λ A B f m,
  match m with
  | Ok a => Ok (f a)
  | Throw t => Throw t
  end.

Definition TypeError (message : string) : Thrown := ThrownError "TypeError" message.
Definition SyntaxError (message : string) : Thrown := ThrownError "SyntaxError" message.

(** [!!v]: every value is truthy except [undefined], [null], [false], [0]
    and the empty string. *)
Definition truthy (v : JsVal) : bool :=
  match v with
  | JUndefined | JNull => false
  | JBool b => b
  | JNum n => negb (n =? 0)
  | JStr s => negb (String.eqb s "")
  | JArr _ | JObj _ | JNative _ => true
  end.

(** [a || b] *)
Definition or_else (a b : JsVal) : JsVal := if truthy a then a else b.

(** [typeof v] *)
Definition typeof (v : JsVal) : string :=
  match v with
  | JUndefined => "undefined"
  | JNull => "object"
  | JBool _ => "boolean"
  | JNum _ => "number"
  | JStr _ => "string"
  | JArr _ | JObj _ => "object"
  | JNative name => if String.eqb name "Object.prototype" then "object" else "function"
  end.

(** [a === b] when at least one side is a primitive: by type and value.
    Two compound values are equal when they are the same object; the model
    keeps no object identity and answers [false] for them, and the program
    compares nothing but strings, numbers and handle ids. *)
Definition strict_equals (a b : JsVal) : bool :=
  match a, b with
  | JUndefined, JUndefined => true
  | JNull, JNull => true
  | JBool x, JBool y => Bool.eqb x y
  | JNum x, JNum y => x =? y
  | JStr x, JStr y => String.eqb x y
  | _, _ => false
  end.

Definition string_of_nat (n : nat) : string := NilZero.string_of_uint (Nat.to_uint n).
Definition string_of_Z (n : Z) : string := NilZero.string_of_int (Z.to_int n).

(** [String(v)], the conversion behind template literals and computed
    property keys. An array joins its elements with commas ([null] and
    [undefined] print as nothing). A plain object prints through
    [Object.prototype.toString]; when an own [toString] property hides it
    (in parsed JSON that property is never callable) the conversion throws. *)
Fixpoint ToString (v : JsVal) : Result string :=
  match v with
  | JUndefined => Ok "undefined"
  | JNull => Ok "null"
  | JBool true => Ok "true"
  | JBool false => Ok "false"
  | JNum n => Ok (string_of_Z n)
  | JStr s => Ok s
  | JArr items =>
      (fix join (l : list JsVal) : Result string :=
         match l with
         | [] => Ok ""
         | x :: rest =>
             s ← match x with
                 | JUndefined | JNull => Ok ""
                 | _ => ToString x
                 end;
             match rest with
             | [] => Ok s
             | _ :: _ => r ← join rest; Ok (s +:+ "," +:+ r)
             end
         end) items
  | JObj props =>
      match props !! "toString" with
      | None => Ok "[object Object]"
      | Some _ => Throw (TypeError "Cannot convert object to primitive value")
      end
  | JNative name =>
      if String.eqb name "Object.prototype" then Ok "[object Object]"
      else Ok ("function " +:+ name +:+ "() { [native code] }")
  end.

(** The key of a computed member access [o[v]]. *)
Definition ToPropertyKey (v : JsVal) : Result string := ToString v.

(** The properties every ordinary object inherits from [Object.prototype]. *)
Definition Object_prototype : gmap string JsVal :=
  list_to_map
    [ ("constructor", JNative "Object");
      ("hasOwnProperty", JNative "hasOwnProperty");
      ("isPrototypeOf", JNative "isPrototypeOf");
      ("propertyIsEnumerable", JNative "propertyIsEnumerable");
      ("toLocaleString", JNative "toLocaleString");
      ("toString", JNative "toString");
      ("valueOf", JNative "valueOf");
      ("__proto__", JNative "Object.prototype");
      ("__defineGetter__", JNative "__defineGetter__");
      ("__defineSetter__", JNative "__defineSetter__");
      ("__lookupGetter__", JNative "__lookupGetter__");
      ("__lookupSetter__", JNative "__lookupSetter__") ].

Definition inherited (key : string) : JsVal :=
  default JUndefined (Object_prototype !! key).

(** [o.key] / [o[key]] on an ordinary object: the own property, else the
    inherited one, else [undefined]. *)
Definition get_prop (o : gmap string JsVal) (key : string) : JsVal :=
  match o !! key with
  | Some v => v
  | None => inherited key
  end.

(** The array index a property key denotes, if any ([0], [1], ...). *)
Definition index_of_key (key : string) : option nat :=
  match NilEmpty.uint_of_string key with
  | Some u =>
      let n := Nat.of_uint u in
      if String.eqb (string_of_nat n) key then Some n else None
  | None => None
  end.

Definition string_at (s : string) (i : nat) : JsVal :=
  match String.get i s with
  | Some c => JStr (String c EmptyString)
  | None => JUndefined
  end.

(** [v.key] on any value. Reading a property of [undefined] or [null]
    throws. Arrays and strings answer [length] and their indices. Inherited
    properties are those of [Object.prototype]; the methods of the other
    built-in prototypes (of arrays, strings, numbers, functions) are outside
    the model, the program reads none of them as data. *)
Definition get (v : JsVal) (key : string) : Result JsVal :=
  match v with
  | JUndefined =>
      Throw (TypeError ("Cannot read properties of undefined (reading '" +:+ key +:+ "')"))
  | JNull =>
      Throw (TypeError ("Cannot read properties of null (reading '" +:+ key +:+ "')"))
  | JObj o => Ok (get_prop o key)
  | JArr items =>
      if String.eqb key "length" then Ok (JNum (Z.of_nat (length items)))
      else match index_of_key key with
           | Some i => Ok (default JUndefined (items !! i))
           | None => Ok (inherited key)
           end
  | JStr s =>
      if String.eqb key "length" then Ok (JNum (Z.of_nat (String.length s)))
      else match index_of_key key with
           | Some i => Ok (string_at s i)
           | None => Ok (inherited key)
           end
  | JBool _ | JNum _ | JNative _ => Ok (inherited key)
  end.

(** [v?.key] *)
Definition opt_get (v : JsVal) (key : string) : Result JsVal :=
  match v with
  | JUndefined | JNull => Ok JUndefined
  | _ => get v key
  end.

(** The elements an array method such as [v.map(...)] or [v.filter(...)]
    works on: only an array has these methods. *)
Definition array_receiver (v : JsVal) (method : string) : Result (list JsVal) :=
  match v with
  | JArr items => Ok items
  | JUndefined | JNull => _ ← get v method; Ok []
  | _ => Throw (TypeError (method +:+ " is not a function"))
  end.

(** [s.includes(sub)] *)
Fixpoint includes (s sub : string) : bool :=
  String.prefix sub s ||
  match s with
  | EmptyString => false
  | String _ rest => includes rest sub
  end.

(** [{ ...a, ...b }]: the properties of [b] win. *)
Definition spread (a b : gmap string JsVal) : gmap string JsVal := b ∪ a.

End Js.

Export Js.

(* ===================================================================== *)
(** ** The diagram utilities (the graph adapter and the layout table) *)
(* ===================================================================== *)

(** The conversions between a diagram and the nodes and edges of the
    canvas. The export to a file, which wraps [nodesToDiagram] in a
    download, is left out. *)

Module DiagramUtils.

(** The canonical diagram. A field holds the value a property read gives:
    [JUndefined] stands for a property that is absent or [undefined] (a JSON
    document cannot tell the two apart). *)
Record Block : Type := {
  block_id : JsVal;
  block_type : JsVal;
  block_title : JsVal;
  block_components : JsVal;
  block_annotation : JsVal;
}.

Record Connection : Type := {
  conn_source : JsVal;
  conn_target : JsVal;
  conn_label : JsVal;
}.

Record Diagram : Type := {
  blocks : list Block;
  connections : list Connection;
}.

(** The presentation layer: React Flow nodes and edges. *)
Record Node : Type := {
  node_id : JsVal;
  node_type : string;
  node_position : JsVal;
  node_data : gmap string JsVal;
  node_draggable : bool;
}.

Record EdgeStyle : Type := {
  stroke : string;
  strokeWidth : Z;
}.

Inductive MarkerType : Type := Arrow | ArrowClosed.

Record EdgeMarker : Type := {
  marker_type : MarkerType;
  marker_color : string;
}.

Record Edge : Type := {
  edge_id : string;
  edge_source : JsVal;
  edge_target : JsVal;
  edge_sourceHandle : JsVal;
  edge_targetHandle : JsVal;
  edge_label : JsVal;
  edge_type : string;
  edge_animated : bool;
  edge_style : EdgeStyle;
  edge_markerEnd : EdgeMarker;
}.

(** [{ x, y }] *)
Definition coord (x y : Z) : JsVal := JObj {[ "x" := JNum x; "y" := JNum y ]}.

Definition blockPositions : gmap string JsVal :=
  {[ "power" := coord 50 200;
     "inputs" := coord 350 50;
     "processing" := coord 650 200;
     "outputs" := coord 950 50;
     "peripherals" := coord 650 400 ]}.

(** [blockPositions[type] || { x: 400, y: 200 }] for a type already turned
    into a property key. *)
Definition position_of_key (key : string) : JsVal :=
  or_else (get_prop blockPositions key) (coord 400 200).

Definition block_to_node (block : Block) : Result Node :=
  key ← ToPropertyKey (block_type block);
  mret {| node_id := block_id block;
          node_type := "block";
          node_position := position_of_key key;
          node_data := {[ "type" := block_type block;
                          "title" := block_title block;
                          "components" := block_components block;
                          "annotation" := block_annotation block ]};
          node_draggable := true |}.

Definition diagramToNodes (diagram : Diagram) : Result (list Node) :=
  mapM block_to_node (blocks diagram).

Definition connection_to_edge (index : nat) (conn : Connection) : Result Edge :=
  source ← ToString (conn_source conn);
  target ← ToString (conn_target conn);
  mret {| edge_id := "edge-" +:+ source +:+ "-" +:+ target +:+ "-" +:+ string_of_nat index;
          edge_source := conn_source conn;
          edge_target := conn_target conn;
          edge_sourceHandle := JUndefined;
          edge_targetHandle := JUndefined;
          edge_label := conn_label conn;
          edge_type := "smoothstep";
          edge_animated := true;
          edge_style := {| stroke := "hsl(199 89% 48%)"; strokeWidth := 2 |};
          edge_markerEnd := {| marker_type := ArrowClosed;
                               marker_color := "hsl(199 89% 48%)" |} |}.

Definition connectionsToEdges (connections : list Connection) : Result (list Edge) :=
  mapM id (imap connection_to_edge connections).

Definition node_to_block (node : Node) : Block :=
  {| block_id := node_id node;
     block_type := get_prop (node_data node) "type";
     block_title := get_prop (node_data node) "title";
     block_components := get_prop (node_data node) "components";
     block_annotation := get_prop (node_data node) "annotation" |}.

Definition edge_to_connection (edge : Edge) : Connection :=
  {| conn_source := edge_source edge;
     conn_target := edge_target edge;
     conn_label := if String.eqb (typeof (edge_label edge)) "string"
                   then edge_label edge else JUndefined |}.

Definition nodesToDiagram (nodes : list Node) (edges : list Edge) : Diagram :=
  {| blocks := node_to_block <$> nodes;
     connections := edge_to_connection <$> edges |}.

Definition strings (l : list string) : JsVal := JArr (JStr <$> l).

Definition generateDefaultDiagram : Diagram :=
  {| blocks :=
       [ {| block_id := JStr "power-1"; block_type := JStr "power";
            block_title := JStr "Power Supply";
            block_components := strings ["Battery"; "Voltage Regulator"];
            block_annotation := JUndefined |};
         {| block_id := JStr "inputs-1"; block_type := JStr "inputs";
            block_title := JStr "Inputs Block";
            block_components := strings ["Sensor Module"; "Button Interface"];
            block_annotation := JUndefined |};
         {| block_id := JStr "processing-1"; block_type := JStr "processing";
            block_title := JStr "Control and Processing";
            block_components := strings ["Microcontroller"; "Memory"];
            block_annotation := JUndefined |};
         {| block_id := JStr "outputs-1"; block_type := JStr "outputs";
            block_title := JStr "Outputs Block";
            block_components := strings ["LED Indicator"; "Display"];
            block_annotation := JUndefined |};
         {| block_id := JStr "peripherals-1"; block_type := JStr "peripherals";
            block_title := JStr "Other Peripherals";
            block_components := strings ["Debug Interface"; "External Connector"];
            block_annotation := JUndefined |} ];
     connections :=
       [ {| conn_source := JStr "power-1"; conn_target := JStr "processing-1";
            conn_label := JStr "VCC" |};
         {| conn_source := JStr "inputs-1"; conn_target := JStr "processing-1";
            conn_label := JStr "Data" |};
         {| conn_source := JStr "processing-1"; conn_target := JStr "outputs-1";
            conn_label := JStr "Control" |};
         {| conn_source := JStr "processing-1"; conn_target := JStr "peripherals-1";
            conn_label := JStr "I/O" |} ] |}.

End DiagramUtils.

(* ===================================================================== *)
(** ** The generation endpoint *)
(* ===================================================================== *)

(** The handler passed to [serve], as a function of the request and of the
    world around it. Its effects are the calls of the gateway; what it
    writes to the console is left out. *)

Module GenerateDiagram.

(** What the handler reads of a request: its method, and what
    [await req.json()] gives (the parsed body, or the error it throws). *)
Record Request : Type := {
  req_method : string;
  req_json : Result JsVal;
}.

(** [new Response(body, { status, headers })]. The body is [None] for
    [null], and [Some v] for the text [JSON.stringify(v)]. *)
Record Response : Type := {
  status : Z;
  headers : gmap string string;
  body : option JsVal;
}.

(** A call [fetch(url, { method, headers, body: JSON.stringify(v) })]. *)
Record FetchCall : Type := {
  fetch_url : string;
  fetch_method : string;
  fetch_headers : gmap string string;
  fetch_body : JsVal;
}.

(** A response of the model gateway: its status and the text of its body.
    Whether a read of the body succeeds is the world's ([response_text]). *)
Record GatewayResponse : Type := {
  gw_status : Z;
  gw_text : string;
}.

(** [response.ok]: the status is in the range 200-299. *)
Definition ok (response : GatewayResponse) : bool :=
  (200 <=? gw_status response) && (gw_status response <=? 299).

(** What the handler depends on from outside: the environment variables,
    the gateway behind [fetch] (an answer, or the error [fetch] rejects
    with), the read [await response.text()] of an answer's body (the text,
    or the error the read rejects with), and the built-in [JSON.parse];
    [await response.json()] is [JSON_parse] on the text of the body, and a
    read or a parse that fails is an error of it. *)
Record World : Type := {
  env_get : string → option string;
  fetch : FetchCall → Result GatewayResponse;
  response_text : GatewayResponse → Result string;
  JSON_parse : JsVal → Result JsVal;
}.

(** The handler's effects: a computation gives a result or throws, and
    records the gateway calls it made. *)
Definition Handler (A : Type) : Type := (Result A * list FetchCall)%type.

Definition h_lift {A} (r : Result A) : Handler A := (r, []).

Definition h_bind {A B} (m : Handler A) (f : A → Handler B) : Handler B :=
  match m with
  | (Ok a, calls) => let '(r, calls') := f a in (r, (calls ++ calls')%list)
  | (Throw t, calls) => (Throw t, calls)
  end.

Definition h_fetch (w : World) (call : FetchCall) : Handler GatewayResponse :=
  (fetch w call, [call]).

Notation "'let*' x := m 'in' k" := (h_bind m (λ x, k))
  (at level 10, x name, m at level 100, k at level 200, only parsing).

Definition obj (fields : list (string * JsVal)) : JsVal := JObj (list_to_map fields).

Definition quote : string := String (ascii_of_nat 34) EmptyString.

Definition corsHeaders : gmap string string :=
  {[ "Access-Control-Allow-Origin" := "*";
     "Access-Control-Allow-Headers" := "authorization, x-client-info, apikey, content-type" ]}.

Definition SYSTEM_PROMPT : string :=
"You are an electronics system architect that converts natural language descriptions of electronics products into structured block diagrams.

CRITICAL RULES:
1. You MUST always generate EXACTLY 5 blocks, no more, no less
2. The 5 blocks are ALWAYS:
   - Power Supply
   - Inputs Block
   - Control and Processing Block
   - Outputs Block
   - Other Peripherals

For each block, you must infer appropriate electronic components based on the product description.
If the description doesn't mention specific components for a block, use sensible defaults.

COMPONENT GUIDELINES:
- Power Supply: Include power sources (battery, USB, AC adapter), voltage regulators, power management ICs
- Inputs Block: Sensors, buttons, switches, microphones, cameras, touch interfaces, wireless receivers
- Control and Processing Block: MCU, CPU, FPGA, memory, clock, communication interfaces
- Outputs Block: Displays, LEDs, speakers, motors, actuators, wireless transmitters
- Other Peripherals: Storage, connectivity modules, debugging interfaces, external connectors

You must respond with a JSON object using tool calling. The response must follow the exact schema provided.".

Definition string_field (description : string) : JsVal :=
  obj [("type", JStr "string"); ("description", JStr description)].

(** The output schema sent with the request (the [parameters] of the tool). *)
Definition tool_parameters : JsVal :=
  obj [ ("type", JStr "object");
        ("properties", obj
           [ ("blocks", obj
                [ ("type", JStr "array");
                  ("items", obj
                     [ ("type", JStr "object");
                       ("properties", obj
                          [ ("id", string_field "Unique identifier for the block");
                            ("type", obj
                               [ ("type", JStr "string");
                                 ("enum", JArr [JStr "power"; JStr "inputs"; JStr "processing";
                                                JStr "outputs"; JStr "peripherals"]);
                                 ("description", JStr "Block type category") ]);
                            ("title", string_field "Display title for the block");
                            ("components", obj
                               [ ("type", JStr "array");
                                 ("items", obj [("type", JStr "string")]);
                                 ("description",
                                  JStr "List of electronic components in this block") ]);
                            ("annotation", string_field "Optional annotation or notes") ]);
                       ("required", JArr [JStr "id"; JStr "type"; JStr "title";
                                          JStr "components"]) ]);
                  ("minItems", JNum 5);
                  ("maxItems", JNum 5) ]);
             ("connections", obj
                [ ("type", JStr "array");
                  ("items", obj
                     [ ("type", JStr "object");
                       ("properties", obj
                          [ ("source", string_field "Source block ID");
                            ("target", string_field "Target block ID");
                            ("label", string_field "Connection label") ]);
                       ("required", JArr [JStr "source"; JStr "target"]) ]);
                  ("description", JStr "Connections between blocks") ]) ]);
        ("required", JArr [JStr "blocks"; JStr "connections"]) ].

Definition user_prompt (description : string) : string :=
  "Generate a block diagram for the following electronics product: " +:+
  quote +:+ description +:+ quote +:+ "
            
Make sure to include relevant components for each of the 5 required blocks based on the product description.".

Definition gateway_call (api_key description : string) : FetchCall :=
  {| fetch_url := "https://ai.gateway.lovable.dev/v1/chat/completions";
     fetch_method := "POST";
     fetch_headers := {[ "Authorization" := "Bearer " +:+ api_key;
                         "Content-Type" := "application/json" ]};
     fetch_body := obj
       [ ("model", JStr "google/gemini-3-flash-preview");
         ("messages", JArr
            [ obj [("role", JStr "system"); ("content", JStr SYSTEM_PROMPT)];
              obj [("role", JStr "user"); ("content", JStr (user_prompt description))] ]);
         ("tools", JArr
            [ obj [ ("type", JStr "function");
                    ("function", obj
                       [ ("name", JStr "generate_block_diagram");
                         ("description",
                          JStr "Generate a structured block diagram with exactly 5 blocks");
                         ("parameters", tool_parameters) ]) ] ]);
         ("tool_choice", obj
            [ ("type", JStr "function");
              ("function", obj [("name", JStr "generate_block_diagram")]) ]) ] |}.

Definition json_response (st : Z) (v : JsVal) : Response :=
  {| status := st;
     headers := <["Content-Type" := "application/json"]> corsHeaders;
     body := Some v |}.

Definition error_response (st : Z) (message : string) : Response :=
  json_response st (obj [("error", JStr message)]).

(** [const { description } = body]: destructuring [null] or [undefined]
    throws, any other value is read like [body.description]. *)
Definition destructure (v : JsVal) (key : string) : Result JsVal :=
  match v with
  | JUndefined =>
      Throw (TypeError ("Cannot destructure property '" +:+ key +:+ "' as it is undefined."))
  | JNull =>
      Throw (TypeError ("Cannot destructure property '" +:+ key +:+ "' as it is null."))
  | _ => get v key
  end.

(** The validation of the parsed tool-call arguments, and the answer that
    follows it. *)
Definition validate_blocks (diagramData : JsVal) : Result Response :=
  blocks ← get diagramData "blocks";
  invalid ← (if negb (truthy blocks) then mret true
             else len ← get blocks "length";
                  mret (negb (strict_equals len (JNum 5))));
  if (invalid : bool)
  then mret (error_response 500 "AI did not generate exactly 5 blocks")
  else mret (json_response 200 (obj [("diagram", diagramData)])).

(** From the gateway's JSON answer to the endpoint's response. *)
Definition extract_tool_call (w : World) (data : JsVal) : Result Response :=
  choices ← get data "choices";
  choice ← opt_get choices "0";
  message ← opt_get choice "message";
  tool_calls ← opt_get message "tool_calls";
  toolCall ← opt_get tool_calls "0";
  unexpected ← (if negb (truthy toolCall) then mret true
                else fn ← get toolCall "function";
                     name ← get fn "name";
                     mret (negb (strict_equals name (JStr "generate_block_diagram"))));
  if (unexpected : bool)
  then mret (error_response 500 "Invalid response from AI")
  else
    fn ← get toolCall "function";
    arguments ← get fn "arguments";
    diagramData ← JSON_parse w arguments;
    validate_blocks diagramData.

Definition on_gateway_response (w : World) (response : GatewayResponse) : Result Response :=
  if negb (ok response) then
    errorText ← response_text w response;
    if gw_status response =? 429 then
      mret (error_response 429 "Rate limit exceeded. Please try again later.")
    else if gw_status response =? 402 then
      mret (error_response 402 "Usage limit reached. Please add credits.")
    else
      mret (error_response 500 "Failed to generate diagram")
  else
    data ← JSON_parse w (JStr (gw_text response));
    extract_tool_call w data.

(** The body of the [try] block. *)
Definition try_block (w : World) (req : Request) : Handler Response :=
  let* body := h_lift (req_json req) in
  let* description := h_lift (destructure body "description") in
  if negb (truthy description) || negb (String.eqb (typeof description) "string") then
    h_lift (mret (error_response 400 "Description is required"))
  else
    let LOVABLE_API_KEY := env_get w "LOVABLE_API_KEY" in
    match LOVABLE_API_KEY with
    | None | Some "" =>
        h_lift (mret (error_response 500 "AI service not configured"))
    | Some api_key =>
        let* text := h_lift (ToString description) in
        let* response := h_fetch w (gateway_call api_key text) in
        h_lift (on_gateway_response w response)
    end.

(** [error instanceof Error ? error.message : "Unknown error"] *)
Definition catch_message (t : Thrown) : string :=
  match t with
  | ThrownError _ message => message
  | ThrownValue _ => "Unknown error"
  end.

(** The request handler: the response, and the gateway calls made. *)
Definition serve (w : World) (req : Request) : Response * list FetchCall :=
  if String.eqb (req_method req) "OPTIONS" then
    ({| status := 200; headers := corsHeaders; body := None |}, [])
  else
    match try_block w req with
    | (Ok response, calls) => (response, calls)
    | (Throw t, calls) => (error_response 500 (catch_message t), calls)
    end.

End GenerateDiagram.

(* ===================================================================== *)
(** ** React Flow: the library function behind the connect gesture *)
(* ===================================================================== *)

Module ReactFlow.
Import DiagramUtils.

(** What a connect gesture reports: node ids and handle ids, each a string
    or [null]. *)
Record Connection : Type := {
  source : option string;
  target : option string;
  sourceHandle : option string;
  targetHandle : option string;
}.

(** The edge options a caller merges into the connection. *)
Record EdgeOptions : Type := {
  opt_type : string;
  opt_animated : bool;
  opt_style : EdgeStyle;
  opt_markerEnd : EdgeMarker;
}.

Definition nullable (v : option string) : JsVal :=
  match v with
  | Some s => JStr s
  | None => JNull
  end.

(** [`${v}`] for a string or [null] *)
Definition text (v : option string) : string := default "null" v.

(** [`${v || ''}`] *)
Definition text_or_empty (v : option string) : string := default "" v.

Definition getEdgeId (c : Connection) : string :=
  "reactflow__edge-" +:+ text (source c) +:+ text_or_empty (sourceHandle c) +:+
  "-" +:+ text (target c) +:+ text_or_empty (targetHandle c).

Definition same_handle (a b : JsVal) : bool :=
  strict_equals a b || (negb (truthy a) && negb (truthy b)).

Definition same_connection (el edge : Edge) : bool :=
  strict_equals (edge_source el) (edge_source edge) &&
  strict_equals (edge_target el) (edge_target edge) &&
  same_handle (edge_sourceHandle el) (edge_sourceHandle edge) &&
  same_handle (edge_targetHandle el) (edge_targetHandle edge).

Definition connectionExists (edge : Edge) (edges : list Edge) : bool :=
  existsb (λ el, same_connection el edge) edges.

(** The edge [{ ...connection, ...options, id: getEdgeId(connection) }]. *)
Definition edge_of_connection (c : Connection) (o : EdgeOptions) : Edge :=
  {| edge_id := getEdgeId c;
     edge_source := nullable (source c);
     edge_target := nullable (target c);
     edge_sourceHandle := nullable (sourceHandle c);
     edge_targetHandle := nullable (targetHandle c);
     edge_label := JUndefined;
     edge_type := opt_type o;
     edge_animated := opt_animated o;
     edge_style := opt_style o;
     edge_markerEnd := opt_markerEnd o |}.

(** [addEdge(edgeParams, edges)] of the reactflow package, for parameters
    without an [id] (a connection with edge options, which is all the canvas
    passes). This is library code, not code of the repository; it is written
    here as the library documents and implements it: a connection without
    source or target is ignored, an edge that duplicates an existing
    connection is not added, any other is appended with a generated id. *)
Definition addEdge (c : Connection) (o : EdgeOptions) (edges : list Edge) : list Edge :=
  if negb (truthy (nullable (source c))) || negb (truthy (nullable (target c))) then edges
  else
    let edge := edge_of_connection c o in
    if connectionExists edge edges then edges
    else (edges ++ [edge])%list.

End ReactFlow.

(* ===================================================================== *)
(** ** The diagram canvas: the editing controller *)
(* ===================================================================== *)

(** The callbacks of the canvas that edit the working set. A node id that
    reaches a callback is a string, as React Flow types it. The changes
    React Flow itself applies (dragging, selecting) are left out. *)

Module DiagramCanvas.
Import DiagramUtils.

(** The working set the canvas owns ([nodes], [edges]) and the copy the
    page keeps ([parent_nodes], [parent_edges]), which [onNodesChange] and
    [onEdgesChange] overwrite. *)
Record Canvas : Type := {
  nodes : list Node;
  edges : list Edge;
  parent_nodes : list Node;
  parent_edges : list Edge;
}.

Definition defaultEdgeOptions : ReactFlow.EdgeOptions :=
  {| ReactFlow.opt_type := "smoothstep";
     ReactFlow.opt_animated := true;
     ReactFlow.opt_style := {| stroke := "hsl(199 89% 48%)"; strokeWidth := 2 |};
     ReactFlow.opt_markerEnd := {| marker_type := ArrowClosed;
                                   marker_color := "hsl(199 89% 48%)" |} |}.

Definition onConnect (params : ReactFlow.Connection) (c : Canvas) : Canvas :=
  let newEdges := ReactFlow.addEdge params defaultEdgeOptions (edges c) in
  {| nodes := nodes c;
     edges := newEdges;
     parent_nodes := parent_nodes c;
     parent_edges := newEdges |}.

(** [{ ...node, data: { ...node.data, ...newData } }] *)
Definition merge_data (newData : gmap string JsVal) (node : Node) : Node :=
  {| node_id := node_id node;
     node_type := node_type node;
     node_position := node_position node;
     node_data := spread (node_data node) newData;
     node_draggable := node_draggable node |}.

Definition handleNodeUpdate (nodeId : string) (newData : gmap string JsVal)
    (c : Canvas) : Canvas :=
  let updatedNodes :=
    (λ node, if strict_equals (node_id node) (JStr nodeId)
             then merge_data newData node else node) <$> nodes c in
  {| nodes := updatedNodes;
     edges := edges c;
     parent_nodes := updatedNodes;
     parent_edges := parent_edges c |}.

Definition handleNodeDelete (nodeId : string) (c : Canvas) : Canvas :=
  let updatedNodes :=
    List.filter (λ node, negb (strict_equals (node_id node) (JStr nodeId))) (nodes c) in
  let updatedEdges :=
    List.filter (λ edge, negb (strict_equals (edge_source edge) (JStr nodeId)) &&
                         negb (strict_equals (edge_target edge) (JStr nodeId))) (edges c) in
  {| nodes := updatedNodes;
     edges := updatedEdges;
     parent_nodes := updatedNodes;
     parent_edges := updatedEdges |}.

End DiagramCanvas.

(* ===================================================================== *)
(** ** The block node component *)
(* ===================================================================== *)

Module BlockNode.

Definition style_entry (className icon : string) : JsVal :=
  JObj {[ "className" := JStr className; "icon" := JStr icon ]}.

Definition blockStyles : gmap string JsVal :=
  {[ "power" := style_entry "block-power" "⚡";
     "inputs" := style_entry "block-inputs" "📥";
     "processing" := style_entry "block-processing" "🔧";
     "outputs" := style_entry "block-outputs" "📤";
     "peripherals" := style_entry "block-peripherals" "🔌" ]}.

(** The props React Flow hands to the component for one node. *)
Record Props : Type := {
  id : string;
  data : gmap string JsVal;
  selected : bool;
}.

(** The component's own state (its [useState] cells). *)
Record State : Type := {
  isEditing : bool;
  editTitle : JsVal;
  editComponents : JsVal;
  editAnnotation : JsVal;
  showAnnotation : bool;
  newComponent : string;
}.

Definition initial_state (props : Props) : State :=
  {| isEditing := false;
     editTitle := get_prop (data props) "title";
     editComponents := get_prop (data props) "components";
     editAnnotation := or_else (get_prop (data props) "annotation") (JStr "");
     showAnnotation := truthy (get_prop (data props) "annotation");
     newComponent := "" |}.

(** The object [handleSave] passes to [onUpdate]. *)
Definition edited_fields (st : State) : gmap string JsVal :=
  {[ "title" := editTitle st;
     "components" := editComponents st;
     "annotation" := or_else (editAnnotation st) JUndefined ]}.

Definition set_isEditing (b : bool) (st : State) : State :=
  {| isEditing := b;
     editTitle := editTitle st;
     editComponents := editComponents st;
     editAnnotation := editAnnotation st;
     showAnnotation := showAnnotation st;
     newComponent := newComponent st |}.

(** [handleSave]; [onUpdate] is the callback the canvas passes (or none),
    [C] the state that callback works on. *)
Definition handleSave {C : Type}
    (onUpdate : option (string → gmap string JsVal → C → C))
    (props : Props) (st : State) (c : C) : State * C :=
  let c' := match onUpdate with
            | Some update => update (id props) (edited_fields st) c
            | None => c
            end in
  (set_isEditing false st, c').

Definition handleCancel (props : Props) (st : State) : State :=
  {| isEditing := false;
     editTitle := get_prop (data props) "title";
     editComponents := get_prop (data props) "components";
     editAnnotation := or_else (get_prop (data props) "annotation") (JStr "");
     showAnnotation := showAnnotation st;
     newComponent := newComponent st |}.

(** The white space [trim] removes, among the code units below 256. *)
Definition is_space (c : ascii) : bool :=
  let n := nat_of_ascii c in
  ((9 <=? n)%nat && (n <=? 13)%nat) || (n =? 32)%nat || (n =? 160)%nat.

Fixpoint trim_start (s : string) : string :=
  match s with
  | String c rest => if is_space c then trim_start rest else s
  | EmptyString => EmptyString
  end.

Fixpoint trim_end (s : string) : string :=
  match s with
  | String c rest =>
      match trim_end rest with
      | EmptyString => if is_space c then EmptyString else String c EmptyString
      | rest' => String c rest'
      end
  | EmptyString => EmptyString
  end.

Definition trim (s : string) : string := trim_end (trim_start s).

Fixpoint characters (s : string) : list JsVal :=
  match s with
  | String c rest => JStr (String c EmptyString) :: characters rest
  | EmptyString => []
  end.

(** The elements [[...v]] spreads: of an array or of a string; anything
    else is not iterable. *)
Definition iterate (v : JsVal) : Result (list JsVal) :=
  match v with
  | JArr items => Ok items
  | JStr s => Ok (characters s)
  | _ => Throw (TypeError "prev is not iterable")
  end.

Definition handleAddComponent (st : State) : Result State :=
  if truthy (JStr (trim (newComponent st))) then
    prev ← iterate (editComponents st);
    mret {| isEditing := isEditing st;
            editTitle := editTitle st;
            editComponents := JArr (prev ++ [JStr (trim (newComponent st))])%list;
            editAnnotation := editAnnotation st;
            showAnnotation := showAnnotation st;
            newComponent := "" |}
  else mret st.

(** [l.filter((_, i) => i !== index)] *)
Fixpoint remove_at {A} (index : nat) (l : list A) : list A :=
  match l, index with
  | [], _ => []
  | _ :: rest, O => rest
  | x :: rest, S i => x :: remove_at i rest
  end.

Definition handleRemoveComponent (index : nat) (st : State) : Result State :=
  prev ← array_receiver (editComponents st) "filter";
  mret {| isEditing := isEditing st;
          editTitle := editTitle st;
          editComponents := JArr (remove_at index prev);
          editAnnotation := editAnnotation st;
          showAnnotation := showAnnotation st;
          newComponent := newComponent st |}.

(** The user's actions on a block. *)
Inductive Event : Type :=
  | StartEditing
  | ToggleAnnotation
  | TypeTitle (text : string)
  | TypeAnnotation (text : string)
  | TypeNewComponent (text : string)
  | AddComponent
  | RemoveComponent (index : nat)
  | Save
  | Cancel.

(** One action, on the component's state and the state [C] behind
    [onUpdate]. *)
Definition dispatch {C : Type}
    (onUpdate : option (string → gmap string JsVal → C → C))
    (props : Props) (ev : Event) (s : State * C) : Result (State * C) :=
  let '(st, c) := s in
  match ev with
  | StartEditing => mret (set_isEditing true st, c)
  | ToggleAnnotation =>
      mret ({| isEditing := isEditing st;
               editTitle := editTitle st;
               editComponents := editComponents st;
               editAnnotation := editAnnotation st;
               showAnnotation := negb (showAnnotation st);
               newComponent := newComponent st |}, c)
  | TypeTitle text =>
      mret ({| isEditing := isEditing st;
               editTitle := JStr text;
               editComponents := editComponents st;
               editAnnotation := editAnnotation st;
               showAnnotation := showAnnotation st;
               newComponent := newComponent st |}, c)
  | TypeAnnotation text =>
      mret ({| isEditing := isEditing st;
               editTitle := editTitle st;
               editComponents := editComponents st;
               editAnnotation := JStr text;
               showAnnotation := showAnnotation st;
               newComponent := newComponent st |}, c)
  | TypeNewComponent text =>
      mret ({| isEditing := isEditing st;
               editTitle := editTitle st;
               editComponents := editComponents st;
               editAnnotation := editAnnotation st;
               showAnnotation := showAnnotation st;
               newComponent := text |}, c)
  | AddComponent => st' ← handleAddComponent st; mret (st', c)
  | RemoveComponent index => st' ← handleRemoveComponent index st; mret (st', c)
  | Save => mret (handleSave onUpdate props st c)
  | Cancel => mret (handleCancel props st, c)
  end.

(** A sequence of actions, stopping at the first that throws. *)
Fixpoint run {C : Type}
    (onUpdate : option (string → gmap string JsVal → C → C))
    (props : Props) (evs : list Event) (s : State * C) : Result (State * C) :=
  match evs with
  | [] => mret s
  | ev :: rest => s' ← dispatch onUpdate props ev s; run onUpdate props rest s'
  end.

(** What the render computes before and while it builds the outer [div]:
    the style of the block type, its class name among the arguments of
    [cn], its icon, and the components it lists. *)
Record View : Type := {
  view_className : list JsVal;
  view_icon : JsVal;
  view_title : JsVal;
  view_components : list JsVal;
}.

(** [blockStyles[data.type]] *)
Definition style_of (d : gmap string JsVal) : Result JsVal :=
  key ← ToPropertyKey (get_prop d "type");
  mret (get_prop blockStyles key).

Definition render (props : Props) (st : State) : Result View :=
  style ← style_of (data props);
  className ← get style "className";
  icon ← get style "icon";
  items ← array_receiver (if isEditing st then editComponents st
                          else get_prop (data props) "components") "map";
  mret {| view_className :=
            [ JStr "block-node p-4 min-w-[240px] max-w-[300px]";
              className;
              if selected props
              then JStr "ring-2 ring-primary ring-offset-2 ring-offset-background"
              else JBool false ];
          view_icon := icon;
          view_title := if isEditing st then editTitle st
                        else get_prop (data props) "title";
          view_components := items |}.

End BlockNode.

(* ===================================================================== *)
(** ** The diagram schema *)
(* ===================================================================== *)

Module Schema.
Import DiagramUtils.

(** The five block categories (the [enum] of the output schema). *)
Definition block_types : list string :=
  ["power"; "inputs"; "processing"; "outputs"; "peripherals"].

Definition is_string (v : JsVal) : bool :=
  match v with
  | JStr _ => true
  | _ => false
  end.

(** An optional string property: a string, or absent. *)
Definition optional_string (v : JsVal) : bool :=
  match v with
  | JStr _ | JUndefined => true
  | _ => false
  end.

Definition is_block_type (v : JsVal) : bool :=
  match v with
  | JStr t => bool_decide (t ∈ block_types)
  | _ => false
  end.

Definition string_array (v : JsVal) : bool :=
  match v with
  | JArr items => forallb is_string items
  | _ => false
  end.

(** A block of the schema of [GenerateDiagram.tool_parameters]: [id],
    [type], [title], [components] required, [annotation] optional. *)
Definition block_ok (b : Block) : bool :=
  is_string (block_id b) && is_block_type (block_type b) &&
  is_string (block_title b) && string_array (block_components b) &&
  optional_string (block_annotation b).

Definition connection_ok (c : Connection) : bool :=
  is_string (conn_source c) && is_string (conn_target c) &&
  optional_string (conn_label c).

(** A diagram satisfying the schema: exactly five blocks. *)
Definition schema_ok (d : Diagram) : bool :=
  (length (blocks d) =? 5)%nat && forallb block_ok (blocks d) &&
  forallb connection_ok (connections d).

(** The diagram a JSON value presents to the property reads of
    [diagramToNodes] and [connectionsToEdges]. *)
Definition block_of_json (v : JsVal) : Result Block :=
  id ← get v "id";
  type ← get v "type";
  title ← get v "title";
  components ← get v "components";
  annotation ← get v "annotation";
  mret {| block_id := id; block_type := type; block_title := title;
          block_components := components; block_annotation := annotation |}.

Definition connection_of_json (v : JsVal) : Result Connection :=
  source ← get v "source";
  target ← get v "target";
  label ← get v "label";
  mret {| conn_source := source; conn_target := target; conn_label := label |}.

Definition diagram_of_json (v : JsVal) : Result Diagram :=
  bs ← get v "blocks";
  block_items ← array_receiver bs "map";
  blocks ← mapM block_of_json block_items;
  cs ← get v "connections";
  connection_items ← array_receiver cs "map";
  connections ← mapM connection_of_json connection_items;
  mret {| blocks := blocks; connections := connections |}.

(** [v.k1.k2...] *)
Definition read_path (v : JsVal) (keys : list string) : Result JsVal :=
  foldl (λ r key, x ← r; get x key) (Ok v) keys.

(** The block a connection end names, by its category. *)
Definition type_of_id (d : Diagram) (i : JsVal) : option JsVal :=
  block_type <$> List.find (λ b, strict_equals (block_id b) i) (blocks d).

(** Two node lists, two edge lists that differ at most in fields of the
    presentation (type, position, draggable; id, handles, style, marker). *)
Definition same_blocks (ns ns' : list Node) : Prop :=
  Forall2 (λ n n', node_id n = node_id n' ∧ node_data n = node_data n') ns ns'.

Definition same_connections (es es' : list Edge) : Prop :=
  Forall2 (λ e e', edge_source e = edge_source e' ∧ edge_target e = edge_target e' ∧
                   edge_label e = edge_label e') es es'.

End Schema.

(* ===================================================================== *)
(** ** Vocabulary for the statements about the canvas *)
(* ===================================================================== *)

Module CanvasSpec.
Import DiagramUtils ReactFlow.

(** A gesture that names both ends. *)
Definition connectable (p : Connection) : Prop :=
  ∃ s t, source p = Some s ∧ target p = Some t ∧ s ≠ "" ∧ t ≠ "".

(** A handle id on an edge and one in a gesture denote the same handle:
    they are equal, or both are empty ([undefined], [null] or the empty
    string), which stands for the node's default handle. *)
Definition handle_agrees (a : JsVal) (h : option string) : Prop :=
  a = nullable h ∨ (truthy a = false ∧ truthy (nullable h) = false).

(** The gesture joins two handles that an edge of the set already joins. *)
Definition connected (p : Connection) (es : list Edge) : Prop :=
  ∃ el, el ∈ es ∧
        edge_source el = nullable (source p) ∧
        edge_target el = nullable (target p) ∧
        handle_agrees (edge_sourceHandle el) (sourceHandle p) ∧
        handle_agrees (edge_targetHandle el) (targetHandle p).

Definition is_array (v : JsVal) : Prop := ∃ items, v = JArr items.

(** The keys [handleSave] writes. *)
Definition edited_keys : list string := ["title"; "components"; "annotation"].

End CanvasSpec.

(* ===================================================================== *)
(** ** Vocabulary for the statements about the endpoint *)
(* ===================================================================== *)

Module EndpointSpec.
Import GenerateDiagram Schema.

(** A description the endpoint accepts: a string that is not empty. *)
Definition nonempty_string (v : JsVal) : bool :=
  match v with
  | JStr s => negb (String.eqb s "")
  | _ => false
  end.

(** The request is a generation request with an acceptable description,
    the service is configured, and the gateway is called. *)
Definition reaches_gateway (w : World) (req : Request) (call : FetchCall) : Prop :=
  ∃ body description api_key,
    req_method req ≠ "OPTIONS" ∧
    req_json req = Ok body ∧
    destructure body "description" = Ok (JStr description) ∧
    description ≠ "" ∧
    env_get w "LOVABLE_API_KEY" = Some api_key ∧
    api_key ≠ "" ∧
    call = gateway_call api_key description.

(** Moreover the gateway answers with success, and its answer, read along
    [data.choices?.[0]?.message?.tool_calls?.[0]], carries a call of the
    tool whose arguments parse to [diagramData]. *)
Definition reaches_validation (w : World) (req : Request) (call : FetchCall)
    (diagramData : JsVal) : Prop :=
  reaches_gateway w req call ∧
  ∃ response data choices choice message tool_calls toolCall fn arguments,
    fetch w call = Ok response ∧
    ok response = true ∧
    JSON_parse w (JStr (gw_text response)) = Ok data ∧
    get data "choices" = Ok choices ∧
    opt_get choices "0" = Ok choice ∧
    opt_get choice "message" = Ok message ∧
    opt_get message "tool_calls" = Ok tool_calls ∧
    opt_get tool_calls "0" = Ok toolCall ∧
    truthy toolCall = true ∧
    get toolCall "function" = Ok fn ∧
    get fn "name" = Ok (JStr "generate_block_diagram") ∧
    get fn "arguments" = Ok arguments ∧
    JSON_parse w arguments = Ok diagramData.

Definition has (o : gmap string JsVal) (key : string) : bool :=
  bool_decide (is_Some (o !! key)).

(** The validator contract, in the words of the specification: [blocks]
    present with exactly five entries, each with [id], a [type] among the
    five categories, [title] and [components], a sequence of strings;
    [connections] present, each entry with [source] and [target]. *)
Definition contract_block_ok (b : JsVal) : bool :=
  match b with
  | JObj o => has o "id" && is_block_type (get_prop o "type") && has o "title" &&
              string_array (get_prop o "components")
  | _ => false
  end.

Definition contract_connection_ok (c : JsVal) : bool :=
  match c with
  | JObj o => has o "source" && has o "target"
  | _ => false
  end.

Definition contract_ok (candidate : JsVal) : bool :=
  match candidate with
  | JObj o =>
      match o !! "blocks", o !! "connections" with
      | Some (JArr bs), Some (JArr cs) =>
          (length bs =? 5)%nat && forallb contract_block_ok bs &&
          forallb contract_connection_ok cs
      | _, _ => false
      end
  | _ => false
  end.

End EndpointSpec.

(* ===================================================================== *)
(** ** Concrete inputs *)
(* ===================================================================== *)

Module Examples.
Import DiagramUtils.

(** The template, with the type of its first block replaced by a string
    outside the five categories. *)
Definition unrecognized_type_diagram : Diagram :=
  {| blocks :=
       {| block_id := JStr "power-1"; block_type := JStr "constructor";
          block_title := JStr "Power Supply";
          block_components := strings ["Battery"; "Voltage Regulator"];
          block_annotation := JUndefined |}
       :: tail (blocks generateDefaultDiagram);
     connections := connections generateDefaultDiagram |}.

(** The canvas right after the template is loaded. *)
Definition load (d : Diagram) : DiagramCanvas.Canvas :=
  match diagramToNodes d, connectionsToEdges (connections d) with
  | Ok ns, Ok es =>
      {| DiagramCanvas.nodes := ns; DiagramCanvas.edges := es;
         DiagramCanvas.parent_nodes := ns; DiagramCanvas.parent_edges := es |}
  | _, _ =>
      {| DiagramCanvas.nodes := []; DiagramCanvas.edges := [];
         DiagramCanvas.parent_nodes := []; DiagramCanvas.parent_edges := [] |}
  end.

Definition template_canvas : DiagramCanvas.Canvas := load generateDefaultDiagram.

(** Dragging from the power block to the processing block, which the
    template already connects. *)
Definition power_to_processing : ReactFlow.Connection :=
  {| ReactFlow.source := Some "power-1";
     ReactFlow.target := Some "processing-1";
     ReactFlow.sourceHandle := None;
     ReactFlow.targetHandle := None |}.

(** Dragging from the outputs block to the peripherals block, which the
    template does not connect. *)
Definition outputs_to_peripherals : ReactFlow.Connection :=
  {| ReactFlow.source := Some "outputs-1";
     ReactFlow.target := Some "peripherals-1";
     ReactFlow.sourceHandle := None;
     ReactFlow.targetHandle := None |}.

(** The block node of the template's power block, and one whose block
    type is outside the five categories. *)
Definition power_props : BlockNode.Props :=
  {| BlockNode.id := "power-1";
     BlockNode.data := {[ "type" := JStr "power";
                          "title" := JStr "Power Supply";
                          "components" := strings ["Battery"; "Voltage Regulator"];
                          "annotation" := JUndefined ]};
     BlockNode.selected := false |}.



(** An edit session: retitle, add a component, remove the first one. *)
Definition session : list BlockNode.Event :=
  [ BlockNode.StartEditing;
    BlockNode.TypeTitle "Supply";
    BlockNode.TypeNewComponent "  Fuse ";
    BlockNode.AddComponent;
    BlockNode.RemoveComponent 0;
    BlockNode.TypeAnnotation "3.3 V rail" ].

(** The template as the JSON value a model would return, and the same with
    the type of the first block replaced. *)
Definition block_json (id type title : string) (components : list string) : JsVal :=
  GenerateDiagram.obj [ ("id", JStr id); ("type", JStr type); ("title", JStr title);
                        ("components", strings components) ].

Definition connection_json (source target label : string) : JsVal :=
  GenerateDiagram.obj [ ("source", JStr source); ("target", JStr target);
                        ("label", JStr label) ].

Definition template_connections_json : JsVal :=
  JArr [ connection_json "power-1" "processing-1" "VCC";
         connection_json "inputs-1" "processing-1" "Data";
         connection_json "processing-1" "outputs-1" "Control";
         connection_json "processing-1" "peripherals-1" "I/O" ].

Definition template_blocks_json (first_type : string) : JsVal :=
  JArr [ block_json "power-1" first_type "Power Supply" ["Battery"; "Voltage Regulator"];
         block_json "inputs-1" "inputs" "Inputs Block"
                    ["Sensor Module"; "Button Interface"];
         block_json "processing-1" "processing" "Control and Processing"
                    ["Microcontroller"; "Memory"];
         block_json "outputs-1" "outputs" "Outputs Block" ["LED Indicator"; "Display"];
         block_json "peripherals-1" "peripherals" "Other Peripherals"
                    ["Debug Interface"; "External Connector"] ].

Definition template_json : JsVal :=
  GenerateDiagram.obj [ ("blocks", template_blocks_json "power");
                        ("connections", template_connections_json) ].

Definition unrecognized_type_json : JsVal :=
  GenerateDiagram.obj [ ("blocks", template_blocks_json "constructor");
                        ("connections", template_connections_json) ].

(** A world in which the service is configured and the gateway answers
    with the given status; on success its answer carries a tool call whose
    arguments parse to [candidate]. *)
Definition gateway_answer : JsVal :=
  let fn := GenerateDiagram.obj [ ("name", JStr "generate_block_diagram");
                                  ("arguments", JStr "ARGUMENTS") ] in
  let toolCall := GenerateDiagram.obj [ ("function", fn) ] in
  let message := GenerateDiagram.obj [ ("tool_calls", JArr [toolCall]) ] in
  GenerateDiagram.obj [ ("choices", JArr [ GenerateDiagram.obj [ ("message", message) ] ]) ].

Definition world (gateway_status : Z) (candidate : JsVal) : GenerateDiagram.World :=
  {| GenerateDiagram.env_get := λ name,
       if String.eqb name "LOVABLE_API_KEY" then Some "secret" else None;
     GenerateDiagram.fetch := λ _,
       Ok {| GenerateDiagram.gw_status := gateway_status;
             GenerateDiagram.gw_text := "ANSWER" |};
     GenerateDiagram.response_text := λ response, Ok (GenerateDiagram.gw_text response);
     GenerateDiagram.JSON_parse := λ v,
       match v with
       | JStr "ANSWER" => Ok gateway_answer
       | JStr "ARGUMENTS" => Ok candidate
       | _ => Throw (SyntaxError "Unexpected token")
       end |}.

Definition post (body : JsVal) : GenerateDiagram.Request :=
  {| GenerateDiagram.req_method := "POST"; GenerateDiagram.req_json := Ok body |}.

Definition speaker_request : GenerateDiagram.Request :=
  post (GenerateDiagram.obj
          [("description", JStr "Bluetooth speaker with RGB lighting effects")]).

(** Five blocks without any field, and no connections. *)
Definition five_empty_blocks : JsVal :=
  GenerateDiagram.obj [ ("blocks", JArr (replicate 5%nat (JObj ∅))) ].

Definition four_empty_blocks : JsVal :=
  GenerateDiagram.obj [ ("blocks", JArr (replicate 4%nat (JObj ∅))) ].

(** A candidate whose [blocks] is no array but an object with a [length]. *)
Definition length_only_blocks : JsVal :=
  GenerateDiagram.obj [ ("blocks", GenerateDiagram.obj [("length", JNum 5)]) ].

(** A gateway that answers 429 with a body whose read fails. *)
Definition broken_body_world : GenerateDiagram.World :=
  {| GenerateDiagram.env_get := GenerateDiagram.env_get (world 429 JNull);
     GenerateDiagram.fetch := GenerateDiagram.fetch (world 429 JNull);
     GenerateDiagram.response_text := λ _,
       Throw (TypeError "error reading a body from connection");
     GenerateDiagram.JSON_parse := GenerateDiagram.JSON_parse (world 429 JNull) |}.

(** A block whose type is the array [["power"]], and one whose type is an
    object that cannot be converted to a property key. *)
Definition array_type_props : BlockNode.Props :=
  {| BlockNode.id := "power-1";
     BlockNode.data := {[ "type" := JArr [JStr "power"];
                          "title" := JStr "Power Supply";
                          "components" := strings ["Battery"; "Voltage Regulator"];
                          "annotation" := JUndefined ]};
     BlockNode.selected := false |}.


End Examples.

(* ===================================================================== *)
(** ** The export of a diagram *)
(* ===================================================================== *)

(** [exportDiagramAsJson] of the diagram utilities. The clock is an input;
    building the link and clicking it is summed up as the download of one
    file, whose content stands for the text [JSON.stringify] makes of it. *)

Module DiagramExport.
Import DiagramUtils.

Record Clock : Type := {
  toISOString : string;
  now : Z;
}.

Record FlowNode : Type := {
  flow_id : JsVal;
  flow_type : string;
  flow_position : JsVal;
  flow_data : gmap string JsVal;
}.

Record FlowEdge : Type := {
  flow_edge_id : string;
  flow_source : JsVal;
  flow_target : JsVal;
  flow_label : JsVal;
}.

Record ExportData : Type := {
  version : string;
  generatedAt : string;
  description : string;
  diagram : Diagram;
  reactFlowData_nodes : list FlowNode;
  reactFlowData_edges : list FlowEdge;
}.

Record Download : Type := {
  download_name : string;
  download_type : string;
  download_content : ExportData;
}.

Definition exportDiagramAsJson (nodes : list Node) (edges : list Edge)
    (originalDescription : string) (clock : Clock) : Download :=
  let diagram := nodesToDiagram nodes edges in
  let exportData :=
    {| version := "1.0";
       generatedAt := toISOString clock;
       description := originalDescription;
       diagram := diagram;
       reactFlowData_nodes :=
         (λ n, {| flow_id := node_id n;
                  flow_type := node_type n;
                  flow_position := node_position n;
                  flow_data := node_data n |}) <$> nodes;
       reactFlowData_edges :=
         (λ e, {| flow_edge_id := edge_id e;
                  flow_source := edge_source e;
                  flow_target := edge_target e;
                  flow_label := edge_label e |}) <$> edges |} in
  {| download_name := "block-diagram-" +:+ string_of_Z (now clock) +:+ ".json";
     download_type := "application/json";
     download_content := exportData |}.

End DiagramExport.

(* ===================================================================== *)
(** ** The input panel *)
(* ===================================================================== *)

Module InputPanel.

Definition examples : list string :=
  [ "Smart doorbell with camera and motion sensor";
    "Wireless temperature monitoring device with LCD display";
    "Bluetooth speaker with RGB lighting effects";
    "Solar-powered weather station with WiFi connectivity";
    "Smart home hub with voice control and touch screen" ].

(** [handleSubmit]: the argument [onSubmit] is called with, if it is
    called. *)
Definition handleSubmit (isLoading : bool) (description : string) : option string :=
  if truthy (JStr (BlockNode.trim description)) && negb isLoading
  then Some (BlockNode.trim description)
  else None.

(** [handleExampleClick]: the new content of the text area. *)
Definition handleExampleClick (example : string) (description : string) : string :=
  example.

(** The [disabled] attribute of the submit button. *)
Definition submit_disabled (isLoading : bool) (description : string) : bool :=
  negb (truthy (JStr (BlockNode.trim description))) || isLoading.

(** The text on the button of an example. *)
Definition example_label (example : string) : string :=
  if (30 <? String.length example)%nat
  then String.substring 0 30 example +:+ "..."
  else example.

End InputPanel.

(* ===================================================================== *)
(** ** The page *)
(* ===================================================================== *)

(** The handlers of the main page. The function client behind
    [supabase.functions.invoke] is an input: for a description it gives the
    pair of [data] and [error] it resolves to, or what it throws. Toasts and
    downloads are the effects. *)

Module Index.
Import DiagramUtils.

Record Page : Type := {
  nodes : list Node;
  edges : list Edge;
  isLoading : bool;
  currentDescription : string;
  hasGenerated : bool;
}.

Inductive Effect : Type :=
  | ToastError (message : string)
  | ToastSuccess (message : string)
  | ToastInfo (message : string)
  | Downloaded (file : DiagramExport.Download).

Definition initial : Page :=
  {| nodes := []; edges := []; isLoading := false;
     currentDescription := ""; hasGenerated := false |}.

(** [diagramToNodes(diagram)] on the value the client received. *)
Definition diagramToNodes_json (diagram : JsVal) : Result (list Node) :=
  bs ← get diagram "blocks";
  items ← array_receiver bs "map";
  mapM (λ block, b ← Schema.block_of_json block; block_to_node b) items.

(** [connectionsToEdges(connections)] on the value the client received. *)
Definition connectionsToEdges_json (connections : JsVal) : Result (list Edge) :=
  items ← array_receiver connections "map";
  mapM id (imap (λ index conn, c ← Schema.connection_of_json conn;
                               connection_to_edge index c) items).

(** [error.message?.includes(needle)], as a truth value. A string and an
    array have the method; on [undefined] or [null] the chain stops. *)
Definition message_includes (error : JsVal) (needle : string) : Result bool :=
  message ← get error "message";
  match message with
  | JUndefined | JNull => Ok false
  | JStr s => Ok (includes s needle)
  | JArr items => Ok (existsb (λ x, strict_equals x (JStr needle)) items)
  | _ => Throw (TypeError "error.message?.includes is not a function")
  end.

(** [a || b] on two such tests: the second runs only if the first fails. *)
Definition either (a b : Result bool) : Result bool :=
  x ← a; if (x : bool) then Ok true else b.

Definition with_diagram (newNodes : list Node) (newEdges : list Edge) (p : Page) : Page :=
  {| nodes := newNodes; edges := newEdges; isLoading := isLoading p;
     currentDescription := currentDescription p; hasGenerated := true |}.

(** The body of the [try] block of [handleGenerateDiagram]: the page as the
    state setters leave it, and the toast shown or the error thrown. *)
Definition try_generate (outcome : Result (JsVal * JsVal)) (p : Page)
    : Page * Result Effect :=
  match outcome with
  | Throw t => (p, Throw t)
  | Ok (data, error) =>
      if truthy error then
        (p,
         rate ← either (message_includes error "429")
                       (message_includes error "Rate limit");
         if (rate : bool) then
           Ok (ToastError "Rate limit exceeded. Please wait a moment and try again.")
         else
           payment ← either (message_includes error "402")
                            (message_includes error "Payment");
           if (payment : bool) then
             Ok (ToastError "Usage limit reached. Please add credits to continue.")
           else Ok (ToastError "Failed to generate diagram. Please try again."))
      else
        match opt_get data "diagram" with
        | Throw t => (p, Throw t)
        | Ok diagram =>
            if negb (truthy diagram) then
              (p, Ok (ToastError "Invalid response from AI. Please try again."))
            else
              match (newNodes ← diagramToNodes_json diagram;
                     connections ← get diagram "connections";
                     newEdges ← connectionsToEdges_json connections;
                     Ok (newNodes, newEdges)) with
              | Throw t => (p, Throw t)
              | Ok (newNodes, newEdges) =>
                  (with_diagram newNodes newEdges p,
                   bs ← get diagram "blocks";
                   count ← get bs "length";
                   text ← ToString count;
                   Ok (ToastSuccess ("Generated diagram with " +:+ text +:+ " blocks!")))
              end
        end
  end.

Definition set_loading (b : bool) (p : Page) : Page :=
  {| nodes := nodes p; edges := edges p; isLoading := b;
     currentDescription := currentDescription p; hasGenerated := hasGenerated p |}.

Definition set_description (d : string) (p : Page) : Page :=
  {| nodes := nodes p; edges := edges p; isLoading := isLoading p;
     currentDescription := d; hasGenerated := hasGenerated p |}.

Definition handleGenerateDiagram (invoke : string → Result (JsVal * JsVal))
    (description : string) (p : Page) : Page * list Effect :=
  let started := set_description description (set_loading true p) in
  let '(p', shown) := try_generate (invoke description) started in
  let toast := match shown with
               | Ok t => t
               | Throw _ => ToastError "An unexpected error occurred. Please try again."
               end in
  (set_loading false p', [toast]).

Definition handleExport (clock : DiagramExport.Clock) (p : Page) : Page * list Effect :=
  if (length (nodes p) =? 0)%nat then
    (p, [ToastError "No diagram to export. Generate a diagram first."])
  else
    (p, [ Downloaded (DiagramExport.exportDiagramAsJson (nodes p) (edges p)
                        (currentDescription p) clock);
          ToastSuccess "Diagram exported as JSON!" ]).

Definition handleReset (p : Page) : Page * list Effect :=
  ({| nodes := []; edges := []; isLoading := isLoading p;
      currentDescription := ""; hasGenerated := false |},
   [ToastInfo "Canvas cleared."]).

(** [handleLoadDefault] has no [try]: an error of a conversion would leave
    the handler before any state is set. *)
Definition handleLoadDefault (p : Page) : Result (Page * list Effect) :=
  newNodes ← diagramToNodes generateDefaultDiagram;
  newEdges ← connectionsToEdges (connections generateDefaultDiagram);
  Ok ({| nodes := newNodes; edges := newEdges; isLoading := isLoading p;
         currentDescription := "Default template diagram"; hasGenerated := true |},
      [ToastSuccess "Loaded default template."]).

(** The canvas as it is mounted on a page. *)
Definition mount (p : Page) : DiagramCanvas.Canvas :=
  {| DiagramCanvas.nodes := nodes p; DiagramCanvas.edges := edges p;
     DiagramCanvas.parent_nodes := nodes p; DiagramCanvas.parent_edges := edges p |}.

End Index.

(* ===================================================================== *)
(** ** Vocabulary for the statements about the whole application *)
(* ===================================================================== *)

Module AppSpec.
Import DiagramUtils.

(** The page's copy equals the working set of the canvas. *)
Definition synced (c : DiagramCanvas.Canvas) : Prop :=
  DiagramCanvas.parent_nodes c = DiagramCanvas.nodes c ∧
  DiagramCanvas.parent_edges c = DiagramCanvas.edges c.

(** Every end of every edge is the id of a node. *)
Definition dangling_free (ns : list Node) (es : list Edge) : Prop :=
  ∀ e, e ∈ es →
    (∃ n, n ∈ ns ∧ node_id n = edge_source e) ∧
    (∃ n, n ∈ ns ∧ node_id n = edge_target e).

(** The props React Flow hands to the block node of a node. *)
Definition props_of_node (n : Node) : option BlockNode.Props :=
  match node_id n with
  | JStr s => Some {| BlockNode.id := s; BlockNode.data := node_data n;
                      BlockNode.selected := false |}
  | _ => None
  end.

(** No dash occurs in the string. *)
Fixpoint dash_free (s : string) : bool :=
  match s with
  | EmptyString => true
  | String c rest => negb (Ascii.eqb c "-") && dash_free rest
  end.

(** What follows the last dash of a string (the string itself if it has
    none). *)
Fixpoint last_segment (s : string) : string :=
  match s with
  | EmptyString => EmptyString
  | String c rest =>
      if negb (dash_free rest) then last_segment rest
      else if Ascii.eqb c "-" then rest else s
  end.

(** The statuses the endpoint answers with. *)
Definition answer_statuses : list Z := [200; 400; 402; 429; 500].

(** The request has an acceptable description, the service is configured,
    and [call] is the call of the gateway it leads to, whatever the method
    of the request. *)
Definition reaches_gateway_or_preflight (w : GenerateDiagram.World)
    (req : GenerateDiagram.Request) (call : GenerateDiagram.FetchCall) : Prop :=
  ∃ payload description api_key,
    GenerateDiagram.req_json req = Ok payload ∧
    GenerateDiagram.destructure payload "description" = Ok (JStr description) ∧
    description ≠ "" ∧
    GenerateDiagram.env_get w "LOVABLE_API_KEY" = Some api_key ∧
    api_key ≠ "" ∧
    call = GenerateDiagram.gateway_call api_key description.

(** An answer of the endpoint that reports an error: the status, and the
    message under [error]. *)
Definition error_answer (r : GenerateDiagram.Response) (st : Z) (message : string) : Prop :=
  r = GenerateDiagram.error_response st message.

(** An answer of the endpoint that carries a diagram. *)
Definition diagram_answer (r : GenerateDiagram.Response) (diagramData : JsVal) : Prop :=
  r = GenerateDiagram.json_response 200 (GenerateDiagram.obj [("diagram", diagramData)]).

(** The status the endpoint answers a request with whose body is
    [{ description }]. *)
Definition status_of (w : GenerateDiagram.World) (method description : string) : Z :=
  GenerateDiagram.status
    (GenerateDiagram.serve w
       {| GenerateDiagram.req_method := method;
          GenerateDiagram.req_json :=
            Ok (GenerateDiagram.obj [("description", JStr description)]) |}).1.

(** A value that prints without running code of its own. *)
Definition primitive (v : JsVal) : bool :=
  match v with
  | JUndefined | JNull | JBool _ | JNum _ | JStr _ => true
  | JArr _ | JObj _ | JNative _ => false
  end.

End AppSpec.

(* ===================================================================== *)
(** ** More concrete inputs *)
(* ===================================================================== *)

Module MoreExamples.
Import DiagramUtils Examples.

(** The power block in edit mode with a text typed into the input for a
    new component. *)
Definition typed (text : string) (props : BlockNode.Props) : BlockNode.State :=
  {| BlockNode.isEditing := true;
     BlockNode.editTitle := BlockNode.editTitle (BlockNode.initial_state props);
     BlockNode.editComponents := BlockNode.editComponents (BlockNode.initial_state props);
     BlockNode.editAnnotation := BlockNode.editAnnotation (BlockNode.initial_state props);
     BlockNode.showAnnotation := BlockNode.showAnnotation (BlockNode.initial_state props);
     BlockNode.newComponent := text |}.

(** A block of a known category that has no component list. *)
Definition bare_props : BlockNode.Props :=
  {| BlockNode.id := "power-1";
     BlockNode.data := {[ "type" := JStr "power"; "title" := JStr "Power Supply" ]};
     BlockNode.selected := false |}.

(** A connection that occurs twice in a diagram. *)
Definition parallel_connection : Connection :=
  {| conn_source := JStr "power-1"; conn_target := JStr "processing-1";
     conn_label := JUndefined |}.

(** A diagram of one block whose only connection is labelled with a
    number. *)
Definition numbered_label_diagram : Diagram :=
  {| blocks := [ {| block_id := JStr "power-1"; block_type := JStr "power";
                    block_title := JStr "Power Supply";
                    block_components := strings ["Battery"];
                    block_annotation := JStr "5 V" |} ];
     connections := [ {| conn_source := JStr "power-1"; conn_target := JStr "power-1";
                         conn_label := JNum 5 |} ] |}.

(** The loaded template after the gesture from outputs to peripherals. *)
Definition connected_canvas : DiagramCanvas.Canvas :=
  DiagramCanvas.onConnect outputs_to_peripherals template_canvas.

(** A world without API key, and one whose gateway answers with an empty
    list of choices. *)
Definition unconfigured_world : GenerateDiagram.World :=
  {| GenerateDiagram.env_get := λ _, Some "";
     GenerateDiagram.fetch := GenerateDiagram.fetch (world 200 JNull);
     GenerateDiagram.response_text := GenerateDiagram.response_text (world 200 JNull);
     GenerateDiagram.JSON_parse := GenerateDiagram.JSON_parse (world 200 JNull) |}.

Definition no_choice_world : GenerateDiagram.World :=
  {| GenerateDiagram.env_get := GenerateDiagram.env_get (world 200 JNull);
     GenerateDiagram.fetch := GenerateDiagram.fetch (world 200 JNull);
     GenerateDiagram.response_text := GenerateDiagram.response_text (world 200 JNull);
     GenerateDiagram.JSON_parse := λ _, Ok (GenerateDiagram.obj [("choices", JArr [])]) |}.

(** A function client that resolves to the template for every description. *)
Definition template_client (description : string) : Result (JsVal * JsVal) :=
  Ok (GenerateDiagram.obj [("diagram", template_json)], JNull).

(** The page after the template was loaded. *)
Definition loaded_page (p : Index.Page) : Index.Page :=
  match Index.handleLoadDefault p with
  | Ok (after, _) => after
  | Throw _ => p
  end.

End MoreExamples.

(* ===================================================================== *)
(** ** More proof tactics *)
(* ===================================================================== *)

Module MoreTactics.

(** Closes a goal [x ∈ [a; b; ...]] when [x] is one of the literals. *)
Ltac in_literals := apply list_elem_of_In; simpl; tauto.

End MoreTactics.

(* ===================================================================== *)
(** ** Proof tactics *)
(* ===================================================================== *)

Module Tactics.

(** Exposes the constructors behind [mret] and [≫=] on results. *)
Ltac unfold_result := unfold mret, result_ret, mbind, result_bind in *.

(** Closes a goal [x ∉ [a; b; ...]] between distinct literals. *)
Ltac not_in_literals :=
  let H := fresh in
  intros H;
  repeat (apply elem_of_cons in H as [H | H]; [discriminate |]);
  apply elem_of_nil in H; exact H.

End Tactics.

(* ===================================================================== *)
(** ** Properties of the value operations *)
(* ===================================================================== *)

Module JsFacts.
Import Tactics.

(** The conversions and reads on a few values. *)
Example ToString_array :
  ToString (JArr [JStr "power"; JNull; JArr [JNum 1; JNum (-2)]; JBool true]) =
    Ok "power,,1,-2,true".
Proof. reflexivity. Qed.

Example ToString_hidden :
  ToString (JObj {[ "toString" := JNum 1 ]}) =
    Throw (TypeError "Cannot convert object to primitive value").
Proof. reflexivity. Qed.

Example get_examples :
  get (JStr "abc") "1" = Ok (JStr "b") ∧
  get (JStr "abc") "length" = Ok (JNum 3) ∧
  get (JArr [JNull; JNum 7]) "1" = Ok (JNum 7) ∧
  get (JArr [JNull; JNum 7]) "2" = Ok JUndefined ∧
  get (JObj ∅) "title" = Ok JUndefined ∧
  get (JObj ∅) "constructor" = Ok (JNative "Object") ∧
  opt_get JUndefined "message" = Ok JUndefined ∧
  get JNull "blocks" = Throw (TypeError "Cannot read properties of null (reading 'blocks')").
Proof. repeat split. Qed.

Lemma strict_equals_string (v : JsVal) (s : string) :
  strict_equals v (JStr s) = true ↔ v = JStr s.
Proof.
  destruct v; simpl; try (split; [discriminate | discriminate]).
  rewrite String.eqb_eq. split; [intros -> | intros [= ->]]; reflexivity.
Qed.

Lemma strict_equals_string_false (v : JsVal) (s : string) :
  strict_equals v (JStr s) = false ↔ v ≠ JStr s.
Proof.
  rewrite <- strict_equals_string. destruct (strict_equals v (JStr s)); split; congruence.
Qed.

Lemma get_prop_own (o : gmap string JsVal) (key : string) (v : JsVal) :
  o !! key = Some v → get_prop o key = v.
Proof. unfold get_prop. intros ->. reflexivity. Qed.

Lemma get_prop_absent (o : gmap string JsVal) (key : string) :
  o !! key = None → Object_prototype !! key = None → get_prop o key = JUndefined.
Proof. unfold get_prop, inherited. intros -> ->. reflexivity. Qed.

Lemma get_prop_inherited (o : gmap string JsVal) (key : string) (v : JsVal) :
  o !! key = None → Object_prototype !! key = Some v → get_prop o key = v.
Proof. unfold get_prop, inherited. intros -> ->. reflexivity. Qed.

Lemma get_array_length (items : list JsVal) :
  get (JArr items) "length" = Ok (JNum (Z.of_nat (length items))).
Proof. reflexivity. Qed.

Lemma get_string_length (s : string) :
  get (JStr s) "length" = Ok (JNum (Z.of_nat (String.length s))).
Proof. reflexivity. Qed.

(** Whatever [Object.prototype] provides is a truthy built-in. *)
Lemma inherited_is_native (key : string) (v : JsVal) :
  Object_prototype !! key = Some v → ∃ name, v = JNative name.
Proof.
  unfold Object_prototype. intros H.
  apply elem_of_list_to_map_2 in H.
  repeat (apply elem_of_cons in H as [[= -> ->] | H]; [eexists; reflexivity |]).
  apply elem_of_nil in H. destruct H.
Qed.

(** [mapM] succeeds exactly when the function succeeds on every element. *)
Lemma mapM_Ok {A B} (f : A → Result B) (l : list A) (k : list B) :
  mapM f l = Ok k ↔ Forall2 (λ x y, f x = Ok y) l k.
Proof.
  revert k. induction l as [| x l IH]; intros k; simpl.
  - split.
    + intros [= <-]. constructor.
    + intros H. inversion H. reflexivity.
  - split.
    + destruct (f x) as [y |] eqn:Hx; simpl; [| discriminate].
      destruct (mapM f l) as [k' |] eqn:Hl; simpl; [| discriminate].
      intros [= <-]. constructor; [assumption |]. apply IH. reflexivity.
    + intros H. inversion H as [| ? y ? k' Hx Hl]; subst.
      rewrite Hx. simpl. apply IH in Hl. rewrite Hl. reflexivity.
Qed.

Lemma mapM_Ok_fmap {A B} (f : A → Result B) (g : A → B) (l : list A) :
  Forall (λ x, f x = Ok (g x)) l → mapM f l = Ok (g <$> l).
Proof.
  intros H. apply mapM_Ok. induction H; simpl; constructor; assumption.
Qed.

Lemma mapM_id_imap_Ok {A B} (f : nat → A → Result B) (g : nat → A → B) (l : list A) :
  (∀ i x, l !! i = Some x → f i x = Ok (g i x)) →
  mapM id (imap f l) = Ok (imap g l).
Proof.
  revert f g. induction l as [| x l IH]; intros f g H; simpl; [reflexivity |].
  rewrite (H 0%nat x eq_refl). simpl.
  rewrite (IH (f ∘ S) (g ∘ S)); [reflexivity |].
  intros i y Hi. apply (H (S i) y Hi).
Qed.

End JsFacts.
(* ===================================================================== *)
(** ** The graph adapter and the layout table *)
(* ===================================================================== *)

Module AdapterFacts.
Import DiagramUtils Schema Examples JsFacts Tactics.

(** The template in the presentation: the ids of its edges, and where its
    nodes are placed. *)
Example template_edge_ids :
  fmap (M := list) edge_id <$> connectionsToEdges (connections generateDefaultDiagram) =
    Ok [ "edge-power-1-processing-1-0"; "edge-inputs-1-processing-1-1";
         "edge-processing-1-outputs-1-2"; "edge-processing-1-peripherals-1-3" ].
Proof. reflexivity. Qed.

Example template_of_json : diagram_of_json template_json = Ok generateDefaultDiagram.
Proof. reflexivity. Qed.

Example template_positions :
  fmap (M := list) node_position <$> diagramToNodes generateDefaultDiagram =
    Ok [coord 50 200; coord 350 50; coord 650 200; coord 950 50; coord 650 400].
Proof. reflexivity. Qed.

Lemma blockPositions_keys : dom blockPositions = list_to_set block_types.
Proof. vm_compute. reflexivity. Qed.

Lemma block_type_not_inherited (t : string) :
  t ∈ block_types → Object_prototype !! t = None.
Proof.
  unfold block_types. intros H.
  repeat (apply elem_of_cons in H as [-> | H]; [reflexivity |]).
  apply elem_of_nil in H. destruct H.
Qed.

(** The five categories have their own coordinates. *)
Lemma position_of_category :
  position_of_key "power" = coord 50 200 ∧
  position_of_key "inputs" = coord 350 50 ∧
  position_of_key "processing" = coord 650 200 ∧
  position_of_key "outputs" = coord 950 50 ∧
  position_of_key "peripherals" = coord 650 400.
Proof. repeat split; reflexivity. Qed.

(** A key that is neither a category nor a name every object inherits gets
    the fallback coordinate. *)
Lemma position_of_unknown (key : string) :
  key ∉ block_types → Object_prototype !! key = None →
  position_of_key key = coord 400 200.
Proof.
  intros Hk Hp. unfold position_of_key.
  rewrite get_prop_absent; [reflexivity | | assumption].
  apply not_elem_of_dom. rewrite blockPositions_keys.
  rewrite elem_of_list_to_set. assumption.
Qed.

(** An inherited name is looked up with success: the position is the
    inherited built-in, not a coordinate. *)
Lemma position_of_inherited (key : string) (v : JsVal) :
  Object_prototype !! key = Some v → position_of_key key = v.
Proof.
  intros Hp. unfold position_of_key.
  assert (blockPositions !! key = None) as Hb.
  { apply not_elem_of_dom. rewrite blockPositions_keys, elem_of_list_to_set.
    intros Hk. apply block_type_not_inherited in Hk. congruence. }
  rewrite (get_prop_inherited _ _ _ Hb Hp).
  destruct (inherited_is_native _ _ Hp) as [name ->]. reflexivity.
Qed.

Lemma node_to_block_to_node (b : Block) (n : Node) :
  block_to_node b = Ok n → node_to_block n = b.
Proof.
  unfold block_to_node. destruct (ToPropertyKey (block_type b)); simpl; [| discriminate].
  intros [= <-]. destruct b. reflexivity.
Qed.

Lemma edge_to_connection_to_edge (i : nat) (c : Connection) (e : Edge) :
  optional_string (conn_label c) = true →
  connection_to_edge i c = Ok e → edge_to_connection e = c.
Proof.
  intros Hl. unfold connection_to_edge.
  destruct (ToString (conn_source c)); simpl; [| discriminate].
  destruct (ToString (conn_target c)); simpl; [| discriminate].
  intros [= <-]. destruct c as [s t l]. unfold edge_to_connection. simpl in *.
  destruct l; try discriminate; reflexivity.
Qed.

(** The canonical form depends on the ids and data of the nodes and on the
    ends and labels of the edges, and on nothing else. *)
Lemma nodesToDiagram_strips (ns ns' : list Node) (es es' : list Edge) :
  same_blocks ns ns' → same_connections es es' →
  nodesToDiagram ns es = nodesToDiagram ns' es'.
Proof.
  intros Hn He. unfold nodesToDiagram. f_equal.
  - induction Hn as [| n n' ? ? [Hi Hd] _ IH]; simpl; [reflexivity |].
    f_equal; [| exact IH]. unfold node_to_block. rewrite Hi, Hd. reflexivity.
  - induction He as [| e e' ? ? (Hs & Ht & Hl) _ IH]; simpl; [reflexivity |].
    f_equal; [| exact IH]. unfold edge_to_connection. rewrite Hs, Ht, Hl. reflexivity.
Qed.

(** In the canonical form a label is the edge's label when that is a
    string, and [undefined] otherwise. *)
Lemma canonical_label (e : Edge) :
  conn_label (edge_to_connection e) =
    if is_string (edge_label e) then edge_label e else JUndefined.
Proof. unfold edge_to_connection. simpl. destruct (edge_label e); try reflexivity.
  simpl. destruct (String.eqb name "Object.prototype"); reflexivity. Qed.

(** Whenever the conversion to the presentation goes through, and the
    labels are strings or absent, converting back gives the diagram. *)
Lemma round_trip_of_presentation (d : Diagram) (ns : list Node) (es : list Edge) :
  Forall (λ c, optional_string (conn_label c) = true) (connections d) →
  diagramToNodes d = Ok ns →
  connectionsToEdges (connections d) = Ok es →
  nodesToDiagram ns es = d.
Proof.
  intros Hl Hn He. destruct d as [bs cs]. unfold nodesToDiagram. simpl in *.
  unfold diagramToNodes in Hn. simpl in Hn. apply mapM_Ok in Hn.
  unfold connectionsToEdges in He. apply mapM_Ok in He.
  f_equal.
  - induction Hn as [| b n ? ? Hb _ IH]; simpl; [reflexivity |].
    f_equal; [apply node_to_block_to_node; assumption | exact IH].
  - clear Hn. remember connection_to_edge as f eqn:Hf.
    assert (∀ i c e, f i c = Ok e → optional_string (conn_label c) = true →
                     edge_to_connection e = c) as Hstep.
    { intros i c e Hce Hc. subst f. eapply edge_to_connection_to_edge; eassumption. }
    clear Hf. revert f es He Hstep.
    induction Hl as [| c cs Hc _ IH]; intros f es He Hstep; simpl in *.
    + inversion He. reflexivity.
    + inversion He as [| ? e ? es' Hce Hrest]; subst. simpl. f_equal.
      * unfold id in Hce. eapply Hstep; eassumption.
      * apply (IH (f ∘ S)); [assumption |].
        intros i c' e' Hc'. apply (Hstep (S i)). assumption.
Qed.

(** A diagram of the schema converts to the presentation without error. *)
Lemma schema_block_presentable (b : Block) :
  block_ok b = true → ∃ n, block_to_node b = Ok n.
Proof.
  unfold block_ok, block_to_node. intros H.
  repeat (apply andb_prop in H as [H ?]).
  destruct (block_type b); try discriminate. simpl. eexists. reflexivity.
Qed.

Lemma schema_connection_presentable (i : nat) (c : Connection) :
  connection_ok c = true → ∃ e, connection_to_edge i c = Ok e.
Proof.
  unfold connection_ok, connection_to_edge. intros H.
  repeat (apply andb_prop in H as [H ?]).
  destruct (conn_source c); try discriminate.
  destruct (conn_target c); try discriminate. simpl. eexists. reflexivity.
Qed.

Lemma imap_presentable {A B} (f : nat → A → Result B) (l : list A) :
  (∀ i x, x ∈ l → ∃ y, f i x = Ok y) → ∃ k, mapM id (imap f l) = Ok k.
Proof.
  revert f. induction l as [| x l IH]; intros f H; simpl.
  - eexists. reflexivity.
  - destruct (H 0%nat x) as [y Hy]; [left |].
    destruct (IH (f ∘ S)) as [k Hk].
    { intros i z Hz. apply (H (S i)). right. assumption. }
    rewrite Hy. simpl. rewrite Hk. simpl. eexists. reflexivity.
Qed.

Lemma schema_presentable (d : Diagram) :
  schema_ok d = true →
  ∃ ns es, diagramToNodes d = Ok ns ∧ connectionsToEdges (connections d) = Ok es.
Proof.
  unfold schema_ok. intros H.
  apply andb_prop in H as [H Hc]. apply andb_prop in H as [_ Hb].
  rewrite forallb_forall in Hb. rewrite forallb_forall in Hc.
  assert (∃ ns, diagramToNodes d = Ok ns) as [ns Hns].
  { unfold diagramToNodes. induction (blocks d) as [| b bs IH]; simpl.
    - eexists. reflexivity.
    - destruct (schema_block_presentable b) as [n Hn]; [apply Hb; left; reflexivity |].
      destruct IH as [ns Hns]; [intros x Hx; apply Hb; right; assumption |].
      rewrite Hn. simpl. rewrite Hns. simpl. eexists. reflexivity. }
  assert (∃ es, connectionsToEdges (connections d) = Ok es) as [es Hes].
  { unfold connectionsToEdges. apply imap_presentable.
    intros i c Hi. apply schema_connection_presentable, Hc.
    apply list_elem_of_In. assumption. }
  exists ns, es. split; assumption.
Qed.

(** C1. Round-trip law: a diagram [d] satisfying the schema (five blocks
    with string [id], [type] among the five categories, [title], string
    [components], optional [annotation]; connections with string [source]
    and [target] and an optional string [label]) converts to nodes and edges
    without error, and [nodesToDiagram] maps them back to [d]. The fields of
    the presentation are stripped: any nodes and edges that agree with the
    converted ones on id and data, and on source, target and label, map back
    to [d] as well, whatever their position, style or edge id. A label
    reaches the canonical form only when it is a string, and is [undefined]
    there otherwise. *)
Theorem round_trip_law (d : Diagram) :
  schema_ok d = true →
  ∃ ns es,
    diagramToNodes d = Ok ns ∧
    connectionsToEdges (connections d) = Ok es ∧
    nodesToDiagram ns es = d ∧
    (∀ ns' es', same_blocks ns ns' → same_connections es es' →
                nodesToDiagram ns' es' = d) ∧
    (∀ ns' es',
       Forall2 (λ e c, conn_source c = edge_source e ∧ conn_target c = edge_target e ∧
                       conn_label c = if is_string (edge_label e)
                                      then edge_label e else JUndefined)
               es' (connections (nodesToDiagram ns' es'))).
Proof.
  intros Hd. destruct (schema_presentable d Hd) as (ns & es & Hns & Hes).
  assert (nodesToDiagram ns es = d) as Hback.
  { apply round_trip_of_presentation; [| assumption | assumption].
    unfold schema_ok in Hd. apply andb_prop in Hd as [_ Hc].
    rewrite forallb_forall in Hc. apply Forall_forall. intros c Hin.
    apply list_elem_of_In, Hc in Hin. unfold connection_ok in Hin.
    apply andb_prop in Hin as [_ Hin]. exact Hin. }
  exists ns, es. repeat split; try assumption.
  - intros ns' es' Hn He. rewrite <- Hback. symmetry.
    apply nodesToDiagram_strips; assumption.
  - intros ns' es'. simpl. clear. induction es' as [| e es' IH]; simpl; constructor.
    + repeat split. apply canonical_label.
    + exact IH.
Qed.

(** The law at the built-in template. *)
Lemma round_trip_law_witness :
  ∃ ns es,
    diagramToNodes generateDefaultDiagram = Ok ns ∧
    connectionsToEdges (connections generateDefaultDiagram) = Ok es ∧
    nodesToDiagram ns es = generateDefaultDiagram ∧
    (∀ ns' es', same_blocks ns ns' → same_connections es es' →
                nodesToDiagram ns' es' = generateDefaultDiagram) ∧
    (∀ ns' es',
       Forall2 (λ e c, conn_source c = edge_source e ∧ conn_target c = edge_target e ∧
                       conn_label c = if is_string (edge_label e)
                                      then edge_label e else JUndefined)
               es' (connections (nodesToDiagram ns' es'))).
Proof. apply (round_trip_law generateDefaultDiagram). reflexivity. Defined.

(** C7, at the input where the code departs from it. A block whose type is
    the string [constructor] is not of the five categories, yet its node is
    not placed at the fallback coordinate: the lookup in [blockPositions]
    finds the [constructor] every object inherits, a truthy value, and the
    node's position is that built-in function. Such a diagram reaches the
    client: the endpoint answers 200 with it. *)
Theorem layout_fallback_missed :
  ("constructor" ∉ block_types) ∧
  position_of_key "constructor" = JNative "Object" ∧
  position_of_key "constructor" ≠ coord 400 200 ∧
  fmap (M := list) node_position <$> diagramToNodes unrecognized_type_diagram =
    Ok [JNative "Object"; coord 350 50; coord 650 200; coord 950 50; coord 650 400] ∧
  diagram_of_json unrecognized_type_json = Ok unrecognized_type_diagram ∧
  (GenerateDiagram.serve (world 200 unrecognized_type_json) speaker_request).1 =
    GenerateDiagram.json_response 200
      (GenerateDiagram.obj [("diagram", unrecognized_type_json)]).
Proof.
  split; [| split; [| split; [| split; [| split]]]].
  - unfold block_types. not_in_literals.
  - reflexivity.
  - discriminate.
  - reflexivity.
  - reflexivity.
  - reflexivity.
Qed.

(** C9. The built-in template: five blocks, one of each category, and the
    four connections power→processing, inputs→processing,
    processing→outputs, processing→peripherals, every end of which is the
    id of a block of the template. The template is a constant: it takes no
    input and makes no call. It satisfies the schema, and loads into five
    nodes and four edges. *)
Theorem default_template :
  length (blocks generateDefaultDiagram) = 5%nat ∧
  block_type <$> blocks generateDefaultDiagram = JStr <$> block_types ∧
  length (connections generateDefaultDiagram) = 4%nat ∧
  (λ c, (type_of_id generateDefaultDiagram (conn_source c),
         type_of_id generateDefaultDiagram (conn_target c)))
    <$> connections generateDefaultDiagram =
    [ (Some (JStr "power"), Some (JStr "processing"));
      (Some (JStr "inputs"), Some (JStr "processing"));
      (Some (JStr "processing"), Some (JStr "outputs"));
      (Some (JStr "processing"), Some (JStr "peripherals")) ] ∧
  (∀ c, c ∈ connections generateDefaultDiagram →
        conn_source c ∈ block_id <$> blocks generateDefaultDiagram ∧
        conn_target c ∈ block_id <$> blocks generateDefaultDiagram) ∧
  schema_ok generateDefaultDiagram = true ∧
  length <$> diagramToNodes generateDefaultDiagram = Ok 5%nat ∧
  length <$> connectionsToEdges (connections generateDefaultDiagram) = Ok 4%nat.
Proof.
  repeat split; try reflexivity.
  all: simpl in H;
    repeat (apply elem_of_cons in H as [-> | H];
            [apply list_elem_of_In; simpl; tauto |]);
    apply elem_of_nil in H; destruct H.
Qed.

End AdapterFacts.
(* ===================================================================== *)
(** ** The canvas editing controller *)
(* ===================================================================== *)

Module CanvasFacts.
Import DiagramUtils ReactFlow DiagramCanvas CanvasSpec Examples JsFacts Tactics.

(** Deleting the processing block of the loaded template leaves the four
    other nodes and none of the four edges, which all touch it. *)
Example delete_processing :
  let c := handleNodeDelete "processing-1" template_canvas in
  node_id <$> nodes c =
    [JStr "power-1"; JStr "inputs-1"; JStr "outputs-1"; JStr "peripherals-1"] ∧
  edges c = [].
Proof. split; reflexivity. Qed.

Example connect_new :
  edge_id <$> edges (onConnect outputs_to_peripherals template_canvas) =
    [ "edge-power-1-processing-1-0"; "edge-inputs-1-processing-1-1";
      "edge-processing-1-outputs-1-2"; "edge-processing-1-peripherals-1-3";
      "reactflow__edge-outputs-1-peripherals-1" ].
Proof. reflexivity. Qed.

Lemma filter_sublist {A} (p : A → bool) (l : list A) : sublist (List.filter p l) l.
Proof.
  induction l as [| x l IH]; simpl; [constructor |].
  destruct (p x); [apply sublist_skip | apply sublist_cons]; exact IH.
Qed.

Lemma elem_of_filter_bool {A} (p : A → bool) (l : list A) (x : A) :
  x ∈ List.filter p l ↔ x ∈ l ∧ p x = true.
Proof. rewrite !list_elem_of_In. apply filter_In. Qed.

(** C2. Cascading delete: after [handleNodeDelete n] the nodes are exactly
    the former nodes whose id is not [n], and the edges exactly the former
    edges with neither end equal to [n], in their former order; so no node
    [n] and no edge at [n] remains, and everything else is retained. The
    page's copy receives the same node and edge sets. *)
Theorem cascading_delete (c : Canvas) (n : string) :
  let c' := handleNodeDelete n c in
  (∀ node, node ∈ nodes c' ↔ node ∈ nodes c ∧ node_id node ≠ JStr n) ∧
  (∀ edge, edge ∈ edges c' ↔
           edge ∈ edges c ∧ edge_source edge ≠ JStr n ∧ edge_target edge ≠ JStr n) ∧
  sublist (nodes c') (nodes c) ∧
  sublist (edges c') (edges c) ∧
  parent_nodes c' = nodes c' ∧
  parent_edges c' = edges c'.
Proof.
  simpl. split; [| split; [| repeat split; apply filter_sublist]].
  - intros node. rewrite elem_of_filter_bool, negb_true_iff, strict_equals_string_false.
    reflexivity.
  - intros edge. rewrite elem_of_filter_bool, andb_true_iff, !negb_true_iff,
      !strict_equals_string_false. reflexivity.
Qed.

Lemma strict_equals_nullable (a : JsVal) (h : option string) :
  strict_equals a (nullable h) = true ↔ a = nullable h.
Proof.
  destruct h as [s |]; simpl; [apply strict_equals_string |].
  destruct a; simpl; split; congruence.
Qed.

Lemma same_handle_agrees (a : JsVal) (h : option string) :
  same_handle a (nullable h) = true ↔ handle_agrees a h.
Proof.
  unfold same_handle, handle_agrees.
  rewrite orb_true_iff, andb_true_iff, !negb_true_iff, strict_equals_nullable.
  reflexivity.
Qed.

Lemma connectionExists_connected (p : Connection) (o : EdgeOptions) (es : list Edge) :
  connectionExists (edge_of_connection p o) es = true ↔ connected p es.
Proof.
  unfold connectionExists, connected. rewrite existsb_exists.
  split; intros (el & Hin & H); exists el.
  - apply list_elem_of_In in Hin. split; [exact Hin |].
    unfold same_connection in H. simpl in H.
    rewrite !andb_true_iff, !strict_equals_nullable, !same_handle_agrees in H.
    tauto.
  - split; [apply list_elem_of_In; exact Hin |].
    unfold same_connection. simpl.
    rewrite !andb_true_iff, !strict_equals_nullable, !same_handle_agrees.
    tauto.
Qed.

Lemma connectable_truthy (p : Connection) :
  negb (truthy (nullable (source p))) || negb (truthy (nullable (target p))) = false
  ↔ connectable p.
Proof.
  unfold connectable. rewrite orb_false_iff, !negb_false_iff.
  destruct (source p) as [s |], (target p) as [t |]; simpl.
  - rewrite !negb_true_iff, !String.eqb_neq. split.
    + intros [Hs Ht]. exists s, t. auto.
    + intros (s' & t' & [= <-] & [= <-] & Hs & Ht). auto.
  - split; [intros [_ [=]] | intros (? & ? & _ & [=] & _)].
  - split; [intros [[=] _] | intros (? & ? & [=] & _)].
  - split; [intros [[=] _] | intros (? & ? & [=] & _)].
Qed.

(** What [addEdge] does with a gesture. *)
Lemma addEdge_appends (p : Connection) (o : EdgeOptions) (es : list Edge) :
  connectable p → ¬ connected p es →
  addEdge p o es = es ++ [edge_of_connection p o].
Proof.
  intros Hc Hn. unfold addEdge.
  apply connectable_truthy in Hc. rewrite Hc.
  destruct (connectionExists (edge_of_connection p o) es) eqn:He; [| reflexivity].
  apply connectionExists_connected in He. contradiction.
Qed.

Lemma addEdge_ignores (p : Connection) (o : EdgeOptions) (es : list Edge) :
  ¬ connectable p ∨ connected p es → addEdge p o es = es.
Proof.
  intros H. unfold addEdge.
  destruct (negb (truthy (nullable (source p))) || negb (truthy (nullable (target p))))
    eqn:Hc; [reflexivity |].
  apply connectable_truthy in Hc. destruct H as [H | H]; [contradiction |].
  apply (connectionExists_connected p o) in H. rewrite H. reflexivity.
Qed.

(** C4, as stated, fails: on the canvas loaded with the template, the
    gesture from the power block to the processing block, which an edge
    already joins, leaves the four edges as they are; nothing is appended. *)
Lemma connect_duplicate_not_appended :
  let c := template_canvas in
  let c' := onConnect power_to_processing c in
  (∃ e, e ∈ edges c ∧ edge_source e = JStr "power-1" ∧
        edge_target e = JStr "processing-1") ∧
  edges c' = edges c ∧
  length (edges c') = 4%nat ∧
  ¬ ∃ e, edges c' = edges c ++ [e].
Proof.
  split; [| split; [| split]].
  - eexists. split; [left |]. split; reflexivity.
  - reflexivity.
  - reflexivity.
  - intros [e H]. apply (f_equal length) in H. rewrite length_app in H.
    vm_compute in H. discriminate.
Qed.

(** C4, amended. [onConnect] hands the gesture, merged with the default
    edge options, to React Flow's [addEdge], and installs the result as the
    edge set, in the canvas and in the page's copy; the nodes are untouched.
    When the gesture names both ends and no edge already joins the same two
    handles, one edge with the default style is appended; otherwise the edge
    set is unchanged: a duplicate of an existing connection is not added. *)
Theorem connect_appends_unless_connected (c : Canvas) (p : Connection) :
  let c' := onConnect p c in
  let edge := edge_of_connection p defaultEdgeOptions in
  nodes c' = nodes c ∧
  parent_nodes c' = parent_nodes c ∧
  parent_edges c' = edges c' ∧
  (connectable p → ¬ connected p (edges c) → edges c' = edges c ++ [edge]) ∧
  (¬ connectable p ∨ connected p (edges c) → edges c' = edges c) ∧
  edge_source edge = nullable (source p) ∧
  edge_target edge = nullable (target p) ∧
  edge_type edge = "smoothstep" ∧
  edge_animated edge = true ∧
  edge_style edge = {| stroke := "hsl(199 89% 48%)"; strokeWidth := 2 |} ∧
  edge_markerEnd edge = {| marker_type := ArrowClosed;
                           marker_color := "hsl(199 89% 48%)" |}.
Proof.
  simpl. repeat split.
  - apply addEdge_appends.
  - apply addEdge_ignores.
Qed.

(** On the loaded template: a gesture between two blocks not yet joined
    appends an edge, a gesture along an existing edge changes nothing. *)
Lemma connect_appends_unless_connected_witness :
  edges (onConnect outputs_to_peripherals template_canvas) =
    edges template_canvas ++ [edge_of_connection outputs_to_peripherals defaultEdgeOptions] ∧
  edges (onConnect power_to_processing template_canvas) = edges template_canvas.
Proof.
  split.
  - apply (connect_appends_unless_connected template_canvas outputs_to_peripherals).
    + exists "outputs-1", "peripherals-1". repeat split; discriminate.
    + intros H.
      apply (connectionExists_connected outputs_to_peripherals defaultEdgeOptions) in H.
      vm_compute in H. discriminate.
  - apply (connect_appends_unless_connected template_canvas power_to_processing).
    right. apply (connectionExists_connected power_to_processing defaultEdgeOptions).
    vm_compute. reflexivity.
Defined.

End CanvasFacts.
(* ===================================================================== *)
(** ** The generation endpoint *)
(* ===================================================================== *)

Module EndpointFacts.
Import DiagramUtils GenerateDiagram Schema EndpointSpec Examples JsFacts Tactics.

(** The schema of the diagram is the one the endpoint sends to the model. *)
Lemma tool_schema :
  read_path tool_parameters ["required"] = Ok (strings ["blocks"; "connections"]) ∧
  read_path tool_parameters ["properties"; "blocks"; "minItems"] = Ok (JNum 5) ∧
  read_path tool_parameters ["properties"; "blocks"; "maxItems"] = Ok (JNum 5) ∧
  read_path tool_parameters ["properties"; "blocks"; "items"; "required"] =
    Ok (strings ["id"; "type"; "title"; "components"]) ∧
  read_path tool_parameters
            ["properties"; "blocks"; "items"; "properties"; "type"; "enum"] =
    Ok (strings block_types) ∧
  read_path tool_parameters
            ["properties"; "blocks"; "items"; "properties"; "components"; "items"; "type"] =
    Ok (JStr "string") ∧
  read_path tool_parameters ["properties"; "connections"; "items"; "required"] =
    Ok (strings ["source"; "target"]) ∧
  read_path tool_parameters
            ["properties"; "connections"; "items"; "properties"; "label"; "type"] =
    Ok (JStr "string").
Proof. repeat split. Qed.

(** The handler on a few requests: the preflight, a service without key,
    a body that is not JSON, a body that is [null], and a generation that
    succeeds with the template as the model's answer. *)
Example preflight :
  serve (world 200 JNull) {| req_method := "OPTIONS"; req_json := Ok JNull |} =
    ({| status := 200; headers := corsHeaders; body := None |}, []).
Proof. reflexivity. Qed.

Example not_configured :
  serve {| env_get := λ _, None; fetch := fetch (world 200 JNull);
           response_text := response_text (world 200 JNull);
           JSON_parse := JSON_parse (world 200 JNull) |} speaker_request =
    (error_response 500 "AI service not configured", []).
Proof. reflexivity. Qed.

Example body_not_json :
  serve (world 200 JNull)
        {| req_method := "POST";
           req_json := Throw (SyntaxError "Unexpected end of JSON input") |} =
    (error_response 500 "Unexpected end of JSON input", []).
Proof. reflexivity. Qed.

Example body_null :
  (serve (world 200 JNull) (post JNull)).1 =
    error_response 500 "Cannot destructure property 'description' as it is null.".
Proof. reflexivity. Qed.

Example generation_succeeds :
  (serve (world 200 template_json) speaker_request).1 =
    json_response 200 (obj [("diagram", template_json)]).
Proof. reflexivity. Qed.

Example template_meets_contract : contract_ok template_json = true.
Proof. reflexivity. Qed.

(** Only a length is compared: a string of five characters passes for the
    blocks. *)
Example blocks_string_accepted :
  validate_blocks (obj [("blocks", JStr "abcde")]) =
    Ok (json_response 200 (obj [("diagram", obj [("blocks", JStr "abcde")])])).
Proof. reflexivity. Qed.

Example unexpected_tool :
  (serve {| env_get := env_get (world 200 JNull); fetch := fetch (world 200 JNull);
            response_text := response_text (world 200 JNull);
            JSON_parse := λ _, Ok (obj [("choices", JArr [])]) |} speaker_request).1 =
    error_response 500 "Invalid response from AI".
Proof. reflexivity. Qed.

Lemma description_check (d : JsVal) :
  negb (truthy d) || negb (String.eqb (typeof d) "string") = negb (nonempty_string d).
Proof.
  destruct d as [| | b | n | s | items | props | name]; simpl; try reflexivity.
  - destruct b; reflexivity.
  - destruct (n =? 0); reflexivity.
  - rewrite orb_false_r. reflexivity.
  - destruct (String.eqb name "Object.prototype"); reflexivity.
Qed.

Section Gateway.

Variables (w : World) (req : Request) (call : FetchCall).
Hypothesis Hreach : reaches_gateway w req call.

(** Up to the call of the gateway. *)
Lemma try_block_gateway :
  try_block w req = (fetch w call ≫= on_gateway_response w, [call]).
Proof.
  destruct Hreach as (payload & description & api_key & _ & Hb & Hd & Hne & Hk & Hkne & ->).
  unfold try_block. rewrite Hb. cbn [h_lift h_bind]. rewrite Hd. cbn [h_lift h_bind].
  rewrite description_check. simpl nonempty_string.
  apply String.eqb_neq in Hne. rewrite Hne. cbn [negb].
  rewrite Hk. destruct api_key as [| a k]; [congruence |].
  cbn [ToString h_lift h_bind h_fetch].
  destruct (fetch w (gateway_call (String a k) description)) as [response |];
    cbn [app mbind result_bind]; reflexivity.
Qed.

Lemma serve_gateway :
  serve w req =
    (match fetch w call ≫= on_gateway_response w with
     | Ok response => response
     | Throw t => error_response 500 (catch_message t)
     end, [call]).
Proof.
  pose proof Hreach as (_ & _ & _ & Hm & _).
  unfold serve. apply String.eqb_neq in Hm. rewrite Hm.
  rewrite try_block_gateway.
  destruct (fetch w call ≫= on_gateway_response w); reflexivity.
Qed.

End Gateway.

(** The speaker request reaches the gateway in the example world. *)
Lemma speaker_reaches_gateway (st : Z) (candidate : JsVal) :
  reaches_gateway (world st candidate) speaker_request
    (gateway_call "secret" "Bluetooth speaker with RGB lighting effects").
Proof.
  exists (obj [("description", JStr "Bluetooth speaker with RGB lighting effects")]),
    "Bluetooth speaker with RGB lighting effects", "secret".
  repeat split; discriminate.
Defined.

(** C5, as stated, fails: the handler reads the body of a failure answer
    ([await response.text()], for its log) before it looks at the status.
    When that read rejects, the catch block answers 500 with the message of
    the error; here the gateway had answered 429. *)
Lemma upstream_429_unread :
  fetch broken_body_world
        (gateway_call "secret" "Bluetooth speaker with RGB lighting effects") =
    Ok {| gw_status := 429; gw_text := "ANSWER" |} ∧
  ok {| gw_status := 429; gw_text := "ANSWER" |} = false ∧
  (serve broken_body_world speaker_request).2 =
    [gateway_call "secret" "Bluetooth speaker with RGB lighting effects"] ∧
  status (serve broken_body_world speaker_request).1 = 500 ∧
  body (serve broken_body_world speaker_request).1 =
    Some (obj [("error", JStr "error reading a body from connection")]).
Proof. repeat split. Qed.

(** C5, amended. Let the gateway answer a generation request with a failure
    status (outside 200-299); one call of the gateway was made. If the body
    of that answer can be read, the endpoint answers with status 429 for
    429, 402 for 402 and 500 for any other status, each with one fixed
    message under [error], whatever the text read; the message for 429
    contains [Rate limit]. If the read of the body rejects, the endpoint
    answers 500 with the message of that error under [error], whatever the
    status of the gateway was. *)
Theorem upstream_error_mapping (w : World) (req : Request) (call : FetchCall)
    (response : GatewayResponse) :
  reaches_gateway w req call →
  fetch w call = Ok response →
  ok response = false →
  (serve w req).2 = [call] ∧
  (∀ errorText, response_text w response = Ok errorText →
     ∃ message,
       body (serve w req).1 = Some (obj [("error", JStr message)]) ∧
       (gw_status response = 429 →
          status (serve w req).1 = 429 ∧
          message = "Rate limit exceeded. Please try again later." ∧
          includes message "Rate limit" = true) ∧
       (gw_status response = 402 →
          status (serve w req).1 = 402 ∧
          message = "Usage limit reached. Please add credits.") ∧
       (gw_status response ≠ 429 → gw_status response ≠ 402 →
          status (serve w req).1 = 500 ∧
          message = "Failed to generate diagram")) ∧
  (∀ t, response_text w response = Throw t →
     status (serve w req).1 = 500 ∧
     body (serve w req).1 = Some (obj [("error", JStr (catch_message t))])).
Proof.
  intros Hreach Hfetch Hok.
  rewrite (serve_gateway w req call Hreach), Hfetch.
  cbn [mbind result_bind]. unfold on_gateway_response. rewrite Hok. cbn [negb fst snd].
  split; [reflexivity |]. split.
  - intros errorText ->. cbn [mbind result_bind].
    destruct (gw_status response =? 429) eqn:H429;
      [| destruct (gw_status response =? 402) eqn:H402].
    + apply Z.eqb_eq in H429. eexists. split; [reflexivity |].
      split; [intros _; repeat split |]. split; intros; lia.
    + apply Z.eqb_eq in H402. eexists. split; [reflexivity |].
      split; [intros; lia |]. split; [intros _; split; reflexivity | intros; lia].
    + eexists. split; [reflexivity |].
      apply Z.eqb_neq in H429. apply Z.eqb_neq in H402.
      split; [intros; lia |]. split; [intros; lia | intros _ _; split; reflexivity].
  - intros t ->. cbn [mbind result_bind]. split; reflexivity.
Qed.

(** Gateway statuses 429, 402 and 503 with a body that can be read, and 429
    with one that cannot. *)
Lemma upstream_error_mapping_witness :
  status (serve (world 429 JNull) speaker_request).1 = 429 ∧
  status (serve (world 402 JNull) speaker_request).1 = 402 ∧
  status (serve (world 503 JNull) speaker_request).1 = 500 ∧
  status (serve broken_body_world speaker_request).1 = 500.
Proof.
  split; [| split; [| split]].
  - destruct (proj1 (proj2 (upstream_error_mapping (world 429 JNull) speaker_request _ _
                              (speaker_reaches_gateway 429 JNull) eq_refl eq_refl))
                "ANSWER" eq_refl) as (message & _ & H & _).
    apply H. reflexivity.
  - destruct (proj1 (proj2 (upstream_error_mapping (world 402 JNull) speaker_request _ _
                              (speaker_reaches_gateway 402 JNull) eq_refl eq_refl))
                "ANSWER" eq_refl) as (message & _ & _ & H & _).
    apply H. reflexivity.
  - destruct (proj1 (proj2 (upstream_error_mapping (world 503 JNull) speaker_request _ _
                              (speaker_reaches_gateway 503 JNull) eq_refl eq_refl))
                "ANSWER" eq_refl) as (message & _ & _ & _ & H).
    apply H; discriminate.
  - apply (proj2 (proj2 (upstream_error_mapping broken_body_world speaker_request _
                           {| gw_status := 429; gw_text := "ANSWER" |}
                           (speaker_reaches_gateway 429 JNull) eq_refl eq_refl))
             (TypeError "error reading a body from connection")).
    reflexivity.
Defined.

(** C6, as stated, fails: a request whose body is [null] has no
    description, and neither has one whose body is not JSON; they are not
    answered 400: the read of the description throws, and the catch block
    answers 500 with the message of the error. *)
Lemma body_without_description_answered_500 :
  status (serve (world 200 JNull) (post JNull)).1 = 500 ∧
  body (serve (world 200 JNull) (post JNull)).1 =
    Some (obj [("error",
                JStr "Cannot destructure property 'description' as it is null.")]) ∧
  status (serve (world 200 JNull)
                {| req_method := "POST";
                   req_json := Throw (SyntaxError "Unexpected end of JSON input") |}).1 = 500 ∧
  body (serve (world 200 JNull)
              {| req_method := "POST";
                 req_json := Throw (SyntaxError "Unexpected end of JSON input") |}).1 =
    Some (obj [("error", JStr "Unexpected end of JSON input")]).
Proof. repeat split. Qed.

(** C6, amended. Take a request that gives no acceptable description:
    whatever can be read from its body under [description] is not a
    non-empty string. No call of the gateway is made for it. If it is not a
    preflight and a description can be read (the body is JSON other than
    [null]: the description is then the empty string, absent, or not a
    string), the answer is status 400 with the body
    [{"error": "Description is required"}]. If the body is [null], or is
    not JSON, the answer is status 500 with the message of the error thrown
    under [error]. A preflight is answered 200 without a body. *)
Theorem description_required (w : World) (req : Request) :
  (∀ payload description,
     req_json req = Ok payload → destructure payload "description" = Ok description →
     nonempty_string description = false) →
  (serve w req).2 = [] ∧
  (req_method req = "OPTIONS" →
     status (serve w req).1 = 200 ∧ body (serve w req).1 = None) ∧
  (req_method req ≠ "OPTIONS" →
     (∀ payload description,
        req_json req = Ok payload → destructure payload "description" = Ok description →
        status (serve w req).1 = 400 ∧
        body (serve w req).1 = Some (obj [("error", JStr "Description is required")])) ∧
     (∀ payload t,
        req_json req = Ok payload → destructure payload "description" = Throw t →
        (payload = JNull ∨ payload = JUndefined) ∧
        status (serve w req).1 = 500 ∧
        body (serve w req).1 = Some (obj [("error", JStr (catch_message t))])) ∧
     (∀ t, req_json req = Throw t →
        status (serve w req).1 = 500 ∧
        body (serve w req).1 = Some (obj [("error", JStr (catch_message t))]))).
Proof.
  intros Hnone. unfold serve, try_block.
  destruct (String.eqb (req_method req) "OPTIONS") eqn:Hm.
  - apply String.eqb_eq in Hm.
    split; [reflexivity |]. split; [intros _; split; reflexivity |].
    intros Hne. contradiction.
  - apply String.eqb_neq in Hm.
    destruct (req_json req) as [payload | t] eqn:Hb; cbn [h_lift h_bind].
    + destruct (destructure payload "description") as [description | t] eqn:Hd;
        cbn [h_lift h_bind].
      * rewrite description_check, (Hnone payload description eq_refl Hd).
        cbn [negb h_lift mret result_ret fst snd].
        split; [reflexivity |]. split; [intros He; contradiction |]. intros _.
        split; [intros ? ? _ _; split; reflexivity |].
        split; [intros ? ? [= <-] Ht; congruence | intros ? [=]].
      * cbn [fst snd].
        split; [reflexivity |]. split; [intros He; contradiction |]. intros _.
        split; [intros ? ? [= <-] Ht; congruence |].
        split; [| intros ? [=]].
        intros ? t' [= <-] Ht. rewrite Hd in Ht. injection Ht as <-.
        split; [| split; reflexivity].
        destruct payload; try discriminate; [right | left]; reflexivity.
    + cbn [fst snd].
      split; [reflexivity |]. split; [intros He; contradiction |]. intros _.
      split; [intros ? ? [=] |]. split; [intros ? ? [=] |].
      intros t' [= <-]. split; reflexivity.
Qed.

(** An empty description, no description, a number for one, and a body
    that is [null]. *)
Lemma description_required_witness :
  status (serve (world 200 JNull) (post (obj [("description", JStr "")]))).1 = 400 ∧
  status (serve (world 200 JNull) (post (obj [("prompt", JStr "a radio")]))).1 = 400 ∧
  status (serve (world 200 JNull) (post (obj [("description", JNum 7)]))).1 = 400 ∧
  status (serve (world 200 JNull) (post JNull)).1 = 500.
Proof.
  assert (∀ body : JsVal,
            (∀ description, destructure body "description" = Ok description →
                            nonempty_string description = false) →
            ∀ payload description,
              req_json (post body) = Ok payload →
              destructure payload "description" = Ok description →
              nonempty_string description = false) as Hnone.
  { intros body H payload description [= <-]. apply H. }
  split; [| split; [| split]].
  - destruct (description_required (world 200 JNull) (post (obj [("description", JStr "")])))
      as (_ & _ & Hreq).
    + apply Hnone. intros d Hd. vm_compute in Hd. injection Hd as <-. reflexivity.
    + destruct Hreq as (H400 & _); [discriminate |].
      apply (H400 (obj [("description", JStr "")]) (JStr "")); reflexivity.
  - destruct (description_required (world 200 JNull)
                (post (obj [("prompt", JStr "a radio")]))) as (_ & _ & Hreq).
    + apply Hnone. intros d Hd. vm_compute in Hd. injection Hd as <-. reflexivity.
    + destruct Hreq as (H400 & _); [discriminate |].
      apply (H400 (obj [("prompt", JStr "a radio")]) JUndefined); reflexivity.
  - destruct (description_required (world 200 JNull)
                (post (obj [("description", JNum 7)]))) as (_ & _ & Hreq).
    + apply Hnone. intros d Hd. vm_compute in Hd. injection Hd as <-. reflexivity.
    + destruct Hreq as (H400 & _); [discriminate |].
      apply (H400 (obj [("description", JNum 7)]) (JNum 7)); reflexivity.
  - destruct (description_required (world 200 JNull) (post JNull)) as (_ & _ & Hreq).
    + apply Hnone. intros d Hd. vm_compute in Hd. discriminate Hd.
    + destruct Hreq as (_ & H500 & _); [discriminate |].
      apply (H500 JNull
               (TypeError "Cannot destructure property 'description' as it is null."));
        reflexivity.
Defined.

Lemma blocks_not_inherited : Object_prototype !! "blocks" = None.
Proof. reflexivity. Qed.

(** Without [blocks] a candidate is rejected. *)
Lemma validate_blocks_missing (o : gmap string JsVal) :
  o !! "blocks" = None →
  validate_blocks (JObj o) =
    Ok (error_response 500 "AI did not generate exactly 5 blocks").
Proof.
  intros Hb. unfold validate_blocks. cbn [get mbind result_bind].
  rewrite (get_prop_absent o "blocks" Hb blocks_not_inherited). reflexivity.
Qed.


(** On an object, the validation never throws. *)
Lemma validate_blocks_object (o : gmap string JsVal) :
  ∃ response, validate_blocks (JObj o) = Ok response.
Proof.
  unfold validate_blocks. cbn [get mbind result_bind].
  destruct (get_prop o "blocks") as [| | b | n | s | items | props | name];
    cbn [truthy].
  all: try (destruct b).
  all: try (destruct (n =? 0)).
  all: try (destruct (String.eqb s "")).
  all: cbn [negb mbind result_bind mret result_ret].
  all: rewrite ?get_string_length, ?get_array_length.
  all: cbn [get mbind result_bind mret result_ret].
  all: try (destruct (negb _)).
  all: eexists; reflexivity.
Qed.

(** From a gateway answer that carries the tool call to the validation. *)
Lemma serve_validation (w : World) (req : Request) (call : FetchCall) (d : JsVal) :
  reaches_validation w req call d →
  serve w req =
    (match validate_blocks d with
     | Ok response => response
     | Throw t => error_response 500 (catch_message t)
     end, [call]).
Proof.
  intros [Hreach H].
  destruct H as (response & data & choices & choice & message & tool_calls &
                 toolCall & fn & arguments & Hfetch & Hok & Hdata & Hchoices &
                 Hchoice & Hmessage & Hcalls & Hcall & Htruthy & Hfn & Hname &
                 Harguments & Hparse).
  rewrite (serve_gateway w req call Hreach), Hfetch.
  cbn [mbind result_bind]. unfold on_gateway_response. rewrite Hok. cbn [negb].
  rewrite Hdata. cbn [mbind result_bind].
  unfold extract_tool_call.
  rewrite Hchoices. cbn [mbind result_bind].
  rewrite Hchoice. cbn [mbind result_bind].
  rewrite Hmessage. cbn [mbind result_bind].
  rewrite Hcalls. cbn [mbind result_bind].
  rewrite Hcall. cbn [mbind result_bind].
  rewrite Htruthy. cbn [negb].
  rewrite Hfn. cbn [mbind result_bind].
  rewrite Hname. cbn [mbind result_bind mret result_ret strict_equals].
  rewrite String.eqb_refl. cbn [negb].
  rewrite Harguments. cbn [mbind result_bind].
  rewrite Hparse. cbn [mbind result_bind].
  reflexivity.
Qed.

(** With status 200 the speaker request reaches the validation. *)
Lemma speaker_reaches_validation (candidate : JsVal) :
  reaches_validation (world 200 candidate) speaker_request
    (gateway_call "secret" "Bluetooth speaker with RGB lighting effects") candidate.
Proof.
  split; [apply speaker_reaches_gateway |].
  eexists _, gateway_answer, _, _, _, _, _, _, (JStr "ARGUMENTS").
  repeat split.
Defined.

(** A truthy value has a [length] that can be read. *)
Lemma truthy_length (v : JsVal) :
  truthy v = true → ∃ len, get v "length" = Ok len.
Proof.
  destruct v; try discriminate; intros _; eexists; reflexivity.
Qed.

Lemma strict_equals_five (v : JsVal) :
  strict_equals v (JNum 5) = true ↔ v = JNum 5.
Proof.
  split; [| intros ->; reflexivity].
  destruct v as [| | b | n | s | items | o | name]; try discriminate.
  simpl. intros H. apply Z.eqb_eq in H. subst n. reflexivity.
Qed.

(** The three outcomes of the validation. *)
Lemma validate_blocks_cases (diagramData : JsVal) :
  (∃ t, get diagramData "blocks" = Throw t ∧ validate_blocks diagramData = Throw t) ∨
  (∃ blocks, get diagramData "blocks" = Ok blocks ∧
             (truthy blocks = false ∨ get blocks "length" ≠ Ok (JNum 5)) ∧
             validate_blocks diagramData =
               Ok (error_response 500 "AI did not generate exactly 5 blocks")) ∨
  (∃ blocks, get diagramData "blocks" = Ok blocks ∧ truthy blocks = true ∧
             get blocks "length" = Ok (JNum 5) ∧
             validate_blocks diagramData =
               Ok (json_response 200 (obj [("diagram", diagramData)]))).
Proof.
  unfold validate_blocks.
  destruct (get diagramData "blocks") as [blocks | t] eqn:Hb; cbn [mbind result_bind].
  - right. destruct (truthy blocks) eqn:Ht; cbn [negb mbind result_bind mret result_ret].
    + destruct (truthy_length blocks Ht) as [len Hlen]. rewrite Hlen.
      cbn [mbind result_bind mret result_ret].
      destruct (strict_equals len (JNum 5)) eqn:H5; cbn [negb].
      * apply strict_equals_five in H5. subst len.
        right. exists blocks. repeat split; assumption || reflexivity.
      * left. exists blocks. split; [reflexivity |]. split; [| reflexivity].
        right. intros H. rewrite Hlen in H. injection H as ->. discriminate H5.
    + left. exists blocks. split; [reflexivity |]. split; [left; exact Ht | reflexivity].
  - left. exists t. split; reflexivity.
Qed.

(** C3, as stated, fails: a candidate with five blocks that have no field
    at all, and no [connections], violates the contract, and the validation
    accepts it; the endpoint answers 200 with that candidate as diagram. *)
Lemma validator_accepts_malformed :
  contract_ok five_empty_blocks = false ∧
  validate_blocks five_empty_blocks =
    Ok (json_response 200 (obj [("diagram", five_empty_blocks)])) ∧
  (serve (world 200 five_empty_blocks) speaker_request).1 =
    json_response 200 (obj [("diagram", five_empty_blocks)]) ∧
  status (serve (world 200 five_empty_blocks) speaker_request).1 = 200 ∧
  body (serve (world 200 five_empty_blocks) speaker_request).1 =
    Some (obj [("diagram", five_empty_blocks)]).
Proof. repeat split. Qed.

(** C3, amended. The validation looks at one thing only: the candidate's
    [blocks] must be truthy and its [length] must be the number 5. It looks
    at no field of a block, not at [connections], and not at whether
    [blocks] is an array. Let a generation request reach the validation
    with a candidate; one call of the gateway was made. If [blocks] can be
    read, is truthy and has [length] 5, the endpoint answers 200 with the
    candidate, unchanged, under [diagram]. If [blocks] can be read and is
    falsy, or its [length] is not 5, the endpoint answers 500 with the body
    [{"error": "AI did not generate exactly 5 blocks"}], which carries no
    diagram. If [blocks] cannot be read (the candidate is [null]), the
    endpoint answers 500 with the message of the error under [error]. These
    cases are all there are. For a candidate object whose [blocks] is an
    array the answer is 200 exactly when the array has five entries, and a
    candidate object without [blocks] is answered 500. *)
Theorem validation_checks_block_count (w : World) (req : Request) (call : FetchCall)
    (diagramData : JsVal) :
  reaches_validation w req call diagramData →
  (serve w req).2 = [call] ∧
  (∀ blocks, get diagramData "blocks" = Ok blocks →
     truthy blocks = true → get blocks "length" = Ok (JNum 5) →
     status (serve w req).1 = 200 ∧
     body (serve w req).1 = Some (obj [("diagram", diagramData)])) ∧
  (∀ blocks, get diagramData "blocks" = Ok blocks →
     truthy blocks = false ∨ get blocks "length" ≠ Ok (JNum 5) →
     status (serve w req).1 = 500 ∧
     body (serve w req).1 =
       Some (obj [("error", JStr "AI did not generate exactly 5 blocks")])) ∧
  (∀ t, get diagramData "blocks" = Throw t →
     (diagramData = JNull ∨ diagramData = JUndefined) ∧
     status (serve w req).1 = 500 ∧
     body (serve w req).1 = Some (obj [("error", JStr (catch_message t))])) ∧
  ((∃ blocks, get diagramData "blocks" = Ok blocks ∧ truthy blocks = true ∧
              get blocks "length" = Ok (JNum 5)) ∨
   (∃ blocks, get diagramData "blocks" = Ok blocks ∧
              (truthy blocks = false ∨ get blocks "length" ≠ Ok (JNum 5))) ∨
   (∃ t, get diagramData "blocks" = Throw t)) ∧
  (∀ o items, diagramData = JObj o → o !! "blocks" = Some (JArr items) →
     (status (serve w req).1 = 200 ↔ length items = 5%nat)) ∧
  (∀ o, diagramData = JObj o → o !! "blocks" = None → status (serve w req).1 = 500).
Proof.
  intros Hreach. rewrite (serve_validation w req call diagramData Hreach).
  cbn [fst snd]. split; [reflexivity |].
  destruct (validate_blocks_cases diagramData)
    as [(t & Hg & ->) | [(blocks & Hg & Hbad & ->) | (blocks & Hg & Ht & Hl & ->)]].
  - (* the read of the blocks throws *)
    split; [intros ? Hg'; congruence |]. split; [intros ? Hg'; congruence |].
    split; [| split; [| split]].
    + intros t' Hg'. rewrite Hg in Hg'. injection Hg' as <-.
      split; [| split; reflexivity].
      destruct diagramData; try discriminate; [right | left]; reflexivity.
    + right. right. exists t. exact Hg.
    + intros o items ->. discriminate.
    + intros o ->. discriminate.
  - (* the count is wrong *)
    split; [| split; [| split; [| split; [| split]]]].
    + intros blocks' Hg' Ht' Hl'. rewrite Hg in Hg'. injection Hg' as <-.
      destruct Hbad as [Hbad | Hbad]; congruence.
    + intros _ _ _. split; reflexivity.
    + intros t Hg'. congruence.
    + right. left. exists blocks. split; assumption.
    + intros o items -> Hb.
      cbn [get] in Hg. rewrite (get_prop_own o "blocks" _ Hb) in Hg. injection Hg as <-.
      split; [discriminate |]. intros H5. exfalso.
      destruct Hbad as [Hbad | Hbad]; [discriminate |].
      apply Hbad. rewrite get_array_length, H5. reflexivity.
    + intros _ _ _. reflexivity.
  - (* five *)
    split; [| split; [| split; [| split; [| split]]]].
    + intros _ _ _ _. split; reflexivity.
    + intros blocks' Hg' Hbad. rewrite Hg in Hg'. injection Hg' as <-.
      destruct Hbad as [Hbad | Hbad]; congruence.
    + intros t Hg'. congruence.
    + left. exists blocks. repeat split; assumption.
    + intros o items -> Hb.
      cbn [get] in Hg. rewrite (get_prop_own o "blocks" _ Hb) in Hg. injection Hg as <-.
      split; [intros _ | reflexivity].
      rewrite get_array_length in Hl. injection Hl as Hl. lia.
    + intros o -> Hb.
      cbn [get] in Hg.
      rewrite (get_prop_absent o "blocks" Hb blocks_not_inherited) in Hg.
      injection Hg as <-. discriminate.
Qed.

(** Five blocks; an object with a [length] of 5 for the blocks; four
    blocks; a candidate that is [null]. *)
Lemma validation_checks_block_count_witness :
  status (serve (world 200 five_empty_blocks) speaker_request).1 = 200 ∧
  status (serve (world 200 length_only_blocks) speaker_request).1 = 200 ∧
  body (serve (world 200 length_only_blocks) speaker_request).1 =
    Some (obj [("diagram", length_only_blocks)]) ∧
  status (serve (world 200 four_empty_blocks) speaker_request).1 = 500 ∧
  status (serve (world 200 JNull) speaker_request).1 = 500.
Proof.
  split; [| split; [| split; [| split]]].
  - destruct (validation_checks_block_count _ _ _ _
                (speaker_reaches_validation five_empty_blocks)) as (_ & H200 & _).
    apply (H200 (JArr (replicate 5%nat (JObj ∅)))); reflexivity.
  - destruct (validation_checks_block_count _ _ _ _
                (speaker_reaches_validation length_only_blocks)) as (_ & H200 & _).
    apply (H200 (obj [("length", JNum 5)])); reflexivity.
  - destruct (validation_checks_block_count _ _ _ _
                (speaker_reaches_validation length_only_blocks)) as (_ & H200 & _).
    apply (H200 (obj [("length", JNum 5)])); reflexivity.
  - destruct (validation_checks_block_count _ _ _ _
                (speaker_reaches_validation four_empty_blocks)) as (_ & _ & H500 & _).
    apply (H500 (JArr (replicate 4%nat (JObj ∅)))); [reflexivity |].
    right. discriminate.
  - destruct (validation_checks_block_count _ _ _ _
                (speaker_reaches_validation JNull)) as (_ & _ & _ & Hnull & _).
    apply (Hnull (TypeError "Cannot read properties of null (reading 'blocks')")).
    reflexivity.
Defined.

End EndpointFacts.
(* ===================================================================== *)
(** ** The block node: editing and rendering *)
(* ===================================================================== *)

Module BlockNodeFacts.
Import DiagramUtils DiagramCanvas CanvasSpec Schema Examples JsFacts Tactics.
Import GenerateDiagram.
Import BlockNode.

Lemma edited_fields_keys (st : State) :
  dom (edited_fields st) = list_to_set edited_keys.
Proof. destruct st. vm_compute. reflexivity. Qed.

Lemma edited_fields_other (st : State) (k : string) :
  k ∉ edited_keys → edited_fields st !! k = None.
Proof.
  intros Hk. apply not_elem_of_dom.
  rewrite edited_fields_keys, elem_of_list_to_set. exact Hk.
Qed.

Lemma get_prop_ext (o o' : gmap string JsVal) (k : string) :
  o !! k = o' !! k → get_prop o k = get_prop o' k.
Proof. unfold get_prop. intros ->. reflexivity. Qed.

(** The node [handleNodeUpdate] builds from a node with the edited id. *)
Lemma merge_edited_fields (st : State) (n : Node) :
  let n' := merge_data (edited_fields st) n in
  node_id n' = node_id n ∧
  node_type n' = node_type n ∧
  node_position n' = node_position n ∧
  node_draggable n' = node_draggable n ∧
  get_prop (node_data n') "type" = get_prop (node_data n) "type" ∧
  node_data n' !! "title" = Some (editTitle st) ∧
  node_data n' !! "components" = Some (editComponents st) ∧
  node_data n' !! "annotation" = Some (or_else (editAnnotation st) JUndefined) ∧
  (∀ k, k ∉ edited_keys → node_data n' !! k = node_data n !! k).
Proof.
  assert (∀ k, k ∉ edited_keys →
            spread (node_data n) (edited_fields st) !! k = node_data n !! k) as Hother.
  { intros k Hk. unfold spread. apply lookup_union_r, edited_fields_other, Hk. }
  simpl. repeat split.
  - apply get_prop_ext, Hother. unfold edited_keys. not_in_literals.
  - unfold spread. apply lookup_union_Some_l. reflexivity.
  - unfold spread. apply lookup_union_Some_l. reflexivity.
  - unfold spread. apply lookup_union_Some_l. reflexivity.
  - exact Hother.
Qed.

(** No action but [Save] reaches the state behind [onUpdate]. *)
Lemma dispatch_frame {C} (onUpdate : option (string → gmap string JsVal → C → C))
    (props : Props) (ev : Event) (st st' : State) (c c' : C) :
  ev ≠ Save → dispatch onUpdate props ev (st, c) = Ok (st', c') → c' = c.
Proof.
  intros Hev. destruct ev; simpl; unfold_result; try (intros [= _ <-]; reflexivity).
  - destruct (handleAddComponent st); simpl; [| discriminate].
    intros [= _ <-]. reflexivity.
  - destruct (handleRemoveComponent index st); simpl; [| discriminate].
    intros [= _ <-]. reflexivity.
  - contradiction.
Qed.

Lemma run_cons {C} (onUpdate : option (string → gmap string JsVal → C → C))
    (props : Props) (ev : Event) (evs : list Event) (s : State * C) :
  run onUpdate props (ev :: evs) s =
    s' ← dispatch onUpdate props ev s; run onUpdate props evs s'.
Proof. reflexivity. Qed.

Lemma run_frame {C} (onUpdate : option (string → gmap string JsVal → C → C))
    (props : Props) (evs : list Event) (st st' : State) (c c' : C) :
  Save ∉ evs → run onUpdate props evs (st, c) = Ok (st', c') → c' = c.
Proof.
  revert st c. induction evs as [| ev evs IH]; intros st c Hs.
  - simpl. unfold_result. congruence.
  - apply not_elem_of_cons in Hs as [Hne Hs]. rewrite run_cons.
    destruct (dispatch onUpdate props ev (st, c)) as [[st1 c1] |] eqn:Hd;
      cbn [mbind result_bind]; [| discriminate].
    intros Hr. apply IH in Hr; [| exact Hs].
    apply dispatch_frame in Hd; [| congruence]. congruence.
Qed.

Lemma run_app {C} (onUpdate : option (string → gmap string JsVal → C → C))
    (props : Props) (evs evs' : list Event) (s : State * C) :
  run onUpdate props (evs ++ evs') s =
    s' ← run onUpdate props evs s; run onUpdate props evs' s'.
Proof.
  revert s. induction evs as [| ev evs IH]; intros s; [reflexivity |].
  rewrite <- app_comm_cons, !run_cons.
  destruct (dispatch onUpdate props ev s); cbn [mbind result_bind];
    [apply IH | reflexivity].
Qed.

(** With component lists that are arrays, no action throws. *)
Lemma dispatch_total {C} (onUpdate : option (string → gmap string JsVal → C → C))
    (props : Props) (ev : Event) (st : State) (c : C) :
  is_array (get_prop (data props) "components") → is_array (editComponents st) →
  ∃ st' c', dispatch onUpdate props ev (st, c) = Ok (st', c') ∧
            is_array (editComponents st').
Proof.
  intros Hd [items Hst].
  destruct ev; cbn [dispatch]; unfold handleSave, handleAddComponent,
    handleRemoveComponent; rewrite ?Hst;
    try destruct (truthy (JStr (trim (newComponent st))));
    unfold_result; cbn [iterate array_receiver];
    (eexists _, _; split; [reflexivity |]);
    cbn [editComponents set_isEditing handleCancel];
    first [exists items; exact Hst | exact Hd | eexists; reflexivity].
Qed.

Lemma run_total {C} (onUpdate : option (string → gmap string JsVal → C → C))
    (props : Props) (evs : list Event) (st : State) (c : C) :
  is_array (get_prop (data props) "components") → is_array (editComponents st) →
  ∃ st' c', run onUpdate props evs (st, c) = Ok (st', c').
Proof.
  intros Hd. revert st c. induction evs as [| ev evs IH]; intros st c Hst.
  - eexists _, _. reflexivity.
  - rewrite run_cons.
    destruct (dispatch_total onUpdate props ev st c Hd Hst) as (st1 & c1 & -> & H1).
    cbn [mbind result_bind]. apply IH, H1.
Qed.

Lemma run_then_cancel {C} (onUpdate : option (string → gmap string JsVal → C → C))
    (props : Props) (evs : list Event) (st : State) (c : C) (s' : State * C) :
  Save ∉ evs → run onUpdate props (evs ++ [Cancel]) (st, c) = Ok s' →
  ∃ st1, run onUpdate props evs (st, c) = Ok (st1, c) ∧ s' = (handleCancel props st1, c).
Proof.
  intros Hs. rewrite run_app.
  destruct (run onUpdate props evs (st, c)) as [[st1 c1] |] eqn:Hr;
    cbn [mbind result_bind]; [| discriminate].
  apply run_frame in Hr as ->; [| exact Hs].
  simpl. unfold_result. intros [= <-]. exists st1. split; reflexivity.
Qed.

(** C8. Edit block. Confirming an edit ([handleSave], with the canvas's
    [handleNodeUpdate] as [onUpdate]) leaves the edges alone and changes the
    node list pointwise: a node with another id is unchanged; a node with the
    edited id keeps its id, node type, position and block type, its data
    gets the edited title, component list and annotation, and every other
    key of its data is as before. The page's copy receives the new nodes.
    Cancelling, after any actions short of a save, leaves the working set as
    it was and resets the edit buffers to the block's current fields; with
    component lists that are arrays such a session runs without error. *)
Theorem edit_block_frame (props : Props) (st : State) (c : Canvas) :
  let saved := handleSave (Some handleNodeUpdate) props st c in
  edges saved.2 = edges c ∧
  parent_edges saved.2 = parent_edges c ∧
  parent_nodes saved.2 = nodes saved.2 ∧
  Forall2 (λ n n',
             (node_id n ≠ JStr (id props) → n' = n) ∧
             (node_id n = JStr (id props) →
                node_id n' = node_id n ∧
                node_type n' = node_type n ∧
                node_position n' = node_position n ∧
                node_draggable n' = node_draggable n ∧
                get_prop (node_data n') "type" = get_prop (node_data n) "type" ∧
                node_data n' !! "title" = Some (editTitle st) ∧
                node_data n' !! "components" = Some (editComponents st) ∧
                node_data n' !! "annotation" =
                  Some (or_else (editAnnotation st) JUndefined) ∧
                (∀ k, k ∉ edited_keys → node_data n' !! k = node_data n !! k)))
          (nodes c) (nodes saved.2) ∧
  (∀ evs s', Save ∉ evs →
     run (Some handleNodeUpdate) props (evs ++ [Cancel]) (st, c) = Ok s' →
     s'.2 = c ∧
     isEditing s'.1 = false ∧
     editTitle s'.1 = get_prop (data props) "title" ∧
     editComponents s'.1 = get_prop (data props) "components" ∧
     editAnnotation s'.1 = or_else (get_prop (data props) "annotation") (JStr "")) ∧
  (∀ evs, Save ∉ evs →
     is_array (get_prop (data props) "components") → is_array (editComponents st) →
     ∃ st', run (Some handleNodeUpdate) props (evs ++ [Cancel]) (st, c) = Ok (st', c)).
Proof.
  cbn zeta. split; [reflexivity |]. split; [reflexivity |]. split; [reflexivity |].
  split; [| split].
  - simpl. induction (nodes c) as [| n ns IH]; simpl; constructor; [| exact IH].
    split.
    + intros Hne. apply strict_equals_string_false in Hne. rewrite Hne. reflexivity.
    + intros Heq. apply strict_equals_string in Heq. rewrite Heq.
      apply merge_edited_fields.
  - intros evs s' Hs Hr.
    destruct (run_then_cancel _ props evs st c s' Hs Hr) as (st1 & _ & ->).
    repeat split.
  - intros evs Hs Hd Hst. rewrite run_app.
    destruct (run_total (Some handleNodeUpdate) props evs st c Hd Hst)
      as (st1 & c1 & Hr).
    rewrite Hr. pose proof (run_frame _ _ _ _ _ _ _ Hs Hr) as ->.
    simpl. eexists. reflexivity.
Qed.

(** An edit session on the power block of the template, then cancel. *)
Lemma edit_block_frame_witness :
  ∃ st',
    run (Some handleNodeUpdate) power_props (session ++ [Cancel])
        (initial_state power_props, template_canvas) = Ok (st', template_canvas).
Proof.
  apply (edit_block_frame power_props (initial_state power_props) template_canvas).
  - unfold session. not_in_literals.
  - eexists. reflexivity.
  - eexists. reflexivity.
Defined.


Lemma blockStyles_category (key : string) :
  key ∈ block_types →
  ∃ icon, blockStyles !! key = Some (style_entry ("block-" +:+ key) icon).
Proof.
  unfold block_types. intros H.
  repeat (apply elem_of_cons in H as [-> | H]; [eexists; reflexivity |]).
  apply elem_of_nil in H. destruct H.
Qed.



(** The type [["power"]] is outside the five categories as well, and its
    block renders as a power block: the lookup converts the type to the
    property key [power]. *)
Example render_array_type_succeeds :
  get_prop (BlockNode.data array_type_props) "type" = JArr [JStr "power"] ∧
  is_block_type (get_prop (BlockNode.data array_type_props) "type") = false ∧
  ToPropertyKey (get_prop (BlockNode.data array_type_props) "type") = Ok "power" ∧
  ∃ view, render array_type_props (initial_state array_type_props) = Ok view ∧
          view_className view !! 1%nat = Some (JStr "block-power").
Proof.
  split; [reflexivity |]. split; [reflexivity |]. split; [reflexivity |].
  eexists. split; reflexivity.
Qed.



End BlockNodeFacts.

(* ===================================================================== *)
(** ** More on the canvas: invariants and how the operations compose *)
(* ===================================================================== *)

Module CanvasLaws.
Import DiagramUtils ReactFlow DiagramCanvas CanvasSpec AppSpec Examples JsFacts Tactics.

(** X1. The page's copy stays equal to the working set: whoever holds both in
    step before an operation holds them in step after it. *)
Theorem operations_keep_sync (c : Canvas) :
  synced c →
  (∀ p, synced (onConnect p c)) ∧
  (∀ i d, synced (handleNodeUpdate i d c)) ∧
  (∀ i, synced (handleNodeDelete i c)) ∧
  (∀ page, synced (Index.mount page)).
Proof.
  intros [Hn He]. unfold synced. repeat split; simpl; congruence.
Qed.

(** On the loaded template. *)
Lemma operations_keep_sync_witness :
  synced (handleNodeDelete "inputs-1" template_canvas).
Proof.
  apply (operations_keep_sync template_canvas). split; reflexivity.
Defined.

(** X2. Deleting a node keeps the edge set free of dangling ends, when it was
    free of them before. *)
Theorem delete_keeps_integrity (c : Canvas) (i : string) :
  dangling_free (nodes c) (edges c) →
  dangling_free (nodes (handleNodeDelete i c)) (edges (handleNodeDelete i c)).
Proof.
  intros Hfree e He. simpl in He.
  apply CanvasFacts.elem_of_filter_bool in He as [He Hends].
  apply andb_true_iff in Hends as [Hs Ht].
  apply negb_true_iff in Hs. apply negb_true_iff in Ht.
  destruct (Hfree e He) as [(n & Hn & Hns) (m & Hm & Hmt)].
  split.
  - exists n. split; [| exact Hns]. simpl.
    apply CanvasFacts.elem_of_filter_bool. split; [exact Hn |].
    rewrite Hns, Hs. reflexivity.
  - exists m. split; [| exact Hmt]. simpl.
    apply CanvasFacts.elem_of_filter_bool. split; [exact Hm |].
    rewrite Hmt, Ht. reflexivity.
Qed.

Lemma strict_equals_eq (a b : JsVal) : strict_equals a b = true → a = b.
Proof.
  destruct a, b; simpl; try discriminate; try reflexivity.
  - intros H. apply Bool.eqb_prop in H. congruence.
  - intros H. apply Z.eqb_eq in H. congruence.
  - intros H. apply String.eqb_eq in H. congruence.
Qed.

(** A test that establishes [dangling_free]. *)
Lemma dangling_free_by_test (ns : list Node) (es : list Edge) :
  forallb (λ e, existsb (λ n, strict_equals (node_id n) (edge_source e)) ns &&
                existsb (λ n, strict_equals (node_id n) (edge_target e)) ns) es = true →
  dangling_free ns es.
Proof.
  intros H e He. rewrite forallb_forall in H.
  apply list_elem_of_In, H, andb_true_iff in He as [Hs Ht].
  apply existsb_exists in Hs as (n & Hn & Hns).
  apply existsb_exists in Ht as (m & Hm & Hmt).
  split; [exists n | exists m]; (split; [apply list_elem_of_In; assumption |]);
    apply strict_equals_eq; assumption.
Qed.

Lemma template_dangling_free :
  dangling_free (nodes template_canvas) (edges template_canvas).
Proof. apply dangling_free_by_test. vm_compute. reflexivity. Defined.

(** Deleting the processing block of the loaded template. *)
Lemma delete_keeps_integrity_witness :
  dangling_free (nodes (handleNodeDelete "processing-1" template_canvas))
                (edges (handleNodeDelete "processing-1" template_canvas)).
Proof.
  apply (delete_keeps_integrity template_canvas "processing-1").
  exact template_dangling_free.
Defined.

Lemma filter_all {A} (p : A → bool) (l : list A) :
  (∀ x, x ∈ l → p x = true) → List.filter p l = l.
Proof.
  induction l as [| x l IH]; intros H; simpl; [reflexivity |].
  rewrite (H x); [| left]. f_equal. apply IH. intros y Hy. apply H. right. exact Hy.
Qed.

Lemma filter_filter_comm {A} (p q : A → bool) (l : list A) :
  List.filter p (List.filter q l) = List.filter q (List.filter p l).
Proof.
  induction l as [| x l IH]; simpl; [reflexivity |].
  destruct (p x) eqn:Hp, (q x) eqn:Hq; simpl; rewrite ?Hp, ?Hq, IH; reflexivity.
Qed.

Lemma filter_idem {A} (p : A → bool) (l : list A) :
  List.filter p (List.filter p l) = List.filter p l.
Proof.
  apply filter_all. intros x Hx. apply CanvasFacts.elem_of_filter_bool in Hx as [_ Hx].
  exact Hx.
Qed.

(** X3. Deleting an id that no node bears and no edge mentions changes neither
    the nodes nor the edges. *)
Theorem delete_absent (c : Canvas) (i : string) :
  (∀ n, n ∈ nodes c → node_id n ≠ JStr i) →
  (∀ e, e ∈ edges c → edge_source e ≠ JStr i ∧ edge_target e ≠ JStr i) →
  nodes (handleNodeDelete i c) = nodes c ∧ edges (handleNodeDelete i c) = edges c.
Proof.
  intros Hn He. simpl. split; apply filter_all.
  - intros n Hin. apply negb_true_iff, strict_equals_string_false, Hn, Hin.
  - intros e Hin. destruct (He e Hin) as [Hs Ht].
    apply andb_true_iff. split; apply negb_true_iff, strict_equals_string_false; assumption.
Qed.

(** The template has no block [memory-1]. *)
Lemma delete_absent_witness :
  nodes (handleNodeDelete "memory-1" template_canvas) = nodes template_canvas ∧
  edges (handleNodeDelete "memory-1" template_canvas) = edges template_canvas.
Proof.
  apply (delete_absent template_canvas "memory-1").
  - intros n Hn. apply list_elem_of_In in Hn. vm_compute in Hn.
    repeat (destruct Hn as [<- | Hn]; [discriminate |]). destruct Hn.
  - intros e He. apply list_elem_of_In in He. vm_compute in He.
    repeat (destruct He as [<- | He]; [split; discriminate |]). destruct He.
Defined.

(** X4. Deleting twice is deleting once, and two deletions can be done in
    either order. *)
Theorem delete_idempotent_commutes (c : Canvas) (i j : string) :
  handleNodeDelete i (handleNodeDelete i c) = handleNodeDelete i c ∧
  handleNodeDelete i (handleNodeDelete j c) = handleNodeDelete j (handleNodeDelete i c).
Proof.
  unfold handleNodeDelete. simpl. split.
  - rewrite !filter_idem. reflexivity.
  - rewrite (filter_filter_comm _ _ (nodes c)), (filter_filter_comm _ _ (edges c)).
    reflexivity.
Qed.

Lemma spread_assoc (a d1 d2 : gmap string JsVal) :
  spread (spread a d1) d2 = spread a (spread d1 d2).
Proof. unfold spread. apply (assoc_L (∪)). Qed.

(** X5. Two updates of a node in a row are one update with the two data
    objects merged, the later one winning; an update of an id no node bears
    changes no node; an update never changes the order, the ids or the
    positions of the nodes. *)
Theorem update_composes (c : Canvas) (i : string) (d1 d2 : gmap string JsVal) :
  handleNodeUpdate i d2 (handleNodeUpdate i d1 c) = handleNodeUpdate i (spread d1 d2) c ∧
  ((∀ n, n ∈ nodes c → node_id n ≠ JStr i) → nodes (handleNodeUpdate i d1 c) = nodes c) ∧
  node_id <$> nodes (handleNodeUpdate i d1 c) = node_id <$> nodes c ∧
  node_position <$> nodes (handleNodeUpdate i d1 c) = node_position <$> nodes c.
Proof.
  split; [| split; [| split]].
  - unfold handleNodeUpdate. simpl.
    assert ((λ node, if strict_equals (node_id node) (JStr i)
                     then merge_data d2 node else node) <$>
            ((λ node, if strict_equals (node_id node) (JStr i)
                      then merge_data d1 node else node) <$> nodes c) =
            (λ node, if strict_equals (node_id node) (JStr i)
                     then merge_data (spread d1 d2) node else node) <$> nodes c) as ->;
      [| reflexivity].
    induction (nodes c) as [| n ns IH]; simpl; [reflexivity |].
    f_equal; [| exact IH].
    destruct (strict_equals (node_id n) (JStr i)) eqn:Hn; simpl; rewrite Hn; [| reflexivity].
    unfold merge_data. simpl. rewrite spread_assoc. reflexivity.
  - intros Habsent. simpl.
    induction (nodes c) as [| n ns IH]; simpl; [reflexivity |].
    f_equal.
    + assert (strict_equals (node_id n) (JStr i) = false) as ->; [| reflexivity].
      apply strict_equals_string_false, Habsent. left.
    + apply IH. intros m Hm. apply Habsent. right. exact Hm.
  - simpl. induction (nodes c) as [| n ns IH]; simpl; [reflexivity |].
    f_equal; [| exact IH]. destruct (strict_equals (node_id n) (JStr i)); reflexivity.
  - simpl. induction (nodes c) as [| n ns IH]; simpl; [reflexivity |].
    f_equal; [| exact IH]. destruct (strict_equals (node_id n) (JStr i)); reflexivity.
Qed.

(** The template has no block [memory-1]. *)
Lemma update_composes_witness :
  nodes (handleNodeUpdate "memory-1" {[ "title" := JStr "Memory" ]} template_canvas) =
    nodes template_canvas.
Proof.
  apply (update_composes template_canvas "memory-1" {[ "title" := JStr "Memory" ]} ∅).
  intros n Hn. apply list_elem_of_In in Hn. vm_compute in Hn.
  repeat (destruct Hn as [<- | Hn]; [discriminate |]). destruct Hn.
Defined.

(** X6. Updating a node and then deleting it is deleting it. *)
Theorem update_then_delete (c : Canvas) (i : string) (d : gmap string JsVal) :
  handleNodeDelete i (handleNodeUpdate i d c) = handleNodeDelete i c.
Proof.
  unfold handleNodeDelete, handleNodeUpdate. simpl.
  assert (List.filter (λ node, negb (strict_equals (node_id node) (JStr i)))
            ((λ node, if strict_equals (node_id node) (JStr i)
                      then merge_data d node else node) <$> nodes c) =
          List.filter (λ node, negb (strict_equals (node_id node) (JStr i))) (nodes c))
    as ->; [| reflexivity].
  induction (nodes c) as [| n ns IH]; simpl; [reflexivity |].
  destruct (strict_equals (node_id n) (JStr i)) eqn:Hn; simpl; rewrite Hn; simpl.
  - exact IH.
  - f_equal. exact IH.
Qed.

Lemma strict_equals_nullable_refl (h : option string) :
  strict_equals (nullable h) (nullable h) = true.
Proof. apply CanvasFacts.strict_equals_nullable. reflexivity. Qed.

Lemma connectionExists_app (edge : Edge) (es es' : list Edge) :
  connectionExists edge (es ++ es') = connectionExists edge es || connectionExists edge es'.
Proof. unfold connectionExists. apply existsb_app. Qed.

(** X7. Connecting the same two handles a second time changes nothing: the
    gesture is idempotent. *)
Theorem connect_idempotent (c : Canvas) (p : Connection) :
  onConnect p (onConnect p c) = onConnect p c.
Proof.
  unfold onConnect. simpl.
  assert (addEdge p defaultEdgeOptions (addEdge p defaultEdgeOptions (edges c)) =
          addEdge p defaultEdgeOptions (edges c)) as ->; [| reflexivity].
  unfold addEdge.
  destruct (negb (truthy (nullable (source p))) || negb (truthy (nullable (target p))))
    eqn:Hends; [reflexivity |].
  destruct (connectionExists (edge_of_connection p defaultEdgeOptions) (edges c)) eqn:Hex;
    cbn iota.
  - rewrite Hex. reflexivity.
  - rewrite connectionExists_app, Hex. simpl.
    unfold same_connection, same_handle. simpl.
    rewrite !strict_equals_nullable_refl. reflexivity.
Qed.

End CanvasLaws.

(* ===================================================================== *)
(** ** More on the block node: the component list, saving, rendering *)
(* ===================================================================== *)

Module BlockNodeLaws.
Import DiagramUtils DiagramCanvas CanvasSpec AppSpec Schema Examples MoreExamples JsFacts Tactics.
Import BlockNode.

Lemma trim_end_idem (s : string) : trim_end (trim_end s) = trim_end s.
Proof.
  induction s as [| c r IH]; simpl; [reflexivity |].
  destruct (trim_end r) as [| a t] eqn:Ht.
  - destruct (is_space c) eqn:Hc; simpl; [reflexivity |]. rewrite Hc. reflexivity.
  -
    change (trim_end (String c (String a t)))
      with (match trim_end (String a t) with
            | EmptyString => if is_space c then EmptyString else String c EmptyString
            | String x y => String c (String x y)
            end).
    rewrite IH. reflexivity.
Qed.

Lemma trim_start_head (s : string) :
  trim_start s = EmptyString ∨
  ∃ c r, trim_start s = String c r ∧ is_space c = false.
Proof.
  induction s as [| c r IH]; simpl; [left; reflexivity |].
  destruct (is_space c) eqn:Hc; [exact IH |]. right. exists c, r. split; [reflexivity | exact Hc].
Qed.

Lemma trim_end_head (c : ascii) (r : string) :
  is_space c = false → ∃ r', trim_end (String c r) = String c r'.
Proof.
  intros Hc. simpl. destruct (trim_end r); [rewrite Hc |]; eexists; reflexivity.
Qed.

Lemma trim_start_fixed (c : ascii) (r : string) :
  is_space c = false → trim_start (String c r) = String c r.
Proof. intros Hc. simpl. rewrite Hc. reflexivity. Qed.

(** Trimming twice is trimming once. *)
Lemma trim_idem (s : string) : trim (trim s) = trim s.
Proof.
  unfold trim. destruct (trim_start_head s) as [-> | (c & r & -> & Hc)]; [reflexivity |].
  destruct (trim_end_head c r Hc) as [r' Hr]. rewrite Hr.
  rewrite (trim_start_fixed c r' Hc), <- Hr. apply trim_end_idem.
Qed.

Lemma truthy_string (s : string) : truthy (JStr s) = true ↔ s ≠ "".
Proof. simpl. rewrite negb_true_iff. apply String.eqb_neq. Qed.

(** X8. Adding a component. When the typed text is blank nothing changes.
    Otherwise, on a component list that is an array, the trimmed text, which
    is not empty and has no white space around it, becomes the last entry,
    the entries before it are kept, and the input is cleared; on a list that
    is neither an array nor a string the handler throws. *)
Theorem add_component (st : State) :
  (trim (newComponent st) = "" → handleAddComponent st = Ok st) ∧
  (trim (newComponent st) ≠ "" → ∀ prev, editComponents st = JArr prev →
     ∃ st', handleAddComponent st = Ok st' ∧
            editComponents st' = JArr (prev ++ [JStr (trim (newComponent st))]) ∧
            trim (trim (newComponent st)) = trim (newComponent st) ∧
            newComponent st' = "" ∧
            editTitle st' = editTitle st ∧
            editAnnotation st' = editAnnotation st ∧
            isEditing st' = isEditing st) ∧
  (trim (newComponent st) ≠ "" →
     (∀ items, editComponents st ≠ JArr items) → (∀ s, editComponents st ≠ JStr s) →
     ∃ t, handleAddComponent st = Throw t).
Proof.
  unfold handleAddComponent. split; [| split].
  - intros ->. reflexivity.
  - intros Hne prev Hprev. apply truthy_string in Hne. rewrite Hne, Hprev.
    eexists. split; [reflexivity |]. simpl. repeat split. apply trim_idem.
  - intros Hne Harr Hstr. apply truthy_string in Hne. rewrite Hne.
    destruct (editComponents st); try (eexists; reflexivity).
    + exfalso. eapply Hstr. reflexivity.
    + exfalso. eapply Harr. reflexivity.
Qed.

(** Typing a padded name on the power block; typing blanks; adding to a
    block without component list. *)
Lemma add_component_witness :
  (∃ st', handleAddComponent (typed "  Fuse " power_props) = Ok st' ∧
          editComponents st' = JArr [JStr "Battery"; JStr "Voltage Regulator"; JStr "Fuse"]) ∧
  handleAddComponent (typed "   " power_props) = Ok (typed "   " power_props) ∧
  (∃ t, handleAddComponent (typed "Fuse" bare_props) = Throw t).
Proof.
  split; [| split].
  - destruct (proj1 (proj2 (add_component (typed "  Fuse " power_props))))
      with (prev := [JStr "Battery"; JStr "Voltage Regulator"])
      as (st' & Hadd & Hlist & _); [discriminate | reflexivity |].
    exists st'. split; [exact Hadd | exact Hlist].
  - apply (proj1 (add_component (typed "   " power_props))). reflexivity.
  - apply (proj2 (proj2 (add_component (typed "Fuse" bare_props)))); discriminate.
Defined.

Lemma remove_at_take_drop {A} (i : nat) (l : list A) :
  remove_at i l = take i l ++ drop (S i) l.
Proof.
  revert i. induction l as [| x l IH]; intros [| i]; simpl; try reflexivity.
  f_equal. apply IH.
Qed.

(** X9. Removing a component. On a list that is an array the entry at the index
    goes and the others stay in order: the list is one shorter when the
    index is in range and unchanged when it is not. Nothing else changes. *)
Theorem remove_component (st : State) (i : nat) (prev : list JsVal) :
  editComponents st = JArr prev →
  ∃ st', handleRemoveComponent i st = Ok st' ∧
         editComponents st' = JArr (take i prev ++ drop (S i) prev) ∧
         (i < length prev → S (length (take i prev ++ drop (S i) prev)) = length prev)%nat ∧
         (length prev ≤ i → editComponents st' = editComponents st)%nat ∧
         editTitle st' = editTitle st ∧
         editAnnotation st' = editAnnotation st ∧
         newComponent st' = newComponent st.
Proof.
  intros Hprev. unfold handleRemoveComponent. rewrite Hprev. simpl.
  eexists. split; [reflexivity |]. simpl. rewrite remove_at_take_drop.
  repeat split.
  - intros Hi. rewrite length_app, length_take, length_drop. lia.
  - intros Hi. rewrite take_ge, drop_ge, app_nil_r by lia. reflexivity.
Qed.

(** Removing the first component of the power block, and one beyond the
    end. *)
Lemma remove_component_witness :
  (∃ st', handleRemoveComponent 0 (initial_state power_props) = Ok st' ∧
          editComponents st' = JArr [JStr "Voltage Regulator"]) ∧
  (∃ st', handleRemoveComponent 7 (initial_state power_props) = Ok st' ∧
          editComponents st' = JArr [JStr "Battery"; JStr "Voltage Regulator"]).
Proof.
  split.
  - destruct (remove_component (initial_state power_props) 0
                [JStr "Battery"; JStr "Voltage Regulator"] eq_refl)
      as (st' & Hr & Hl & _).
    exists st'. split; [exact Hr | exact Hl].
  - destruct (remove_component (initial_state power_props) 7
                [JStr "Battery"; JStr "Voltage Regulator"] eq_refl)
      as (st' & Hr & Hl & _).
    exists st'. split; [exact Hr | exact Hl].
Defined.

(** X10. Adding a component and removing the last entry gives the component
    list back. *)
Theorem add_then_remove_last (st : State) (prev : list JsVal) :
  editComponents st = JArr prev →
  trim (newComponent st) ≠ "" →
  ∃ st1 st2, handleAddComponent st = Ok st1 ∧
             handleRemoveComponent (length prev) st1 = Ok st2 ∧
             editComponents st2 = editComponents st ∧
             editTitle st2 = editTitle st ∧
             editAnnotation st2 = editAnnotation st.
Proof.
  intros Hprev Hne. unfold handleAddComponent.
  apply truthy_string in Hne. rewrite Hne, Hprev. simpl.
  eexists _, _. split; [reflexivity |]. unfold handleRemoveComponent. simpl.
  split; [reflexivity |]. simpl. rewrite remove_at_take_drop.
  rewrite take_app_length, drop_ge, app_nil_r by (rewrite length_app; simpl; lia).
  repeat split.
Qed.

Lemma add_then_remove_last_witness :
  ∃ st1 st2, handleAddComponent (typed "  Fuse " power_props) = Ok st1 ∧
             handleRemoveComponent 2 st1 = Ok st2 ∧
             editComponents st2 = JArr [JStr "Battery"; JStr "Voltage Regulator"].
Proof.
  destruct (add_then_remove_last (typed "  Fuse " power_props)
              [JStr "Battery"; JStr "Voltage Regulator"] eq_refl)
    as (st1 & st2 & H1 & H2 & H3 & _); [discriminate |].
  exists st1, st2. split; [exact H1 |]. split; [exact H2 | exact H3].
Defined.


Lemma edited_fields_initial (props : Props) (k : string) :
  get_prop (spread (data props) (edited_fields (initial_state props))) k =
    if decide (k = "annotation")
    then or_else (or_else (get_prop (data props) "annotation") (JStr "")) JUndefined
    else get_prop (data props) k.
Proof.
  destruct (decide (k ∈ edited_keys)) as [Hin | Hout].
  - unfold edited_keys in Hin.
    repeat (apply elem_of_cons in Hin as [-> | Hin];
            [unfold get_prop at 1, spread;
             erewrite lookup_union_Some_l by reflexivity; reflexivity |]).
    apply elem_of_nil in Hin. destruct Hin.
  - rewrite decide_False
      by (intros ->; apply Hout; unfold edited_keys; apply list_elem_of_In; simpl; tauto).
    apply BlockNodeFacts.get_prop_ext. unfold spread.
    apply lookup_union_r, BlockNodeFacts.edited_fields_other, Hout.
Qed.

Lemma annotation_normalised (a : JsVal) :
  or_else (or_else a (JStr "")) JUndefined = if truthy a then a else JUndefined.
Proof. unfold or_else. destruct (truthy a) eqn:Ha; [rewrite Ha |]; reflexivity. Qed.

(** X11. Saving a block that was not edited. The annotation is normalised: one
    that is empty or otherwise falsy is stored as [undefined]. When the
    annotation is absent or a non-empty text, every read of the node's data
    gives what it gave before, and so the diagram that would be exported is
    the same. *)
Theorem save_unedited (props : Props) (c : Canvas) (es : list Edge) :
  (∀ n, n ∈ nodes c → node_id n = JStr (id props) → node_data n = data props) →
  let c' := (handleSave (Some handleNodeUpdate) props (initial_state props) c).2 in
  Forall2 (λ n n',
             node_id n' = node_id n ∧
             (node_id n = JStr (id props) →
              get_prop (node_data n') "annotation" =
                if truthy (get_prop (data props) "annotation")
                then get_prop (data props) "annotation" else JUndefined))
          (nodes c) (nodes c') ∧
  (get_prop (data props) "annotation" = JUndefined ∨
   truthy (get_prop (data props) "annotation") = true →
   Forall2 (λ n n', ∀ k, get_prop (node_data n') k = get_prop (node_data n) k)
           (nodes c) (nodes c') ∧
   nodesToDiagram (nodes c') es = nodesToDiagram (nodes c) es).
Proof.
  intros Hdata. cbn zeta. simpl. split.
  - induction (nodes c) as [| n ns IH]; simpl; constructor.
    + destruct (strict_equals (node_id n) (JStr (id props))) eqn:Hn.
      * split; [reflexivity |]. intros _. simpl.
        rewrite (Hdata n); [| left | apply strict_equals_string; exact Hn].
        rewrite edited_fields_initial. simpl. apply annotation_normalised.
      * split; [reflexivity |]. intros Hid.
        apply strict_equals_string in Hid. congruence.
    + apply IH. intros m Hm. apply Hdata. right. exact Hm.
  - intros Hann.
    assert (Forall2 (λ n n', node_id n' = node_id n ∧
                             ∀ k, get_prop (node_data n') k = get_prop (node_data n) k)
              (nodes c)
              ((λ node, if strict_equals (node_id node) (JStr (id props))
                        then merge_data (edited_fields (initial_state props)) node
                        else node) <$> nodes c)) as Hsame.
    { induction (nodes c) as [| n ns IH]; simpl; constructor.
      - destruct (strict_equals (node_id n) (JStr (id props))) eqn:Hn;
          [| split; reflexivity].
        split; [reflexivity |]. intros k. simpl.
        rewrite (Hdata n); [| left | apply strict_equals_string; exact Hn].
        rewrite edited_fields_initial. destruct (decide (k = "annotation")) as [-> |];
          [| reflexivity].
        rewrite annotation_normalised. destruct Hann as [Hu | Ht].
        + rewrite Hu. reflexivity.
        + rewrite Ht. reflexivity.
      - apply IH. intros m Hm. apply Hdata. right. exact Hm. }
    clear Hdata Hann. split.
    + induction Hsame as [| n n' ? ? [_ H] _ IH]; [constructor |].
      constructor; assumption.
    + unfold nodesToDiagram. f_equal.
      induction Hsame as [| n n' ? ? [Hid H] _ IH]; simpl; [reflexivity |].
      f_equal; [| exact IH]. unfold node_to_block. rewrite Hid, !H. reflexivity.
Qed.

(** The power block of the loaded template, saved as it is. *)
Lemma save_unedited_witness :
  nodesToDiagram
    (nodes (handleSave (Some handleNodeUpdate) power_props
                       (initial_state power_props) template_canvas).2) [] =
  nodesToDiagram (nodes template_canvas) [].
Proof.
  apply (save_unedited power_props template_canvas []).
  - intros n Hn. apply list_elem_of_In in Hn. vm_compute in Hn.
    repeat (destruct Hn as [<- | Hn]; [intros; first [reflexivity | discriminate] |]).
    destruct Hn.
  - left. reflexivity.
Defined.

(** X12. Every node of a diagram that satisfies the schema renders: its block
    node gets the class of its category, shows its title and lists its
    components. *)
Theorem schema_nodes_render (d : Diagram) (ns : list Node) :
  schema_ok d = true →
  diagramToNodes d = Ok ns →
  Forall (λ n, ∃ props view t,
            props_of_node n = Some props ∧
            get_prop (data props) "type" = JStr t ∧
            t ∈ block_types ∧
            render props (initial_state props) = Ok view ∧
            view_className view !! 1%nat = Some (JStr ("block-" +:+ t)) ∧
            view_title view = get_prop (data props) "title" ∧
            JArr (view_components view) = get_prop (data props) "components") ns.
Proof.
  unfold schema_ok, diagramToNodes. intros Hd Hns.
  apply andb_prop in Hd as [Hd _]. apply andb_prop in Hd as [_ Hb].
  rewrite forallb_forall in Hb. apply mapM_Ok in Hns.
  induction Hns as [| b n bs ns' Hbn _ IH]; constructor.
  - assert (block_ok b = true) as Hok by (apply Hb; left; reflexivity).
    unfold block_ok in Hok. repeat (apply andb_prop in Hok as [Hok ?]).
    destruct b as [bid btype btitle bcomps bann]. simpl in *.
    destruct bid as [| | | | s | | |]; try discriminate.
    destruct btype as [| | | | t | | |]; try discriminate.
    destruct bcomps as [| | | | | items | |]; try discriminate.
    unfold block_to_node in Hbn. simpl in Hbn. unfold_result.
    injection Hbn as <-.
    assert (t ∈ block_types) as Ht by (eapply bool_decide_eq_true_1; eassumption).
    destruct (BlockNodeFacts.blockStyles_category t Ht) as [icon Hstyle].
    eexists _, _, t. split; [reflexivity |]. split; [reflexivity |]. split; [exact Ht |].
    match goal with |- render ?p _ = _ ∧ _ => set (props := p) end.
    assert (style_of (data props) = Ok (style_entry ("block-" +:+ t) icon)) as Hs.
    { unfold style_of.
      change (get_prop (data props) "type") with (JStr t).
      cbn [ToPropertyKey ToString mbind result_bind mret result_ret].
      rewrite (get_prop_own blockStyles t _ Hstyle). reflexivity. }
    unfold render. rewrite Hs. cbn [mbind result_bind].
    split; [reflexivity |]. repeat split.
  - apply IH. intros x Hx. apply Hb. right. exact Hx.
Qed.

(** The template. *)
Lemma schema_nodes_render_witness :
  ∃ ns, diagramToNodes generateDefaultDiagram = Ok ns ∧
        Forall (λ n, ∃ props view,
                  props_of_node n = Some props ∧
                  render props (initial_state props) = Ok view) ns.
Proof.
  eexists. split; [reflexivity |].
  eapply Forall_impl.
  - apply (schema_nodes_render generateDefaultDiagram); reflexivity.
  - intros n (props & view & t & Hp & _ & _ & Hr & _). exists props, view.
    split; [exact Hp | exact Hr].
Defined.

(** X13. A block of a known category whose components are not an array (the
    endpoint lets such a block through) makes the render throw. *)
Theorem render_needs_component_array (props : Props) (st : State) (key : string) :
  ToPropertyKey (get_prop (data props) "type") = Ok key →
  key ∈ block_types →
  isEditing st = false →
  (∀ items, get_prop (data props) "components" ≠ JArr items) →
  ∃ t, render props st = Throw t.
Proof.
  intros Hk Hin Hedit Harr.
  destruct (BlockNodeFacts.blockStyles_category key Hin) as [icon Hstyle].
  unfold render, style_of. rewrite Hk, Hedit.
  cbn [mbind result_bind mret result_ret].
  rewrite (get_prop_own blockStyles key _ Hstyle).
  change (get (style_entry ("block-" +:+ key) icon) "className")
    with (Ok (A := JsVal) (JStr ("block-" +:+ key))).
  change (get (style_entry ("block-" +:+ key) icon) "icon") with (Ok (A := JsVal) (JStr icon)).
  cbn [mbind result_bind].
  destruct (get_prop (data props) "components") eqn:Hc; try (eexists; reflexivity).
  exfalso. eapply Harr. reflexivity.
Qed.

Lemma render_needs_component_array_witness :
  ∃ t, render bare_props (initial_state bare_props) = Throw t.
Proof.
  apply (render_needs_component_array bare_props (initial_state bare_props) "power").
  - reflexivity.
  - unfold block_types. left.
  - reflexivity.
  - intros items. discriminate.
Defined.

End BlockNodeLaws.

(* ===================================================================== *)
(** ** More on the graph adapter *)
(* ===================================================================== *)

Module AdapterLaws.
Import DiagramUtils Schema AppSpec Examples MoreExamples JsFacts Tactics.

Lemma dash_free_app (a b : string) :
  dash_free (a +:+ b) = dash_free a && dash_free b.
Proof.
  induction a as [| c a IH]; simpl; [reflexivity |].
  rewrite IH. destruct (Ascii.eqb c "-"); reflexivity.
Qed.

Lemma last_segment_app (a s : string) :
  dash_free s = false → last_segment (a +:+ s) = last_segment s.
Proof.
  intros Hs. induction a as [| c a IH]; simpl; [reflexivity |].
  rewrite dash_free_app, Hs, andb_false_r. simpl. exact IH.
Qed.

Lemma last_segment_dash (d : string) :
  dash_free d = true → last_segment ("-" +:+ d) = d.
Proof.
  intros Hd. change ("-" +:+ d) with (String "-" d). cbn [last_segment].
  rewrite Hd. reflexivity.
Qed.

Lemma digits_dash_free (d : Decimal.uint) : dash_free (NilEmpty.string_of_uint d) = true.
Proof. induction d; simpl; try reflexivity; exact IHd. Qed.

Lemma string_of_nat_dash_free (n : nat) : dash_free (string_of_nat n) = true.
Proof.
  unfold string_of_nat, NilZero.string_of_uint.
  destruct (Nat.to_uint n); try reflexivity; apply (digits_dash_free (_ _)).
Qed.

Lemma string_of_nat_inj (i j : nat) : string_of_nat i = string_of_nat j → i = j.
Proof.
  assert (∀ n, Nat.of_uint <$> NilZero.uint_of_string (string_of_nat n) = Some n) as Hdec.
  { intros n. unfold string_of_nat.
    pose proof (DecimalNat.Unsigned.of_to n) as Hn.
    destruct (Nat.to_uint n) eqn:Hu.
    - simpl in Hn. subst n. reflexivity.
    - rewrite NilZero.usu by discriminate. simpl. f_equal. exact Hn.
    - rewrite NilZero.usu by discriminate. simpl. f_equal. exact Hn.
    - rewrite NilZero.usu by discriminate. simpl. f_equal. exact Hn.
    - rewrite NilZero.usu by discriminate. simpl. f_equal. exact Hn.
    - rewrite NilZero.usu by discriminate. simpl. f_equal. exact Hn.
    - rewrite NilZero.usu by discriminate. simpl. f_equal. exact Hn.
    - rewrite NilZero.usu by discriminate. simpl. f_equal. exact Hn.
    - rewrite NilZero.usu by discriminate. simpl. f_equal. exact Hn.
    - rewrite NilZero.usu by discriminate. simpl. f_equal. exact Hn.
    - rewrite NilZero.usu by discriminate. simpl. f_equal. exact Hn. }
  intros H. pose proof (Hdec i) as Hi. rewrite H, Hdec in Hi. congruence.
Qed.

Lemma dash_kept (a s : string) : dash_free s = false → dash_free (a +:+ s) = false.
Proof. intros Hs. rewrite dash_free_app, Hs. apply andb_false_r. Qed.

(** The index an edge id ends with. *)
Lemma edge_id_index (i : nat) (c : Connection) (e : Edge) :
  connection_to_edge i c = Ok e → last_segment (edge_id e) = string_of_nat i.
Proof.
  unfold connection_to_edge.
  destruct (ToString (conn_source c)) as [s |]; simpl; [| discriminate].
  destruct (ToString (conn_target c)) as [t |]; simpl; [| discriminate].
  unfold_result. intros [= <-]. cbn [edge_id].
  assert (dash_free ("-" +:+ string_of_nat i) = false) as H1 by reflexivity.
  pose proof (dash_kept t _ H1) as H2.
  pose proof (dash_kept "-" _ H2) as H3.
  pose proof (dash_kept s _ H3) as H4.
  rewrite (last_segment_app "edge-" _ H4), (last_segment_app s _ H3),
    (last_segment_app "-" _ H2), (last_segment_app t _ H1).
  apply last_segment_dash, string_of_nat_dash_free.
Qed.

(** Each converted edge comes from the connection at its own position. *)
Lemma imap_lookup_Ok {A B} (f : nat → A → Result B) (l : list A) (k : list B) :
  mapM id (imap f l) = Ok k →
  ∀ i y, k !! i = Some y → ∃ x, l !! i = Some x ∧ f i x = Ok y.
Proof.
  revert f k. induction l as [| x l IH]; intros f k H i y Hy; simpl in H.
  - unfold_result. injection H as <-. discriminate.
  - destruct (f 0%nat x) as [y0 |] eqn:H0; simpl in H; [| discriminate].
    destruct (mapM id (imap (f ∘ S) l)) as [k' |] eqn:Hk; simpl in H; [| discriminate].
    unfold_result. injection H as <-. destruct i as [| i]; simpl in Hy.
    + injection Hy as <-. exists x. split; [reflexivity | exact H0].
    + destruct (IH (f ∘ S) k' Hk i y Hy) as (x' & Hx & Hf).
      exists x'. split; [exact Hx | exact Hf].
Qed.

(** X14. The ids of the edges of a diagram are pairwise distinct, even between
    parallel connections: each id ends with the position of its
    connection. *)
Theorem edge_ids_distinct (cs : list Connection) (es : list Edge) :
  connectionsToEdges cs = Ok es →
  NoDup (edge_id <$> es) ∧
  (∀ i e, es !! i = Some e → last_segment (edge_id e) = string_of_nat i).
Proof.
  unfold connectionsToEdges. intros H.
  assert (∀ i e, es !! i = Some e → last_segment (edge_id e) = string_of_nat i) as Hidx.
  { intros i e He. destruct (imap_lookup_Ok _ _ _ H i e He) as (c & _ & Hc).
    eapply edge_id_index. exact Hc. }
  split; [| exact Hidx].
  apply NoDup_alt. intros i j x Hi Hj.
  rewrite list_lookup_fmap in Hi. rewrite list_lookup_fmap in Hj.
  destruct (es !! i) as [e1 |] eqn:H1; [| discriminate].
  destruct (es !! j) as [e2 |] eqn:H2; [| discriminate].
  simpl in Hi, Hj. injection Hi as <-. injection Hj as Hj.
  apply string_of_nat_inj.
  rewrite <- (Hidx i e1 H1), <- (Hidx j e2 H2), Hj. reflexivity.
Qed.

(** Two parallel connections. *)
Lemma edge_ids_distinct_witness :
  ∃ es, connectionsToEdges [parallel_connection; parallel_connection] = Ok es ∧
        NoDup (edge_id <$> es).
Proof.
  eexists. split; [reflexivity |].
  apply (edge_ids_distinct [parallel_connection; parallel_connection]). reflexivity.
Defined.

(** X15. Whatever diagram converts to the presentation comes back with its
    blocks intact and in order, and with its connections in order, each
    with its source and target; a label comes back when it is a string and
    as [undefined] when it is anything else. *)
Theorem round_trip_loses_only_labels (d : Diagram) (ns : list Node) (es : list Edge) :
  diagramToNodes d = Ok ns →
  connectionsToEdges (connections d) = Ok es →
  blocks (nodesToDiagram ns es) = blocks d ∧
  length ns = length (blocks d) ∧
  Forall2 (λ c c', conn_source c' = conn_source c ∧
                   conn_target c' = conn_target c ∧
                   conn_label c' = if is_string (conn_label c)
                                   then conn_label c else JUndefined)
          (connections d) (connections (nodesToDiagram ns es)).
Proof.
  intros Hn He. unfold diagramToNodes in Hn. apply mapM_Ok in Hn.
  split; [| split].
  - simpl. induction Hn as [| b n ? ? Hb _ IH]; simpl; [reflexivity |].
    f_equal; [| exact IH]. eapply AdapterFacts.node_to_block_to_node. exact Hb.
  - symmetry. eapply Forall2_length. exact Hn.
  - simpl. unfold connectionsToEdges in He. clear Hn.
    remember connection_to_edge as f eqn:Hf.
    assert (∀ i c e, f i c = Ok e →
              edge_source e = conn_source c ∧ edge_target e = conn_target c ∧
              edge_label e = conn_label c) as Hstep.
    { intros i c e. subst f. unfold connection_to_edge.
      destruct (ToString (conn_source c)); simpl; [| discriminate].
      destruct (ToString (conn_target c)); simpl; [| discriminate].
      unfold_result. intros [= <-]. repeat split. }
    clear Hf. revert f es He Hstep.
    induction (connections d) as [| c cs IH]; intros f es He Hstep; simpl in He.
    + unfold_result. injection He as <-. constructor.
    + destruct (f 0%nat c) as [e |] eqn:H0; simpl in He; [| discriminate].
      destruct (mapM id (imap (f ∘ S) cs)) as [es' |] eqn:Hes; simpl in He; [| discriminate].
      unfold_result. injection He as <-. simpl. constructor.
      * destruct (Hstep 0%nat c e H0) as (Hs & Ht & Hl).
        unfold edge_to_connection. simpl. rewrite Hs, Ht, Hl. repeat split.
        pose proof (AdapterFacts.canonical_label e) as Hcan.
        unfold edge_to_connection in Hcan. simpl in Hcan. rewrite Hl in Hcan. exact Hcan.
      * apply (IH (f ∘ S) es' Hes). intros i c' e' Hc'. apply (Hstep (S i)). exact Hc'.
Qed.

(** A connection labelled with a number. *)
Lemma round_trip_loses_only_labels_witness :
  ∃ ns es, diagramToNodes numbered_label_diagram = Ok ns ∧
           connectionsToEdges (connections numbered_label_diagram) = Ok es ∧
           blocks (nodesToDiagram ns es) = blocks numbered_label_diagram ∧
           conn_label <$> connections (nodesToDiagram ns es) = [JUndefined].
Proof.
  eexists _, _. split; [reflexivity |]. split; [reflexivity |].
  split; [| reflexivity].
  apply (round_trip_loses_only_labels numbered_label_diagram); reflexivity.
Defined.

(** X16. The canonical form is stable: what [nodesToDiagram] produces, once
    converted to the presentation, converts back to itself. *)
Theorem canonical_form_stable (ns ns' : list Node) (es es' : list Edge) :
  diagramToNodes (nodesToDiagram ns es) = Ok ns' →
  connectionsToEdges (connections (nodesToDiagram ns es)) = Ok es' →
  nodesToDiagram ns' es' = nodesToDiagram ns es.
Proof.
  intros Hn He. apply AdapterFacts.round_trip_of_presentation; [| exact Hn | exact He].
  simpl. apply Forall_forall. intros c Hc.
  apply list_elem_of_fmap in Hc as (e & -> & _).
  rewrite AdapterFacts.canonical_label. destruct (edge_label e); reflexivity.
Qed.

(** The loaded template, after a connect gesture. *)
Lemma canonical_form_stable_witness :
  ∃ ns' es',
    diagramToNodes (nodesToDiagram (DiagramCanvas.nodes connected_canvas)
                                   (DiagramCanvas.edges connected_canvas)) = Ok ns' ∧
    nodesToDiagram ns' es' =
      nodesToDiagram (DiagramCanvas.nodes connected_canvas)
                     (DiagramCanvas.edges connected_canvas).
Proof.
  eexists _, _. split; [reflexivity |].
  apply (canonical_form_stable (DiagramCanvas.nodes connected_canvas) _
                               (DiagramCanvas.edges connected_canvas)); reflexivity.
Defined.

End AdapterLaws.

(* ===================================================================== *)
(** ** More on the endpoint: every answer it can give *)
(* ===================================================================== *)

Module EndpointLaws.
Import DiagramUtils GenerateDiagram Schema EndpointSpec AppSpec Examples MoreExamples.
Import JsFacts Tactics MoreTactics.

(** What the validation can answer. *)
Lemma validate_blocks_outcomes (d : JsVal) (r : Response) :
  validate_blocks d = Ok r →
  error_answer r 500 "AI did not generate exactly 5 blocks" ∨
  (diagram_answer r d ∧
   ∃ b, get d "blocks" = Ok b ∧ truthy b = true ∧ get b "length" = Ok (JNum 5)).
Proof.
  unfold validate_blocks.
  destruct (get d "blocks") as [b |] eqn:Hb; cbn [mbind result_bind]; [| discriminate].
  destruct (truthy b) eqn:Ht; cbn [negb mbind result_bind mret result_ret].
  - destruct (get b "length") as [len |] eqn:Hl; cbn [mbind result_bind]; [| discriminate].
    destruct (strict_equals len (JNum 5)) eqn:H5; cbn [negb].
    + intros [= <-]. right. split; [reflexivity |].
      exists b. split; [reflexivity |]. split; [exact Ht |].
      apply CanvasLaws.strict_equals_eq in H5. subst len. exact Hl.
    + intros [= <-]. left. reflexivity.
  - intros [= <-]. left. reflexivity.
Qed.

(** What the handler can answer once the gateway has answered. *)
Lemma gateway_outcomes (w : World) (response : GatewayResponse) (r : Response) :
  on_gateway_response w response = Ok r →
  (ok response = false ∧
   (error_answer r 429 "Rate limit exceeded. Please try again later." ∨
    error_answer r 402 "Usage limit reached. Please add credits." ∨
    error_answer r 500 "Failed to generate diagram")) ∨
  (ok response = true ∧
   (error_answer r 500 "Invalid response from AI" ∨
    error_answer r 500 "AI did not generate exactly 5 blocks" ∨
    ∃ d b, diagram_answer r d ∧ get d "blocks" = Ok b ∧ truthy b = true ∧
           get b "length" = Ok (JNum 5))).
Proof.
  unfold on_gateway_response. destruct (ok response); cbn [negb].
  - intros H. right. split; [reflexivity |].
    destruct (JSON_parse w (JStr (gw_text response))) as [data |];
      cbn [mbind result_bind] in H; [| discriminate].
    unfold extract_tool_call in H.
    destruct (get data "choices") as [choices |]; cbn [mbind result_bind] in H;
      [| discriminate].
    destruct (opt_get choices "0") as [choice |]; cbn [mbind result_bind] in H;
      [| discriminate].
    destruct (opt_get choice "message") as [message |]; cbn [mbind result_bind] in H;
      [| discriminate].
    destruct (opt_get message "tool_calls") as [tool_calls |]; cbn [mbind result_bind] in H;
      [| discriminate].
    destruct (opt_get tool_calls "0") as [toolCall |]; cbn [mbind result_bind] in H;
      [| discriminate].
    destruct (truthy toolCall); cbn [negb mbind result_bind mret result_ret] in H.
    + destruct (get toolCall "function") as [fn |]; cbn [mbind result_bind] in H;
        [| discriminate].
      destruct (get fn "name") as [name |]; cbn [mbind result_bind] in H; [| discriminate].
      destruct (negb (strict_equals name (JStr "generate_block_diagram"))).
      * injection H as <-. left. reflexivity.
      * destruct (get fn "arguments") as [arguments |]; cbn [mbind result_bind] in H;
          [| discriminate].
        destruct (JSON_parse w arguments) as [d |]; cbn [mbind result_bind] in H;
          [| discriminate].
        destruct (validate_blocks_outcomes d r H) as [Hrej | [Hacc Hb]].
        -- right. left. exact Hrej.
        -- right. right. destruct Hb as (b & Hb). exists d, b. split; [exact Hacc | exact Hb].
    + injection H as <-. left. reflexivity.
  - intros H. left. split; [reflexivity |].
    destruct (response_text w response) as [errorText |]; cbn [mbind result_bind] in H;
      [| discriminate].
    destruct (gw_status response =? 429); [injection H as <-; left; reflexivity |].
    destruct (gw_status response =? 402); injection H as <-; right; [left | right]; reflexivity.
Qed.

(** Every way the [try] block can end. *)
Lemma try_block_outcomes (w : World) (req : Request) :
  (∃ t, try_block w req = (Throw t, [])) ∨
  (∃ payload description,
     req_json req = Ok payload ∧ destructure payload "description" = Ok description ∧
     nonempty_string description = false ∧
     try_block w req = (Ok (error_response 400 "Description is required"), [])) ∨
  ((env_get w "LOVABLE_API_KEY" = None ∨ env_get w "LOVABLE_API_KEY" = Some "") ∧
   try_block w req = (Ok (error_response 500 "AI service not configured"), [])) ∨
  (∃ call, reaches_gateway_or_preflight w req call ∧
           try_block w req = (fetch w call ≫= on_gateway_response w, [call])).
Proof.
  unfold try_block.
  destruct (req_json req) as [payload |] eqn:Hp; cbn [h_lift h_bind];
    [| left; eexists; reflexivity].
  destruct (destructure payload "description") as [description |] eqn:Hd;
    cbn [h_lift h_bind]; [| left; eexists; reflexivity].
  rewrite EndpointFacts.description_check.
  destruct (nonempty_string description) eqn:Hn; cbn [negb].
  - destruct description as [| | | | s | | |]; try discriminate.
    destruct (env_get w "LOVABLE_API_KEY") as [[| a k] |] eqn:Hk.
    + right. right. left. split; [right; reflexivity | reflexivity].
    + right. right. right. exists (gateway_call (String a k) s). split.
      * exists payload, s, (String a k). repeat split; try assumption; try discriminate.
        simpl in Hn. apply negb_true_iff, String.eqb_neq in Hn. exact Hn.
      * cbn [ToString h_lift h_bind h_fetch].
        destruct (fetch w (gateway_call (String a k) s));
          cbn [app mbind result_bind]; reflexivity.
    + right. right. left. split; [left; reflexivity | reflexivity].
  - right. left. exists payload, description. repeat split; assumption.
Qed.

(** Every way the handler can answer a request that is not a preflight. *)
Lemma serve_outcomes (w : World) (req : Request) :
  req_method req ≠ "OPTIONS" →
  (∃ t, error_answer (serve w req).1 500 (catch_message t) ∧
        (length (serve w req).2 ≤ 1)%nat) ∨
  (error_answer (serve w req).1 400 "Description is required" ∧ (serve w req).2 = [] ∧
   ∃ payload description,
     req_json req = Ok payload ∧ destructure payload "description" = Ok description ∧
     nonempty_string description = false) ∨
  (error_answer (serve w req).1 500 "AI service not configured" ∧ (serve w req).2 = []) ∨
  (∃ call response,
     (serve w req).2 = [call] ∧ fetch w call = Ok response ∧
     on_gateway_response w response = Ok (serve w req).1).
Proof.
  intros Hm. unfold serve. apply String.eqb_neq in Hm. rewrite Hm.
  destruct (try_block_outcomes w req)
    as [[t ->] | [(payload & description & Hp & Hd & Hn & ->) | [[_ ->] | (call & _ & ->)]]].
  - left. exists t. split; [reflexivity | simpl; lia].
  - right. left. split; [reflexivity |]. split; [reflexivity |].
    exists payload, description. repeat split; assumption.
  - right. right. left. split; reflexivity.
  - destruct (fetch w call) as [response |] eqn:Hf; cbn [mbind result_bind].
    + destruct (on_gateway_response w response) as [r |] eqn:Hr.
      * right. right. right. exists call, response. repeat split; assumption.
      * left. exists t. split; [reflexivity | simpl; lia].
    + left. exists t. split; [reflexivity | simpl; lia].
Qed.

Lemma cors_kept (content_type : string) :
  corsHeaders ⊆ <["Content-Type" := content_type]> corsHeaders.
Proof. apply insert_subseteq. reflexivity. Qed.

(** X17. Every answer of the endpoint has one of the statuses 200, 400, 402, 429
    and 500 and carries the CORS headers, and the handler calls the gateway
    at most once. An answer to anything but a preflight is JSON: either an
    object with an error message or, under status 200, an object with the
    diagram. *)
Theorem answers_well_formed (w : World) (req : Request) :
  status (serve w req).1 ∈ answer_statuses ∧
  corsHeaders ⊆ headers (serve w req).1 ∧
  (length (serve w req).2 ≤ 1)%nat ∧
  (req_method req ≠ "OPTIONS" →
   headers (serve w req).1 !! "Content-Type" = Some "application/json" ∧
   ((∃ st message, error_answer (serve w req).1 st message ∧ st ≠ 200) ∨
    (∃ d, diagram_answer (serve w req).1 d))).
Proof.
  destruct (String.eqb (req_method req) "OPTIONS") eqn:Hm.
  - unfold serve. rewrite Hm. simpl. split; [left |]. split; [reflexivity |].
    split; [lia |]. intros Hne. apply String.eqb_eq in Hm. contradiction.
  - apply String.eqb_neq in Hm.
    assert (∀ r st m, error_answer r st m → st ∈ answer_statuses →
              status r ∈ answer_statuses ∧ corsHeaders ⊆ headers r ∧
              headers r !! "Content-Type" = Some "application/json") as Herr.
    { intros r st m -> Hst. split; [exact Hst |]. split; [apply cors_kept | reflexivity]. }
    assert (∀ r d, diagram_answer r d →
              status r ∈ answer_statuses ∧ corsHeaders ⊆ headers r ∧
              headers r !! "Content-Type" = Some "application/json") as Hdia.
    { intros r d ->. split; [left |]. split; [apply cors_kept | reflexivity]. }
    assert (∀ n : Z, n ∈ [400; 402; 429; 500] → n ∈ answer_statuses ∧ n ≠ 200) as Hst.
    { intros n Hn. split; [right; exact Hn |].
      intros ->. repeat (apply elem_of_cons in Hn as [Hn | Hn]; [discriminate |]).
      apply elem_of_nil in Hn. exact Hn. }
    assert (∀ st m, error_answer (serve w req).1 st m → st ∈ [400; 402; 429; 500] →
              (length (serve w req).2 ≤ 1)%nat →
              status (serve w req).1 ∈ answer_statuses ∧
              corsHeaders ⊆ headers (serve w req).1 ∧
              (length (serve w req).2 ≤ 1)%nat ∧
              (req_method req ≠ "OPTIONS" →
               headers (serve w req).1 !! "Content-Type" = Some "application/json" ∧
               ((∃ st message, error_answer (serve w req).1 st message ∧ st ≠ 200) ∨
                (∃ d, diagram_answer (serve w req).1 d)))) as Hclose.
    { intros st m He Hin Hlen. destruct (Hst st Hin) as [Hs Hne].
      destruct (Herr _ st m He Hs) as (H1 & H2 & H3).
      split; [exact H1 |]. split; [exact H2 |]. split; [exact Hlen |].
      intros _. split; [exact H3 |]. left. exists st, m. split; assumption. }
    destruct (serve_outcomes w req Hm)
      as [(t & He & Hlen) | [(He & Hc & _) | [(He & Hc) | (call & response & Hc & _ & Hr)]]].
    + apply (Hclose _ _ He); [in_literals | exact Hlen].
    + apply (Hclose _ _ He); [in_literals | rewrite Hc; simpl; lia].
    + apply (Hclose _ _ He); [in_literals | rewrite Hc; simpl; lia].
    + assert (length (serve w req).2 ≤ 1)%nat as Hlen by (rewrite Hc; simpl; lia).
      destruct (gateway_outcomes w response _ Hr)
        as [[_ [He | [He | He]]] | [_ [He | [He | (d & b & Hd & _)]]]];
        try (apply (Hclose _ _ He); [in_literals | exact Hlen]).
      destruct (Hdia _ d Hd) as (H1 & H2 & H3).
      split; [exact H1 |]. split; [exact H2 |]. split; [exact Hlen |].
      intros _. split; [exact H3 |]. right. exists d. exact Hd.
Qed.

(** The speaker request against a gateway that answers 503. *)
Lemma answers_well_formed_witness :
  headers (serve (world 503 JNull) speaker_request).1 !! "Content-Type" =
    Some "application/json".
Proof.
  apply (answers_well_formed (world 503 JNull) speaker_request). discriminate.
Defined.

(** X18. Status 200 on a generation request means a diagram was validated: the
    gateway was called once, and the body carries a diagram whose [blocks]
    have length five. *)
Theorem success_means_five_blocks (w : World) (req : Request) :
  req_method req ≠ "OPTIONS" →
  status (serve w req).1 = 200 →
  ∃ d b call,
    diagram_answer (serve w req).1 d ∧
    get d "blocks" = Ok b ∧ truthy b = true ∧ get b "length" = Ok (JNum 5) ∧
    (serve w req).2 = [call].
Proof.
  intros Hm H200.
  assert (∀ st m, error_answer (serve w req).1 st m → st ≠ 200 → False) as Hno.
  { intros st m He Hne. rewrite He in H200. simpl in H200. congruence. }
  destruct (serve_outcomes w req Hm)
    as [(t & He & _) | [(He & _) | [(He & _) | (call & response & Hc & _ & Hr)]]];
    try (exfalso; apply (Hno _ _ He); discriminate).
  destruct (gateway_outcomes w response _ Hr)
    as [[_ [He | [He | He]]] | [_ [He | [He | (d & b & Hd & Hb & Ht & Hl)]]]];
    try (exfalso; apply (Hno _ _ He); discriminate).
  exists d, b, call. repeat split; assumption.
Qed.

(** The template as the model's answer. *)
Lemma success_means_five_blocks_witness :
  ∃ d b call,
    diagram_answer (serve (world 200 template_json) speaker_request).1 d ∧
    get d "blocks" = Ok b ∧ truthy b = true ∧ get b "length" = Ok (JNum 5) ∧
    (serve (world 200 template_json) speaker_request).2 = [call].
Proof.
  apply (success_means_five_blocks (world 200 template_json) speaker_request).
  - discriminate.
  - reflexivity.
Defined.

(** A request whose description is a non-empty string is never answered
    with status 400. *)
Lemma accepted_description_not_400 (w : World) (req : Request) (payload description : JsVal) :
  req_json req = Ok payload →
  destructure payload "description" = Ok description →
  nonempty_string description = true →
  status (serve w req).1 ≠ 400.
Proof.
  intros Hp Hd Hn H400.
  destruct (String.eqb (req_method req) "OPTIONS") eqn:Hm.
  { unfold serve in H400. rewrite Hm in H400. discriminate. }
  apply String.eqb_neq in Hm.
  assert (∀ st m, error_answer (serve w req).1 st m → st ≠ 400 → False) as Hno.
  { intros st m He Hne. rewrite He in H400. simpl in H400. congruence. }
  destruct (serve_outcomes w req Hm)
    as [(t & He & _) | [(_ & _ & p' & d' & Hp' & Hd' & Hn') | [(He & _) | (call & response & _ & _ & Hr)]]].
  - apply (Hno _ _ He). discriminate.
  - congruence.
  - apply (Hno _ _ He). discriminate.
  - destruct (gateway_outcomes w response _ Hr)
      as [[_ [He | [He | He]]] | [_ [He | [He | (d & b & Hd0 & _)]]]];
      try (apply (Hno _ _ He); discriminate).
    rewrite Hd0 in H400. discriminate.
Qed.

(** X19. Status 400 is given for one reason only: the body was read and its
    description is not a non-empty string; the gateway was not called. *)
Theorem bad_request_only_for_description (w : World) (req : Request) :
  status (serve w req).1 = 400 →
  (serve w req).2 = [] ∧
  error_answer (serve w req).1 400 "Description is required" ∧
  ∃ payload description,
    req_json req = Ok payload ∧ destructure payload "description" = Ok description ∧
    nonempty_string description = false.
Proof.
  intros H400.
  destruct (String.eqb (req_method req) "OPTIONS") eqn:Hm.
  { unfold serve in H400. rewrite Hm in H400. discriminate. }
  apply String.eqb_neq in Hm.
  assert (∀ st m, error_answer (serve w req).1 st m → st ≠ 400 → False) as Hno.
  { intros st m He Hne. rewrite He in H400. simpl in H400. congruence. }
  destruct (serve_outcomes w req Hm)
    as [(t & He & _) | [(He & Hc & Hd) | [(He & _) | (call & response & Hc & _ & Hr)]]].
  - exfalso. apply (Hno _ _ He). discriminate.
  - split; [exact Hc |]. split; [exact He | exact Hd].
  - exfalso. apply (Hno _ _ He). discriminate.
  - destruct (gateway_outcomes w response _ Hr)
      as [[_ [He | [He | He]]] | [_ [He | [He | (d & b & Hd & _)]]]];
      try (exfalso; apply (Hno _ _ He); discriminate).
    rewrite Hd in H400. discriminate.
Qed.


(** An empty description. *)
Lemma bad_request_only_for_description_witness :
  (serve (world 200 JNull) (post (obj [("description", JStr "")]))).2 = [].
Proof.
  apply (bad_request_only_for_description (world 200 JNull)
           (post (obj [("description", JStr "")]))).
  reflexivity.
Defined.

(** X20. Without an API key (unset, or set to the empty string) a generation
    request with an acceptable description is answered 500 with
    [AI service not configured], and the gateway is not called. *)
Theorem service_not_configured (w : World) (req : Request) (payload : JsVal)
    (description : string) :
  req_method req ≠ "OPTIONS" →
  req_json req = Ok payload →
  destructure payload "description" = Ok (JStr description) →
  description ≠ "" →
  env_get w "LOVABLE_API_KEY" = None ∨ env_get w "LOVABLE_API_KEY" = Some "" →
  serve w req = (error_response 500 "AI service not configured", []).
Proof.
  intros Hm Hp Hd Hne Hkey. unfold serve, try_block.
  apply String.eqb_neq in Hm. rewrite Hm, Hp. cbn [h_lift h_bind].
  rewrite Hd. cbn [h_lift h_bind]. rewrite EndpointFacts.description_check.
  simpl nonempty_string. apply String.eqb_neq in Hne. rewrite Hne. cbn [negb].
  destruct Hkey as [-> | ->]; reflexivity.
Qed.

Lemma service_not_configured_witness :
  serve unconfigured_world speaker_request =
    (error_response 500 "AI service not configured", []).
Proof.
  apply (service_not_configured unconfigured_world speaker_request
           (obj [("description", JStr "Bluetooth speaker with RGB lighting effects")])
           "Bluetooth speaker with RGB lighting effects");
    [discriminate | reflexivity | reflexivity | discriminate | right; reflexivity].
Defined.

(** X21. Whatever is thrown inside the handler is answered 500 with the message
    of the error: a body that cannot be read, a gateway that cannot be
    reached (one call was made), a gateway answer that is not JSON. *)
Theorem thrown_errors_answered (w : World) (req : Request) (t : Thrown) :
  req_method req ≠ "OPTIONS" →
  (req_json req = Throw t →
     serve w req = (error_response 500 (catch_message t), [])) ∧
  (∀ call, reaches_gateway w req call → fetch w call = Throw t →
     serve w req = (error_response 500 (catch_message t), [call])) ∧
  (∀ call response, reaches_gateway w req call → fetch w call = Ok response →
     ok response = true → JSON_parse w (JStr (gw_text response)) = Throw t →
     serve w req = (error_response 500 (catch_message t), [call])).
Proof.
  intros Hm. split; [| split].
  - intros Hj. unfold serve, try_block. apply String.eqb_neq in Hm.
    rewrite Hm, Hj. reflexivity.
  - intros call Hreach Hf. rewrite (EndpointFacts.serve_gateway w req call Hreach), Hf.
    reflexivity.
  - intros call response Hreach Hf Hok Hj.
    rewrite (EndpointFacts.serve_gateway w req call Hreach), Hf.
    cbn [mbind result_bind]. unfold on_gateway_response. rewrite Hok, Hj. reflexivity.
Qed.

(** A body that is not JSON. *)
Lemma thrown_errors_answered_witness :
  serve (world 200 JNull)
        {| req_method := "POST";
           req_json := Throw (SyntaxError "Unexpected end of JSON input") |} =
    (error_response 500 "Unexpected end of JSON input", []).
Proof.
  apply (thrown_errors_answered (world 200 JNull)
           {| req_method := "POST";
              req_json := Throw (SyntaxError "Unexpected end of JSON input") |}
           (SyntaxError "Unexpected end of JSON input")).
  - discriminate.
  - reflexivity.
Defined.

(** X22. A gateway answer without the expected tool call is answered 500 with
    [Invalid response from AI]: when [choices] is absent, [null] or empty,
    and when the first tool call names another function; the arguments of
    such a call are not parsed. *)
Theorem unexpected_tool_call (w : World) (req : Request) (call : FetchCall)
    (response : GatewayResponse) (data : JsVal) :
  reaches_gateway w req call →
  fetch w call = Ok response →
  ok response = true →
  JSON_parse w (JStr (gw_text response)) = Ok data →
  (∀ choices, get data "choices" = Ok choices →
     choices = JUndefined ∨ choices = JNull ∨ choices = JArr [] →
     serve w req = (error_response 500 "Invalid response from AI", [call])) ∧
  (∀ choices choice message tool_calls toolCall fn name,
     get data "choices" = Ok choices →
     opt_get choices "0" = Ok choice →
     opt_get choice "message" = Ok message →
     opt_get message "tool_calls" = Ok tool_calls →
     opt_get tool_calls "0" = Ok toolCall →
     truthy toolCall = true →
     get toolCall "function" = Ok fn →
     get fn "name" = Ok name →
     name ≠ JStr "generate_block_diagram" →
     serve w req = (error_response 500 "Invalid response from AI", [call])).
Proof.
  intros Hreach Hf Hok Hdata.
  assert (serve w req =
          (match extract_tool_call w data with
           | Ok r => r
           | Throw t => error_response 500 (catch_message t)
           end, [call])) as ->.
  { rewrite (EndpointFacts.serve_gateway w req call Hreach), Hf.
    cbn [mbind result_bind]. unfold on_gateway_response. rewrite Hok, Hdata. reflexivity. }
  split.
  - intros choices Hc Hcases. unfold extract_tool_call. rewrite Hc.
    destruct Hcases as [-> | [-> | ->]]; reflexivity.
  - intros choices choice message tool_calls toolCall fn name
      Hc Hchoice Hmessage Hcalls Hcall Htruthy Hfn Hname Hne.
    unfold extract_tool_call.
    rewrite Hc. cbn [mbind result_bind].
    rewrite Hchoice. cbn [mbind result_bind].
    rewrite Hmessage. cbn [mbind result_bind].
    rewrite Hcalls. cbn [mbind result_bind].
    rewrite Hcall. cbn [mbind result_bind].
    rewrite Htruthy. cbn [negb].
    rewrite Hfn. cbn [mbind result_bind].
    rewrite Hname. cbn [mbind result_bind mret result_ret].
    apply strict_equals_string_false in Hne. rewrite Hne. reflexivity.
Qed.

(** A gateway answer with an empty list of choices. *)
Lemma unexpected_tool_call_witness :
  serve no_choice_world speaker_request =
    (error_response 500 "Invalid response from AI",
     [gateway_call "secret" "Bluetooth speaker with RGB lighting effects"]).
Proof.
  apply (proj1 (unexpected_tool_call no_choice_world speaker_request _
                  {| gw_status := 200; gw_text := "ANSWER" |}
                  (obj [("choices", JArr [])])
                  (EndpointFacts.speaker_reaches_gateway 200 JNull)
                  eq_refl eq_refl eq_refl) (JArr [])).
  - reflexivity.
  - right. right. reflexivity.
Defined.

End EndpointLaws.

(* ===================================================================== *)
(** ** The input panel and the page *)
(* ===================================================================== *)

Module PageLaws.
Import DiagramUtils GenerateDiagram Schema EndpointSpec AppSpec Examples MoreExamples.
Import JsFacts Tactics MoreTactics.

(** X23. What the input panel submits. The handler calls [onSubmit] exactly when
    the submit button is enabled: the trimmed text is not empty and no
    request is pending. What it passes is the trimmed text, which has no
    white space around it, and the endpoint never answers it with status
    400. *)
Theorem submitted_description (isLoading : bool) (description : string) :
  (InputPanel.handleSubmit isLoading description = None ↔
   InputPanel.submit_disabled isLoading description = true) ∧
  (∀ t, InputPanel.handleSubmit isLoading description = Some t →
     isLoading = false ∧
     t = BlockNode.trim description ∧
     t ≠ "" ∧
     BlockNode.trim t = t ∧
     ∀ w method,
       status_of w method t ≠ 400).
Proof.
  unfold InputPanel.handleSubmit, InputPanel.submit_disabled. split.
  - destruct (truthy (JStr (BlockNode.trim description))), isLoading; simpl;
      split; congruence.
  - intros t Ht.
    destruct (truthy (JStr (BlockNode.trim description))) eqn:Htr; [| discriminate].
    destruct isLoading; [discriminate |]. simpl in Ht. injection Ht as <-.
    apply BlockNodeLaws.truthy_string in Htr.
    split; [reflexivity |]. split; [reflexivity |]. split; [exact Htr |].
    split; [apply BlockNodeLaws.trim_idem |].
    intros w method. unfold status_of.
    eapply EndpointLaws.accepted_description_not_400; [reflexivity | reflexivity |].
    simpl. apply negb_true_iff, String.eqb_neq. exact Htr.
Qed.

(** A padded description. *)
Lemma submitted_description_witness :
  status_of (world 429 JNull) "POST" "Smart doorbell" ≠ 400.
Proof.
  apply (proj2 (submitted_description false "  Smart doorbell ") "Smart doorbell").
  reflexivity.
Defined.


(** *** The labels of the examples *)

Lemma substring_length (n : nat) (s : string) :
  String.length (String.substring 0 n s) = Nat.min n (String.length s).
Proof.
  revert n. induction s as [| c s IH]; intros [| n]; simpl; try reflexivity.
  rewrite IH. reflexivity.
Qed.

Lemma append_length (a b : string) :
  String.length (a +:+ b) = (String.length a + String.length b)%nat.
Proof. induction a as [| c a IH]; simpl; [reflexivity | rewrite IH; reflexivity]. Qed.

Lemma substring_split (n : nat) (s : string) :
  ∃ rest, s = String.substring 0 n s +:+ rest.
Proof.
  revert n. induction s as [| c s IH]; intros [| n]; simpl.
  - exists "". reflexivity.
  - exists "". reflexivity.
  - eexists. reflexivity.
  - destruct (IH n) as [rest Hrest]. exists rest.
    change (String c s = String c (String.substring 0 n s +:+ rest)).
    rewrite <- Hrest. reflexivity.
Qed.

(** X24. The button of an example shows at most 33 characters: the example
    itself if it has at most 30, else its first 30 followed by three
    dots. *)
Theorem example_label_bounded (example : string) :
  (String.length (InputPanel.example_label example) <= 33)%nat ∧
  ((String.length example <= 30)%nat → InputPanel.example_label example = example) ∧
  ((30 < String.length example)%nat →
   ∃ shown rest, example = shown +:+ rest ∧ String.length shown = 30%nat ∧
                 InputPanel.example_label example = shown +:+ "...").
Proof.
  unfold InputPanel.example_label.
  destruct (30 <? String.length example)%nat eqn:Hlen.
  - apply Nat.ltb_lt in Hlen.
    assert (String.length (String.substring 0 30 example) = 30%nat) as H30.
    { rewrite substring_length. lia. }
    split; [rewrite append_length, H30; simpl; lia |].
    split; [lia |]. intros _.
    destruct (substring_split 30 example) as [rest Hrest].
    exists (String.substring 0 30 example), rest. repeat split; assumption.
  - apply Nat.ltb_ge in Hlen. split; [lia |]. split; [reflexivity | lia].
Qed.

(** The first example of the panel. *)
Lemma example_label_bounded_witness :
  ∃ shown rest,
    "Smart doorbell with camera and motion sensor" = shown +:+ rest ∧
    String.length shown = 30%nat ∧
    InputPanel.example_label "Smart doorbell with camera and motion sensor" =
      shown +:+ "...".
Proof.
  apply (proj2 (proj2 (example_label_bounded
                         "Smart doorbell with camera and motion sensor"))).
  simpl. lia.
Defined.

(** *** The page reads the received value as the typed adapter does *)

Lemma mapM_bind {A B C} (f : A → Result B) (g : B → Result C) (l : list A) (k : list B) :
  mapM f l = Ok k → mapM (λ x, y ← f x; g y) l = mapM g k.
Proof.
  revert k. induction l as [| x l IH]; intros k; simpl.
  - intros [= <-]. reflexivity.
  - destruct (f x) as [y |] eqn:Hx; simpl; [| discriminate].
    destruct (mapM f l) as [k' |] eqn:Hl; simpl; [| discriminate].
    intros [= <-]. simpl. rewrite (IH k' eq_refl). reflexivity.
Qed.

Lemma mapM_imap_bind {A B C} (f : A → Result B) (g : nat → B → Result C)
    (l : list A) (k : list B) :
  mapM f l = Ok k →
  mapM id (imap (λ i x, y ← f x; g i y) l) = mapM id (imap g k).
Proof.
  revert g k. induction l as [| x l IH]; intros g k; simpl.
  - intros [= <-]. reflexivity.
  - destruct (f x) as [y |] eqn:Hx; simpl; [| discriminate].
    destruct (mapM f l) as [k' |] eqn:Hl; simpl; [| discriminate].
    intros [= <-]. simpl.
    rewrite <- (IH (g ∘ S) k' eq_refl). reflexivity.
Qed.

(** What a value that reads as a diagram looks like. *)
Lemma diagram_of_json_inv (v : JsVal) (d : Diagram) :
  diagram_of_json v = Ok d →
  ∃ block_items cs connection_items,
    get v "blocks" = Ok (JArr block_items) ∧
    mapM block_of_json block_items = Ok (blocks d) ∧
    get v "connections" = Ok cs ∧
    array_receiver cs "map" = Ok connection_items ∧
    mapM connection_of_json connection_items = Ok (connections d).
Proof.
  unfold diagram_of_json. intros H.
  destruct (get v "blocks") as [bs |] eqn:Hbs; [| discriminate].
  cbn [mbind result_bind] in H.
  destruct (array_receiver bs "map") as [block_items |] eqn:Hbi; [| discriminate].
  cbn [mbind result_bind] in H.
  destruct (mapM block_of_json block_items) as [bl |] eqn:Hbl; [| discriminate].
  cbn [mbind result_bind] in H.
  destruct (get v "connections") as [cs |] eqn:Hcs; [| discriminate].
  cbn [mbind result_bind] in H.
  destruct (array_receiver cs "map") as [connection_items |] eqn:Hci; [| discriminate].
  cbn [mbind result_bind] in H.
  destruct (mapM connection_of_json connection_items) as [cl |] eqn:Hcl; [| discriminate].
  cbn [mbind result_bind mret result_ret] in H. injection H as <-.
  exists block_items, cs, connection_items.
  destruct bs; try discriminate. injection Hbi as ->.
  repeat split; assumption || reflexivity.
Qed.

Lemma diagram_of_json_truthy (v : JsVal) (d : Diagram) :
  diagram_of_json v = Ok d → truthy v = true.
Proof.
  intros H. apply diagram_of_json_inv in H as (bi & _ & _ & Hb & _).
  destruct v as [| | b | n | s | items | o | name]; try discriminate; try reflexivity.
Qed.

Lemma json_nodes (v : JsVal) (d : Diagram) :
  diagram_of_json v = Ok d → Index.diagramToNodes_json v = diagramToNodes d.
Proof.
  intros H. apply diagram_of_json_inv in H as (bi & cs & ci & Hb & Hbl & _).
  unfold Index.diagramToNodes_json, diagramToNodes. rewrite Hb.
  cbn [mbind result_bind array_receiver].
  apply mapM_bind. exact Hbl.
Qed.

Lemma json_edges (v : JsVal) (d : Diagram) :
  diagram_of_json v = Ok d →
  ∃ cs, get v "connections" = Ok cs ∧
        Index.connectionsToEdges_json cs = connectionsToEdges (connections d).
Proof.
  intros H. apply diagram_of_json_inv in H as (bi & cs & ci & _ & _ & Hcs & Hci & Hcl).
  exists cs. split; [exact Hcs |].
  unfold Index.connectionsToEdges_json, connectionsToEdges. rewrite Hci.
  cbn [mbind result_bind].
  apply mapM_imap_bind. exact Hcl.
Qed.

(** Once the nodes were made, the count in the success toast is read from
    an array. *)
Lemma nodes_made_inv (v : JsVal) (ns : list Node) :
  Index.diagramToNodes_json v = Ok ns →
  ∃ items, get v "blocks" = Ok (JArr items) ∧ length items = length ns.
Proof.
  unfold Index.diagramToNodes_json. intros H.
  destruct (get v "blocks") as [bs |] eqn:Hbs; [| discriminate].
  cbn [mbind result_bind] in H.
  destruct bs; try discriminate.
  cbn [array_receiver mbind result_bind] in H.
  eexists. split; [reflexivity |].
  apply mapM_Ok in H. eapply Forall2_length. exact H.
Qed.

(** X25. A generation is all or nothing. Whatever the function client resolves
    to or throws, the handler ends with the loading flag down, the
    description recorded and exactly one toast. Either that toast reports
    an error and the diagram on the page is the one from before, or it
    reports success with the number of nodes made, and nodes and edges were
    both replaced by what the adapter made of the received diagram. *)
Theorem generation_all_or_nothing (invoke : string → Result (JsVal * JsVal))
    (description : string) (p : Index.Page) :
  let after := (Index.handleGenerateDiagram invoke description p).1 in
  let shown := (Index.handleGenerateDiagram invoke description p).2 in
  Index.isLoading after = false ∧
  Index.currentDescription after = description ∧
  ((∃ message, shown = [Index.ToastError message] ∧
      Index.nodes after = Index.nodes p ∧ Index.edges after = Index.edges p ∧
      Index.hasGenerated after = Index.hasGenerated p)
   ∨
   (∃ data error diagram connections,
      invoke description = Ok (data, error) ∧ truthy error = false ∧
      opt_get data "diagram" = Ok diagram ∧ truthy diagram = true ∧
      Index.diagramToNodes_json diagram = Ok (Index.nodes after) ∧
      get diagram "connections" = Ok connections ∧
      Index.connectionsToEdges_json connections = Ok (Index.edges after) ∧
      Index.hasGenerated after = true ∧
      shown = [Index.ToastSuccess
                 ("Generated diagram with " +:+
                  string_of_Z (Z.of_nat (length (Index.nodes after))) +:+ " blocks!")])).
Proof.
  unfold Index.handleGenerateDiagram, Index.try_generate.
  destruct (invoke description) as [[data error] | t] eqn:Hinv; cbn zeta;
    [| split; [reflexivity |]; split; [reflexivity |]; left;
       eexists; repeat split; reflexivity].
  destruct (truthy error) eqn:Herr.
  { split; [reflexivity |]. split; [reflexivity |]. left.
    destruct (Index.either (Index.message_includes error "429")
                           (Index.message_includes error "Rate limit")) as [[|] |];
      cbn [mbind result_bind];
      [eexists; repeat split; reflexivity | | eexists; repeat split; reflexivity].
    destruct (Index.either (Index.message_includes error "402")
                           (Index.message_includes error "Payment")) as [[|] |];
      cbn [mbind result_bind]; eexists; repeat split; reflexivity. }
  destruct (opt_get data "diagram") as [diagram | t] eqn:Hd;
    [| split; [reflexivity |]; split; [reflexivity |]; left;
       eexists; repeat split; reflexivity].
  destruct (truthy diagram) eqn:Htr; cbn [negb];
    [| split; [reflexivity |]; split; [reflexivity |]; left;
       eexists; repeat split; reflexivity].
  destruct (Index.diagramToNodes_json diagram) as [ns | t] eqn:Hns; cbn [mbind result_bind];
    [| split; [reflexivity |]; split; [reflexivity |]; left;
       eexists; repeat split; reflexivity].
  destruct (get diagram "connections") as [cs | t] eqn:Hcs; cbn [mbind result_bind];
    [| split; [reflexivity |]; split; [reflexivity |]; left;
       eexists; repeat split; reflexivity].
  destruct (Index.connectionsToEdges_json cs) as [es | t] eqn:Hes; cbn [mbind result_bind];
    [| split; [reflexivity |]; split; [reflexivity |]; left;
       eexists; repeat split; reflexivity].
  split; [reflexivity |]. split; [reflexivity |]. right.
  exists data, error, diagram, cs.
  destruct (nodes_made_inv _ _ Hns) as (items & Hb & Hlen).
  rewrite Hb. cbn [mbind result_bind]. rewrite get_array_length.
  cbn [mbind result_bind ToString]. rewrite Hlen.
  repeat split; assumption || reflexivity.
Qed.

(** X26. A generation that works, followed by an export. When the client
    resolves to a diagram of the schema, the page shows the adapter's nodes
    and edges for it, the toast counts five blocks, and an export made then
    puts that very diagram and the submitted description in the data it
    serialises into the file. *)
Theorem generate_then_export (invoke : string → Result (JsVal * JsVal))
    (description : string) (p : Index.Page) (data error v : JsVal) (d : Diagram) :
  invoke description = Ok (data, error) →
  truthy error = false →
  opt_get data "diagram" = Ok v →
  diagram_of_json v = Ok d →
  schema_ok d = true →
  ∃ ns es,
    diagramToNodes d = Ok ns ∧
    connectionsToEdges (connections d) = Ok es ∧
    Index.handleGenerateDiagram invoke description p =
      ({| Index.nodes := ns; Index.edges := es; Index.isLoading := false;
          Index.currentDescription := description; Index.hasGenerated := true |},
       [Index.ToastSuccess "Generated diagram with 5 blocks!"]) ∧
    ∀ clock,
      let file := DiagramExport.exportDiagramAsJson ns es description clock in
      Index.handleExport clock (Index.handleGenerateDiagram invoke description p).1 =
        ((Index.handleGenerateDiagram invoke description p).1,
         [Index.Downloaded file; Index.ToastSuccess "Diagram exported as JSON!"]) ∧
      DiagramExport.diagram (DiagramExport.download_content file) = d ∧
      DiagramExport.description (DiagramExport.download_content file) = description.
Proof.
  intros Hinv Herr Hget Hv Hd.
  destruct (AdapterFacts.schema_presentable d Hd) as (ns & es & Hns & Hes).
  exists ns, es. split; [exact Hns |]. split; [exact Hes |].
  pose proof (json_nodes v d Hv) as Hjn. rewrite Hns in Hjn.
  destruct (json_edges v d Hv) as (cs & Hcs & Hje). rewrite Hes in Hje.
  destruct (nodes_made_inv _ _ Hjn) as (items & Hb & Hlen).
  assert (length ns = 5%nat) as H5.
  { unfold schema_ok in Hd. apply andb_prop in Hd as [Hd _].
    apply andb_prop in Hd as [Hd _]. apply Nat.eqb_eq in Hd.
    unfold diagramToNodes in Hns. apply mapM_Ok in Hns.
    apply Forall2_length in Hns. congruence. }
  assert (Index.handleGenerateDiagram invoke description p =
          ({| Index.nodes := ns; Index.edges := es; Index.isLoading := false;
              Index.currentDescription := description; Index.hasGenerated := true |},
           [Index.ToastSuccess "Generated diagram with 5 blocks!"])) as Hgen.
  { unfold Index.handleGenerateDiagram, Index.try_generate.
    rewrite Hinv, Herr, Hget, (diagram_of_json_truthy v d Hv). cbn [negb].
    rewrite Hjn. cbn [mbind result_bind]. rewrite Hcs. cbn [mbind result_bind].
    rewrite Hje. cbn [mbind result_bind]. rewrite Hb. cbn [mbind result_bind].
    rewrite get_array_length. cbn [mbind result_bind ToString].
    rewrite Hlen, H5. reflexivity. }
  split; [exact Hgen |].
  intros clock file. rewrite Hgen. cbn [fst].
  split; [| split].
  - unfold Index.handleExport. cbn [Index.nodes Index.edges Index.currentDescription].
    rewrite H5. reflexivity.
  - unfold file. cbn.
    apply AdapterFacts.round_trip_of_presentation; [| assumption | assumption].
    unfold schema_ok in Hd. apply andb_prop in Hd as [_ Hc].
    apply Forall_forall. intros c Hc'. rewrite forallb_forall in Hc.
    apply list_elem_of_In in Hc'. specialize (Hc c Hc').
    unfold connection_ok in Hc. apply andb_prop in Hc as [_ Hc]. exact Hc.
  - reflexivity.
Qed.

(** The template, as the function would send it. *)
Lemma generate_then_export_witness :
  ∃ ns es,
    diagramToNodes generateDefaultDiagram = Ok ns ∧
    connectionsToEdges (connections generateDefaultDiagram) = Ok es ∧
    Index.handleGenerateDiagram template_client "Speaker" Index.initial =
      ({| Index.nodes := ns; Index.edges := es; Index.isLoading := false;
          Index.currentDescription := "Speaker"; Index.hasGenerated := true |},
       [Index.ToastSuccess "Generated diagram with 5 blocks!"]).
Proof.
  destruct (generate_then_export template_client "Speaker" Index.initial
              (GenerateDiagram.obj [("diagram", template_json)]) JNull
              template_json generateDefaultDiagram)
    as (ns & es & Hns & Hes & Hgen & _);
    [reflexivity | reflexivity | reflexivity | vm_compute; reflexivity | reflexivity |].
  exists ns, es. split; [exact Hns |]. split; [exact Hes |]. exact Hgen.
Defined.

(** X27. What an export writes. The page is left as it was. With no node on the
    page nothing is downloaded, so nothing is after a reset. Otherwise one
    file is downloaded, in whose data the diagram and the React Flow data agree:
    the blocks have the ids of the nodes, the connections the ends of the
    edges, in the same order. *)
Theorem export_writes_page (clock : DiagramExport.Clock) (p : Index.Page) :
  (Index.handleExport clock p).1 = p ∧
  (Index.handleExport clock (Index.handleReset p).1).2 =
    [Index.ToastError "No diagram to export. Generate a diagram first."] ∧
  (Index.nodes p = [] →
   (Index.handleExport clock p).2 =
     [Index.ToastError "No diagram to export. Generate a diagram first."]) ∧
  (Index.nodes p ≠ [] →
   ∃ file,
     (Index.handleExport clock p).2 =
       [Index.Downloaded file; Index.ToastSuccess "Diagram exported as JSON!"] ∧
     let content := DiagramExport.download_content file in
     DiagramExport.diagram content = nodesToDiagram (Index.nodes p) (Index.edges p) ∧
     DiagramExport.description content = Index.currentDescription p ∧
     block_id <$> blocks (DiagramExport.diagram content) =
       DiagramExport.flow_id <$> DiagramExport.reactFlowData_nodes content ∧
     conn_source <$> connections (DiagramExport.diagram content) =
       DiagramExport.flow_source <$> DiagramExport.reactFlowData_edges content ∧
     conn_target <$> connections (DiagramExport.diagram content) =
       DiagramExport.flow_target <$> DiagramExport.reactFlowData_edges content).
Proof.
  unfold Index.handleExport. split; [| split; [| split]].
  - destruct (length (Index.nodes p) =? 0)%nat; reflexivity.
  - reflexivity.
  - intros ->. reflexivity.
  - intros Hne. destruct (Index.nodes p) as [| n ns] eqn:Hn; [contradiction |].
    cbn [length Nat.eqb]. eexists. split; [reflexivity |].
    cbn [DiagramExport.download_content DiagramExport.exportDiagramAsJson
         DiagramExport.diagram DiagramExport.description
         DiagramExport.reactFlowData_nodes DiagramExport.reactFlowData_edges].
    split; [reflexivity |]. split; [reflexivity |].
    unfold nodesToDiagram. cbn [blocks connections].
    rewrite <- !list_fmap_compose. repeat split; reflexivity.
Qed.

(** The template on the page. *)
Lemma export_writes_page_witness :
  ∃ file,
    (Index.handleExport {| DiagramExport.toISOString := "2024-01-01T00:00:00.000Z";
                           DiagramExport.now := 1704067200000 |}
                        (loaded_page Index.initial)).2 =
      [Index.Downloaded file; Index.ToastSuccess "Diagram exported as JSON!"].
Proof.
  destruct (proj2 (proj2 (proj2
              (export_writes_page {| DiagramExport.toISOString := "2024-01-01T00:00:00.000Z";
                                     DiagramExport.now := 1704067200000 |}
                                  (loaded_page Index.initial)))))
    as (file & Hfile & _); [discriminate |].
  exists file. exact Hfile.
Defined.

(** X28. Loading the template never throws, whatever the page was: the page
    then holds five nodes and four edges that stand for the template,
    every edge joins two of the nodes, and only the loading flag is kept
    from before. *)
Theorem load_default (p : Index.Page) :
  ∃ after,
    Index.handleLoadDefault p = Ok (after, [Index.ToastSuccess "Loaded default template."]) ∧
    Index.isLoading after = Index.isLoading p ∧
    Index.hasGenerated after = true ∧
    Index.currentDescription after = "Default template diagram" ∧
    length (Index.nodes after) = 5%nat ∧ length (Index.edges after) = 4%nat ∧
    nodesToDiagram (Index.nodes after) (Index.edges after) = generateDefaultDiagram ∧
    dangling_free (Index.nodes after) (Index.edges after) ∧
    synced (Index.mount after).
Proof.
  eexists. split; [reflexivity |]. cbn [Index.isLoading Index.hasGenerated
    Index.currentDescription Index.nodes Index.edges].
  do 5 (split; [reflexivity |]).
  split; [vm_compute; reflexivity |].
  split; [apply CanvasLaws.dangling_free_by_test; vm_compute; reflexivity |].
  split; reflexivity.
Qed.

End PageLaws.
